(** * A shallow embedding of the Telegram VTU bot

    The development follows the layout of the repository:

    - [Js]        the fragment of JavaScript values the handlers compute with
                  (numbers, strings, JSON values, exceptions);
    - [Eff]       a small state-and-exception monad for handler bodies;
    - [Database]  [services/database.js], the wallet ledger and the
                  transaction record store;
    - [Paystack]  [services/paystack.js], the payment gateway adapter;
    - [VTPass]    [services/vtpass.js], the billing provider adapter;
    - [Reference] the transaction references of [index.js];
    - [Bot]       [index.js]: the message handler;
    - [Reconcile] [index.js]: the payment webhook and the polling fallback;
    - [Samples]   stores, sessions and events for the examples.

    The properties follow the definitions, in the same order.

    Idealisations, stated once:
    - a JavaScript number is [NaN] or an exact rational; binary rounding
      and the two infinities are outside the model ([Handlers.plain_amount]
      delimits the amounts a user can type on which this changes no
      decision of a handler);
    - a string is a sequence of bytes, the UTF-8 encoding of the text;
      white space is recognised in that encoding, letters change case in
      ASCII only;
    - every handler runs to completion before the next event is taken;
    - the record store and the chat platform do what they are asked: a
      call to them fails only where the code of the repository throws;
    - what the payment gateway and the billing provider answer is an input
      of the handler that asks. *)

From Stdlib Require Import ZArith QArith Qround Lqa String Ascii List Lia.
From stdpp Require Import base option list strings gmap pretty.
From Equations Require Import Equations.

Set Warnings "-register-all".
Local Open Scope string_scope.

(* ===================================================================== *)
(** * JavaScript values *)
(* ===================================================================== *)

Module Js.

(** ** Numbers *)

Inductive number :=
| NaN
| Num (q : Q).

Definition Qltb (a b : Q) : bool := negb (Qle_bool b a).

(** [isNaN(n)] *)
Definition isNaN (n : number) : bool :=
  match n with NaN => true | Num _ => false end.

(** [a < b]; any comparison with [NaN] is false. *)
Definition lt (a b : number) : bool :=
  match a, b with
  | Num x, Num y => Qltb x y
  | _, _ => false
  end.

Definition add (a b : number) : number :=
  match a, b with
  | Num x, Num y => Num (x + y)
  | _, _ => NaN
  end.

Definition sub (a b : number) : number :=
  match a, b with
  | Num x, Num y => Num (x - y)
  | _, _ => NaN
  end.

(** [a / 100] *)
Definition div100 (a : number) : number :=
  match a with
  | Num x => Num (x / 100)
  | NaN => NaN
  end.

(** [!n] on a number: zero and [NaN] are falsy. *)
Definition falsy_number (n : number) : bool :=
  match n with
  | NaN => true
  | Num q => Qeq_bool q 0
  end.

(** [q.toFixed(2)] read back as a number: the nearest multiple of 1/100,
    ties away from zero. *)
Definition round_cents (q : Q) : Z := Qfloor (q * 100 + (1 # 2)).

Definition toFixed2_Q (q : Q) : Q :=
  if Qltb q 0 then - (round_cents (- q) # 100) else round_cents q # 100.

(** [parseFloat(n.toFixed(2))] *)
Definition toFixed2 (n : number) : number :=
  match n with
  | Num q => Num (toFixed2_Q q)
  | NaN => NaN
  end.

(** ** Strings *)

Definition is_digit (c : ascii) : bool :=
  let n := nat_of_ascii c in (48 <=? n)%nat && (n <=? 57)%nat.

(** White space, as [trim] and [parseFloat] see it ([WhiteSpace] and
    [LineTerminator]), in its UTF-8 encoding.  One byte: space, tab, line
    feed, vertical tab, form feed, carriage return. *)
Definition is_space (c : ascii) : bool :=
  let n := nat_of_ascii c in
  ((n =? 32) || (n =? 9) || (n =? 10) || (n =? 11) || (n =? 12) || (n =? 13))%nat.

(** Two bytes: U+00A0 ([C2 A0]). *)
Definition is_space2 (c1 c2 : ascii) : bool :=
  ((nat_of_ascii c1 =? 194) && (nat_of_ascii c2 =? 160))%nat.

(** Three bytes: U+1680 ([E1 9A 80]), U+2000 to U+200A ([E2 80 80] to
    [E2 80 8A]), U+2028 and U+2029 ([E2 80 A8], [E2 80 A9]), U+202F
    ([E2 80 AF]), U+205F ([E2 81 9F]), U+3000 ([E3 80 80]) and U+FEFF
    ([EF BB BF]). *)
Definition is_space3 (c1 c2 c3 : ascii) : bool :=
  let a := nat_of_ascii c1 in
  let b := nat_of_ascii c2 in
  let c := nat_of_ascii c3 in
  ((a =? 225) && (b =? 154) && (c =? 128)
   || (a =? 226) && (b =? 128)
      && ((128 <=? c) && (c <=? 138) || (c =? 168) || (c =? 169) || (c =? 175))
   || (a =? 226) && (b =? 129) && (c =? 159)
   || (a =? 227) && (b =? 128) && (c =? 128)
   || (a =? 239) && (b =? 187) && (c =? 191))%nat.

Fixpoint filter_chars (keep : ascii -> bool) (s : string) : string :=
  match s with
  | EmptyString => EmptyString
  | String c r => if keep c then String c (filter_chars keep r) else filter_chars keep r
  end.

Fixpoint all_chars (p : ascii -> bool) (s : string) : bool :=
  match s with
  | EmptyString => true
  | String c r => p c && all_chars p r
  end.

(** [s.replace(/\D/g, "")] *)
Definition strip_non_digits (s : string) : string := filter_chars is_digit s.

(** [s.replace(/[<>{}]/g, "")] *)
Definition sanitize (s : string) : string :=
  filter_chars
    (fun c => negb (Ascii.eqb c "<" || Ascii.eqb c ">" || Ascii.eqb c "{" || Ascii.eqb c "}"))
    s.

(** [/^\d{10,14}$/.test(s)] *)
Definition phone_ok (s : string) : bool :=
  all_chars is_digit s && (10 <=? String.length s)%nat && (String.length s <=? 14)%nat.

(** [/^\d{10,}$/.test(s)] *)
Definition long_digits_ok (s : string) : bool :=
  all_chars is_digit s && (10 <=? String.length s)%nat.

Definition lower_char (c : ascii) : ascii :=
  let n := nat_of_ascii c in
  if (65 <=? n)%nat && (n <=? 90)%nat then ascii_of_nat (n + 32) else c.

(** [s.toLowerCase()] on the ASCII letters. *)
Fixpoint toLowerCase (s : string) : string :=
  match s with
  | EmptyString => EmptyString
  | String c r => String (lower_char c) (toLowerCase r)
  end.

(** [s.trimStart()]: the text without the white space characters it
    starts with. *)
Fixpoint trim_start (s : string) : string :=
  match s with
  | EmptyString => EmptyString
  | String c1 r1 =>
      if is_space c1 then trim_start r1
      else
        match r1 with
        | String c2 r2 =>
            if is_space2 c1 c2 then trim_start r2
            else
              match r2 with
              | String c3 r3 => if is_space3 c1 c2 c3 then trim_start r3 else s
              | EmptyString => s
              end
        | EmptyString => s
        end
  end.

(** [s.trimEnd()]: a byte is kept as long as what starts with it is not
    white space to the end. *)
Fixpoint trim_end (s : string) : string :=
  match s with
  | EmptyString => EmptyString
  | String c r =>
      if String.eqb (trim_start s) EmptyString then EmptyString
      else String c (trim_end r)
  end.

(** [s.trim()] *)
Definition trim (s : string) : string := trim_end (trim_start s).

(** [s.split(sep)] for a one-character separator: the pieces between the
    separators, in order; a string without separator is its only piece. *)
Fixpoint split (sep : ascii) (s : string) : list string :=
  match s with
  | EmptyString => [EmptyString]
  | String c r =>
      if Ascii.eqb c sep then EmptyString :: split sep r
      else match split sep r with
           | [] => [String c EmptyString]
           | piece :: pieces => String c piece :: pieces
           end
  end.

Definition has_char (c : ascii) (s : string) : bool :=
  negb (all_chars (fun d => negb (Ascii.eqb d c)) s).

(** ** [parseFloat] on a string

    The longest prefix, after leading white space, that is a decimal literal
    (sign, digits, fraction, exponent).  The literal [Infinity] denotes a
    value outside the model and is read as [NaN] here. *)

Definition digit_val (c : ascii) : Z := Z.of_nat (nat_of_ascii c) - 48.

(** Reads a run of digits: its value, its length and what follows it. *)
Fixpoint read_digits (s : string) (acc : Z) (count : nat) : Z * nat * string :=
  match s with
  | EmptyString => (acc, count, s)
  | String c r =>
      if is_digit c then read_digits r (acc * 10 + digit_val c) (S count)
      else (acc, count, s)
  end.

Definition read_sign (s : string) : Z * string :=
  match s with
  | String c r =>
      if Ascii.eqb c "+" then (1%Z, r)
      else if Ascii.eqb c "-" then ((-1)%Z, r)
      else (1%Z, s)
  | EmptyString => (1%Z, s)
  end.

(** The exponent part, when one is there: [e] or [E], a sign, digits. *)
Definition read_exponent (s : string) : Z :=
  match s with
  | String c r =>
      if Ascii.eqb c "e" || Ascii.eqb c "E" then
        let '(sg, r1) := read_sign r in
        let '(e, n, _) := read_digits r1 0 0 in
        match n with O => 0%Z | S _ => (sg * e)%Z end
      else 0%Z
  | EmptyString => 0%Z
  end.

Definition read_mantissa (s : string) : option (Q * string) :=
  let '(ip, ni, r1) := read_digits s 0 0 in
  let whole := match ni with O => None | S _ => Some (inject_Z ip, r1) end in
  match r1 with
  | String c r2 =>
      if Ascii.eqb c "." then
        let '(fp, nf, r3) := read_digits r2 0 0 in
        match ni, nf with
        | O, O => None
        | _, _ => Some ((inject_Z ip + inject_Z fp / inject_Z (10 ^ Z.of_nat nf))%Q, r3)
        end
      else whole
  | EmptyString => whole
  end.

Definition parseFloat_string (s : string) : number :=
  let '(sg, r0) := read_sign (trim_start s) in
  match read_mantissa r0 with
  | None => NaN
  | Some (m, rest) => Num (inject_Z sg * m * Qpower 10 (read_exponent rest))%Q
  end.

(** ** JSON values *)

Inductive value :=
| Undefined
| Null
| Bool (b : bool)
| Number (n : number)
| Str (s : string)
| Arr (items : list value)
| Obj (fields : list (string * value)).

Definition of_nat (n : nat) : value := Number (Num (inject_Z (Z.of_nat n))).

(** Truthiness, as [!v], [a || b] and [if (v)] see it. *)
Definition truthy (v : value) : bool :=
  match v with
  | Undefined | Null => false
  | Bool b => b
  | Number n => negb (falsy_number n)
  | Str s => negb (String.eqb s "")
  | Arr _ | Obj _ => true
  end.

(** [a || b] *)
Definition or_else (a b : value) : value := if truthy a then a else b.

Fixpoint assoc (k : string) (fields : list (string * value)) : value :=
  match fields with
  | [] => Undefined
  | (k', v) :: rest => if String.eqb k k' then v else assoc k rest
  end.

(** [v?.k]: a missing property, or a property of [undefined] or [null],
    reads as [undefined]. *)
Definition prop (v : value) (k : string) : value :=
  match v with
  | Obj fields => assoc k fields
  | Arr items => if String.eqb k "length" then of_nat (length items) else Undefined
  | Str s => if String.eqb k "length" then of_nat (String.length s) else Undefined
  | _ => Undefined
  end.

(** [v === "s"] *)
Definition is_str (v : value) (s : string) : bool :=
  match v with
  | Str t => String.eqb t s
  | _ => false
  end.

(** [parseFloat(v)]: a number is read back as itself, a string is parsed,
    an array is parsed through its first element (its text starts with that
    element's), every other value prints as a word that is no number. *)
Fixpoint parseFloat (v : value) : number :=
  match v with
  | Number n => n
  | Str s => parseFloat_string s
  | Arr (x :: _) => parseFloat x
  | _ => NaN
  end.

(** The fields [{...v}] copies: those of an object, the indices of an array
    or of a string, none for the other values. *)
Definition spread (v : value) : list (string * value) :=
  match v with
  | Obj fields => fields
  | Arr items => imap (fun i x => (pretty i, x)) items
  | Str s => imap (fun i c => (pretty i, Str (String c EmptyString))) (list_ascii_of_string s)
  | _ => []
  end.

(** An object literal [{k1: v1, ..., ...v}]: a later field of the same name
    wins, so the copied fields come first in the association list. *)
Definition obj_with_spread (own : list (string * value)) (v : value) : value :=
  Obj (spread v ++ own).

(** ** Exceptions *)

Inductive error :=
| Error (message : string)
| TypeError
| SyntaxError.

Inductive outcome (A : Type) :=
| Ok (a : A)
| Throw (e : error).
Arguments Ok {A} a.
Arguments Throw {A} e.

(** [v.k] where [v] must be defined. *)
Definition member (v : value) (k : string) : outcome value :=
  match v with
  | Undefined | Null => Throw TypeError
  | _ => Ok (prop v k)
  end.

(** What [Date.now()] and [ID.unique()] answer while one handler runs. *)
Record ambient := { now : N; unique : string }.

End Js.

(* ===================================================================== *)
(** * Handler bodies: state and exceptions *)
(* ===================================================================== *)

Module Eff.
Import Js.

(** A computation over a store [S]: writes made before a [throw] stay. *)
Definition M (S A : Type) : Type := S -> outcome A * S.

Definition ret {S A} (a : A) : M S A := fun s => (Ok a, s).

Definition throw {S A} (e : error) : M S A := fun s => (Throw e, s).

Definition bind {S A B} (m : M S A) (k : A -> M S B) : M S B :=
  fun s =>
    match m s with
    | (Ok a, s') => k a s'
    | (Throw e, s') => (Throw e, s')
    end.

(** [try { m } catch (e) { h e }] *)
Definition try_catch {S A} (m : M S A) (h : error -> M S A) : M S A :=
  fun s =>
    match m s with
    | (Ok a, s') => (Ok a, s')
    | (Throw e, s') => h e s'
    end.

Definition get {S} : M S S := fun s => (Ok s, s).

Definition modify {S} (f : S -> S) : M S unit := fun s => (Ok tt, f s).

(** A pure, possibly throwing, step. *)
Definition lift {S A} (o : outcome A) : M S A := fun s => (o, s).

(** Runs a computation over a part [T] of the store [S]. *)
Definition zoom {S T A} (proj : S -> T) (upd : T -> S -> S) (m : M T A) : M S A :=
  fun s => let '(o, t') := m (proj s) in (o, upd t' s).

Declare Scope eff_scope.
Delimit Scope eff_scope with eff.
Notation "'let*' x ':=' m 'in' k" := (bind m (fun x => k))
  (at level 10, x name, m at level 100, k at level 200) : eff_scope.
Notation "m ';;' k" := (bind m (fun _ => k))
  (at level 100, k at level 200, right associativity) : eff_scope.

End Eff.

(* ===================================================================== *)
(** * Object literals used as tables *)
(* ===================================================================== *)

Module Tables.

(** The names an object literal inherits from [Object.prototype].  Indexed
    by one of them a table answers a function (or the prototype itself),
    values outside the model. *)
Definition inherited (key : string) : bool :=
  existsb (String.eqb key)
    ["constructor"; "hasOwnProperty"; "isPrototypeOf"; "propertyIsEnumerable";
     "toLocaleString"; "toString"; "valueOf"; "__proto__";
     "__defineGetter__"; "__defineSetter__"; "__lookupGetter__"; "__lookupSetter__"].

(** What [table[key]] finds: an entry of the literal, nothing
    ([undefined]), or an inherited member. *)
Inductive entry (A : Type) :=
| Own (a : A)
| Absent
| Inherited.
Arguments Own {A} a.
Arguments Absent {A}.
Arguments Inherited {A}.

Definition lookup {A} (table : list (string * A)) (key : string) : entry A :=
  match List.find (fun kv => String.eqb (fst kv) key) table with
  | Some (_, a) => Own a
  | None => if inherited key then Inherited else Absent
  end.

End Tables.

(* ===================================================================== *)
(** * [services/database.js] *)
(* ===================================================================== *)

Module Database.
Import Js Eff.
Local Open Scope eff_scope.

(** The three collections.  A document carries its [$id]; a collection
    lists its documents in the order they were created, the order in which
    [listDocuments] answers when the query names no other. *)

Record user := {
  user_id : string;            (* $id *)
  telegramId : string }.

Record wallet := {
  wallet_id : string;          (* $id *)
  wallet_userId : string;
  balance : number }.

Record transaction := {
  tx_id : string;              (* $id *)
  tx_userId : string;
  tx_type : string;
  tx_amount : number;
  tx_reference : value;
  tx_details : value;          (* the value the stored JSON text denotes *)
  tx_status : string;
  tx_createdAt : N }.

Record t := {
  users : list user;
  wallets : list wallet;
  transactions : list transaction }.

Definition with_wallets (ws : list wallet) (d : t) : t :=
  {| users := users d; wallets := ws; transactions := transactions d |}.

Definition with_transactions (txs : list transaction) (d : t) : t :=
  {| users := users d; wallets := wallets d; transactions := txs |}.

(** The argument [getUserByTelegramId] receives: [msg.from.id] is a number,
    a part of a reference is a string or [undefined]. *)
Inductive telegram_arg :=
| ArgUndefined
| ArgNumber (z : Z)
| ArgString (s : string).

(** [!telegramId] *)
Definition arg_missing (a : telegram_arg) : bool :=
  match a with
  | ArgUndefined => true
  | ArgNumber z => (z =? 0)%Z
  | ArgString s => String.eqb s ""
  end.

(** [telegramId.toString()] *)
Definition arg_toString (a : telegram_arg) : string :=
  match a with
  | ArgUndefined => ""
  | ArgNumber z => pretty z
  | ArgString s => s
  end.

(** [listDocuments(.., [Query.equal(..)])] followed by
    [response.documents[0] || null]: the first document that matches. *)
Definition first_match {A} (p : A -> bool) (documents : list A) : option A :=
  List.find p documents.

Definition getUserByTelegramId (telegramId : telegram_arg) : M t (option user) :=
  if arg_missing telegramId then throw (Error "telegramId is required")
  else
    let* d := get in
    ret (first_match
           (fun u => String.eqb (Database.telegramId u) (arg_toString telegramId))
           (users d)).

Definition getUserWallet (userId : string) : M t (option wallet) :=
  if String.eqb userId "" then throw (Error "userId is required")
  else
    let* d := get in
    ret (first_match (fun w => String.eqb (wallet_userId w) userId) (wallets d)).

(** [updateDocument(.., WALLETS, id, { balance })] *)
Definition set_balance (id : string) (b : number) (ws : list wallet) : list wallet :=
  map (fun w =>
         if String.eqb (wallet_id w) id
         then {| wallet_id := wallet_id w; wallet_userId := wallet_userId w; balance := b |}
         else w) ws.

(** [parseFloat] of a number, here of [wallet.balance] and of [amount], is
    that number. *)
Definition updateWalletBalance (userId : string) (amount : number) (type : string)
  : M t unit :=
  if String.eqb userId "" || isNaN amount || lt amount (Num 0)
  then throw (Error "Invalid userId or amount")
  else
    let* wallet := getUserWallet userId in
    match wallet with
    | None => throw (Error "Wallet not found")
    | Some wallet =>
        let currentBalance := balance wallet in
        let amt := amount in
        let newBalance :=
          if String.eqb type "credit" then add currentBalance amt
          else sub currentBalance amt in
        if lt newBalance (Num 0) then throw (Error "Insufficient balance")
        else
          let formattedBalance := toFixed2 newBalance in
          modify (fun d => with_wallets (set_balance (wallet_id wallet) formattedBalance (wallets d)) d)
    end.

Definition createTransaction (env : ambient) (userId type : string) (amount : number)
    (details : value) (status : string) : M t unit :=
  if String.eqb userId "" || falsy_number amount || String.eqb type ""
  then throw (Error "Invalid transaction data: Missing userId, amount, or type")
  else
    let reference := prop details "reference" in
    if negb (truthy reference)
    then throw (Error "Transaction 'reference' is required inside details object")
    else
      let payload :=
        {| tx_id := unique env;
           tx_userId := userId;
           tx_type := type;
           tx_amount := toFixed2 amount;
           tx_reference := reference;
           tx_details := details;
           tx_status := status;
           tx_createdAt := now env |} in
      modify (fun d => with_transactions (transactions d ++ [payload]) d).

Definition with_status (status : string) (x : transaction) : transaction :=
  {| tx_id := tx_id x; tx_userId := tx_userId x; tx_type := tx_type x;
     tx_amount := tx_amount x; tx_reference := tx_reference x;
     tx_details := tx_details x; tx_status := status;
     tx_createdAt := tx_createdAt x |}.

Definition restatus (id status : string) (x : transaction) : transaction :=
  if String.eqb (tx_id x) id then with_status status x else x.

(** [updateDocument(.., TRANSACTIONS, id, { status })] *)
Definition set_status (id status : string) (txs : list transaction) : list transaction :=
  map (restatus id status) txs.

(** [updateTransaction(id, { status })]; the store refuses the id of no
    document. *)
Definition updateTransaction (transactionId status : string) : M t unit :=
  if String.eqb transactionId ""
  then throw (Error "transactionId and updates are required")
  else
    let* d := get in
    if existsb (fun x => String.eqb (tx_id x) transactionId) (transactions d)
    then modify (fun d => with_transactions (set_status transactionId status (transactions d)) d)
    else throw (Error "Document with the requested ID could not be found.").

(** [Query.orderDesc("createdAt")]: newest first. *)
Fixpoint insert_desc (x : transaction) (l : list transaction) : list transaction :=
  match l with
  | [] => [x]
  | y :: r =>
      if (tx_createdAt y <? tx_createdAt x)%N then x :: l else y :: insert_desc x r
  end.

Definition orderDesc_createdAt (l : list transaction) : list transaction :=
  foldr insert_desc [] l.

Definition getUserTransactions (userId : string) (limit : nat) : M t (list transaction) :=
  if String.eqb userId "" then throw (Error "userId is required")
  else
    let* d := get in
    ret (take limit
           (orderDesc_createdAt
              (List.filter (fun x => String.eqb (tx_userId x) userId) (transactions d)))).

Definition findTransactionByReference (reference : string) : M t (option transaction) :=
  let* d := get in
  ret (first_match (fun x => is_str (tx_reference x) reference) (transactions d)).

(** A ledger call, and a sequence of them; a call that throws leaves the
    store as the throw found it. *)
Record ledger_call := {
  call_userId : string;
  call_amount : number;
  call_type : string }.

Definition run_call (c : ledger_call) (d : t) : t :=
  snd (updateWalletBalance (call_userId c) (call_amount c) (call_type c) d).

Definition run_calls (cs : list ledger_call) (d : t) : t :=
  foldl (fun d c => run_call c d) d cs.

(** Every stored balance is a number that is not negative. *)
Definition balance_nonneg (w : wallet) : Prop :=
  match balance w with
  | Num q => (0 <= q)%Q
  | NaN => False
  end.

Definition balances_nonneg (d : t) : Prop := Forall balance_nonneg (wallets d).

(** ** Accounts

    Of a user document the model keeps [$id] and [telegramId]: the fields
    [firstName], [lastName], [username] and [createdAt] are written by
    [createUser] and read by no code of the repository.  The same holds for
    the [createdAt] of a wallet. *)

Definition with_users (us : list user) (d : t) : t :=
  {| users := us; wallets := wallets d; transactions := transactions d |}.

(** [ensureUserWallet(userId)]; [fresh] is what [ID.unique()] answers when
    the wallet document is created. *)
Definition ensureUserWallet (fresh : string) (userId : string) : M t wallet :=
  if String.eqb userId "" then throw (Error "userId is required")
  else
    let* wallet := getUserWallet userId in
    match wallet with
    | None =>
        let created := {| wallet_id := fresh; wallet_userId := userId; balance := Num 0 |} in
        modify (fun d => with_wallets (wallets d ++ [created]) d) ;;
        ret created
    | Some wallet => ret wallet
    end.

(** [createUser(telegramId, firstName, lastName, username)]; [fresh_user]
    and [fresh_wallet] are what [ID.unique()] answers for the two documents.
    A first name that is [undefined] is the empty string here: both are
    falsy. *)
Definition createUser (fresh_user fresh_wallet : string) (telegramId : telegram_arg)
    (firstName lastName username : string) : M t user :=
  if arg_missing telegramId || String.eqb firstName ""
  then throw (Error "telegramId and firstName are required")
  else
    let* existing := getUserByTelegramId telegramId in
    match existing with
    | Some existing =>
        ensureUserWallet fresh_wallet (user_id existing) ;;
        ret existing
    | None =>
        let user := {| user_id := fresh_user; telegramId := arg_toString telegramId |} in
        modify (fun d => with_users (users d ++ [user]) d) ;;
        ensureUserWallet fresh_wallet (user_id user) ;;
        ret user
    end.

(** Newest first: no document is older than one that follows it. *)
Definition newest_first (txs : list transaction) : Prop :=
  forall i j x y,
    (i <= j)%nat -> txs !! i = Some x -> txs !! j = Some y ->
    (tx_createdAt y <= tx_createdAt x)%N.

End Database.

(* ===================================================================== *)
(** * [services/paystack.js] *)
(* ===================================================================== *)

Module Paystack.
Import Js.

(** What one HTTP call to the gateway comes to: the body of a response, or
    an axios error with the status of the error response, when there is
    one ([error.response?.status]). *)
Inductive http_result :=
| Response (data : value)
| HttpError (status : option nat).

(** What a request function did: what it returned or threw, how many calls
    it made, and the delays it slept between them, in milliseconds. *)
Inductive reply :=
| Returned (response : option value)   (* [None]: fell out of the loop *)
| Thrown (status : option nat).

Record exchange := {
  reply_of : reply;
  posts : nat;
  sleeps : list N }.

Definition maxRetries : nat := 3.

Definition rate_limited (status : option nat) : bool :=
  match status with
  | Some code => (code =? 429)%nat
  | None => false
  end.

(** [Math.pow(2, attempt) * 1000] *)
Definition backoff (attempt : nat) : N := (2 ^ N.of_nat attempt * 1000)%N.

(** [makeRequest], from the iteration where [attempt] has the given value;
    [answers k] is what the gateway answers to the call made while
    [attempt] is [k]. *)
Equations? makeRequest_from (answers : nat -> http_result) (attempt : nat) : exchange
  by wf (maxRetries - attempt)%nat Peano.lt :=
makeRequest_from answers attempt with lt_dec attempt maxRetries := {
  | right _ => {| reply_of := Returned None; posts := 0; sleeps := [] |}
  | left _ with answers attempt := {
    | Response data => {| reply_of := Returned (Some data); posts := 1; sleeps := [] |}
    | HttpError status with rate_limited status && (attempt <? maxRetries - 1)%nat := {
      | true =>
          let rest := makeRequest_from answers (S attempt) in
          {| reply_of := reply_of rest;
             posts := S (posts rest);
             sleeps := backoff attempt :: sleeps rest |}
      | false => {| reply_of := Thrown status; posts := 1; sleeps := [] |} } } }.
Proof. unfold maxRetries in *. lia. Qed.

Definition makeRequest (answers : nat -> http_result) : exchange :=
  makeRequest_from answers 0.

(** What an adapter method did: its result, the calls and the sleeps. *)
Record run := {
  result : outcome value;
  calls : nat;
  slept : list N }.

Definition initializePayment (email : string) (amount : number) (reference : string)
    (answers : nat -> http_result) : run :=
  if String.eqb email "" || falsy_number amount || String.eqb reference ""
  then {| result := Throw (Error "Payment initialization failed"); calls := 0; slept := [] |}
  else
    let x := makeRequest answers in
    {| result :=
         match reply_of x with
         | Returned (Some data) => Ok data
         | Returned None => Throw (Error "Payment initialization failed")
         | Thrown _ => Throw (Error "Payment initialization failed")
         end;
       calls := posts x;
       slept := sleeps x |}.

Definition verifyPayment (reference : string) (answers : nat -> http_result) : run :=
  if String.eqb reference ""
  then {| result := Throw (Error "Payment verification failed"); calls := 0; slept := [] |}
  else
    {| result :=
         match answers 0%nat with
         | Response data => Ok data
         | HttpError _ => Throw (Error "Payment verification failed")
         end;
       calls := 1;
       slept := [] |}.


End Paystack.

(* ===================================================================== *)
(** * [services/vtpass.js] *)
(* ===================================================================== *)

Module VTPass.
Import Js.

(** [!v] for an argument that may be [undefined]. *)
Definition missing (s : option string) : bool :=
  match s with
  | None => true
  | Some s => String.eqb s ""
  end.

(** The purchase methods check their arguments and hand the request to
    [this.makeRequest("pay", ..)]; [answer] is what that call comes to: the
    provider's response body (the simulated one in test mode), or the
    error it throws. *)

Definition buyAirtime (serviceID : string) (amount : number) (phone : option string)
    (answer : outcome value) : outcome value :=
  if String.eqb serviceID "" || falsy_number amount || missing phone
  then Throw (Error "serviceID, amount, and phone are required")
  else answer.

Definition buyData (serviceID : string) (variation_code : value) (phone : option string)
    (answer : outcome value) : outcome value :=
  if String.eqb serviceID "" || negb (truthy variation_code) || missing phone
  then Throw (Error "serviceID, variation_code, and phone are required")
  else answer.

Definition payElectricityBill (serviceID : string) (billersCode : option string)
    (variation_code : string) (amount : number) (phone : string)
    (answer : outcome value) : outcome value :=
  if String.eqb serviceID "" || missing billersCode || String.eqb variation_code ""
     || falsy_number amount || String.eqb phone ""
  then Throw (Error "All parameters are required")
  else answer.

Definition payTvSubscription (serviceID : string) (billersCode : option string)
    (variation_code : value) (answer : outcome value) : outcome value :=
  if String.eqb serviceID "" || missing billersCode || negb (truthy variation_code)
  then Throw (Error "serviceID, billersCode, and variation_code are required")
  else answer.

Definition plan (variation_code name variation_amount : string) : value :=
  Obj [("variation_code", Str variation_code);
       ("name", Str name);
       ("variation_amount", Str variation_amount);
       ("fixedPrice", Str "Yes")].

(** The table of [getMockVariations], for the service ids the bot uses. *)
Definition getMockVariations (serviceID : string) : value :=
  if String.eqb serviceID "mtn-data" then
    Obj [("code", Str "000");
         ("response_description", Str "SUCCESS");
         ("content",
          Obj [("ServiceName", Str "MTN Data");
               ("serviceID", Str "mtn-data");
               ("variations",
                Arr [plan "M1024" "MTN Data 1GB" "500";
                     plan "M2024" "MTN Data 2GB" "1000";
                     plan "M3024" "MTN Data 3GB" "1500";
                     plan "M5024" "MTN Data 5GB" "2500"])])]
  else if String.eqb serviceID "dstv" then
    Obj [("code", Str "000");
         ("response_description", Str "SUCCESS");
         ("content",
          Obj [("ServiceName", Str "DStv");
               ("serviceID", Str "dstv");
               ("variations",
                Arr [plan "dstv-padi" "DStv Padi" "2500";
                     plan "dstv-confam" "DStv Confam" "5500";
                     plan "dstv-compact" "DStv Compact" "12000"])])]
  else
    Obj [("code", Str "001"); ("response_description", Str "Service not found")].

(** [getVariations]: the mock table in test mode, otherwise what
    [makeRequest("service-variations", ..)] comes to. *)
Definition getVariations (isTestMode : bool) (serviceID : string)
    (answer : outcome value) : outcome value :=
  if String.eqb serviceID "" then Throw (Error "serviceID is required")
  else if isTestMode then Ok (getMockVariations serviceID)
  else answer.

(** A variation-list response of the shape of the mock table: the list of
    plans sits under the key ["variations"] of [content]. *)
Definition lists_plans_under_variations (response : value) : Prop :=
  exists code description name serviceID plans,
    response =
      Obj [("code", code);
           ("response_description", description);
           ("content",
            Obj [("ServiceName", name); ("serviceID", serviceID);
                 ("variations", Arr plans)])].

(** ** The request to the provider *)

(** What the clock and [Math.random()] answer while one response is
    simulated: the two request ids of [generateRequestId] and the two
    dates. *)
Record simulation := {
  sim_transactionId : string;
  sim_requestId : string;
  sim_processed : string;
  sim_date : string }.

Definition products : list (string * string) :=
  [("mtn", "MTN Airtime"); ("airtel", "Airtel Airtime"); ("glo", "Glo Airtime");
   ("9mobile", "9mobile Airtime"); ("mtn-data", "MTN Data"); ("airtel-data", "Airtel Data");
   ("glo-data", "Glo Data"); ("9mobile-data", "9mobile Data");
   ("ikeja-electric", "Ikeja Electric"); ("eko-electric", "Eko Electric");
   ("dstv", "DStv Subscription"); ("gotv", "GOtv Subscription")].

(** [getProductName(serviceID)]: [products[serviceID] || "VTU Service"];
    [None] for a name the table inherits. *)
Definition getProductName (serviceID : string) : option string :=
  match Tables.lookup products serviceID with
  | Tables.Own name => Some (if String.eqb name "" then "VTU Service" else name)
  | Tables.Absent => Some "VTU Service"
  | Tables.Inherited => None
  end.

(** [simulateTestResponse(data)], for a request whose [serviceID] is a
    string; [None] where the product name is outside the model. *)
Definition simulateTestResponse (o : simulation) (data : value) : option value :=
  match prop data "serviceID" with
  | Str serviceID =>
      match getProductName serviceID with
      | Some product_name =>
          let amount :=
            or_else (or_else (prop data "amount") (prop data "variation_amount"))
              (Number (Num 0)) in
          Some
            (Obj [("code", Str "000");
                  ("response_description", Str "SUCCESS");
                  ("content",
                   Obj [("transactions",
                         Obj [("status", Str "delivered");
                              ("product_name", Str product_name);
                              ("unique_element",
                               or_else (prop data "phone") (prop data "billersCode"));
                              ("unit_price", amount);
                              ("quantity", Number (Num 1));
                              ("service_verification", Null);
                              ("channel", Str "api");
                              ("commission", Number (Num 0));
                              ("total_amount", amount);
                              ("discount", Number (Num 0));
                              ("type", Str "VTU");
                              ("email", Str "test@example.com");
                              ("phone", or_else (prop data "phone") (Str "08012345678"));
                              ("name", Null);
                              ("convenience_fee", Number (Num 0));
                              ("amount", amount);
                              ("platform", Str "api");
                              ("method", Str "api");
                              ("transactionId", Str ("TEST_" +:+ sim_transactionId o))])]);
                  ("transaction_id",
                   Obj [("transactionId", Str ("TEST_" +:+ sim_requestId o));
                        ("date", Str (sim_processed o))]);
                  ("amount", amount);
                  ("phone", prop data "phone");
                  ("date", Str (sim_date o))])
      | None => None
      end
  | _ => None
  end.

Definition simulated_error (code description error : string) : value :=
  Obj [("code", Str code);
       ("response_description", Str description);
       ("content", Obj [("error", Str error)])].

Definition simulated_errors : list value :=
  [simulated_error "016" "TRANSACTION FAILED" "Insufficient balance on merchant account";
   simulated_error "015" "INVALID PHONE NUMBER" "Phone number is invalid";
   simulated_error "014" "NETWORK ERROR" "Network temporarily unavailable"].

(** [simulateTestError()]: [errors[Math.floor(Math.random() * errors.length)]];
    [random] is what [Math.random()] answers. *)
Definition simulateTestError (random : Q) : value :=
  match Qfloor (random * inject_Z (Z.of_nat (length simulated_errors))) with
  | Zneg _ => Undefined
  | index => nth (Z.to_nat index) simulated_errors Undefined
  end.

(** [makeRequest(endpoint, data)] with [data] an object; [http] is what the
    POST comes to, when it is made. *)
Definition makeRequest (isTestMode : bool) (o : simulation) (random : Q)
    (http : Paystack.http_result) (endpoint : string) (data : value)
  : option (outcome value) :=
  if isTestMode && String.eqb endpoint "pay"
  then option_map Ok (simulateTestResponse o data)
  else
    match http with
    | Paystack.Response body => Some (Ok body)
    | Paystack.HttpError _ =>
        Some (if isTestMode then Ok (simulateTestError random)
              else Throw (Error "Service temporarily unavailable"))
    end.

(** The requests the purchase methods hand to [makeRequest("pay", ..)]. *)
Definition phone_value (phone : option string) : value :=
  match phone with
  | Some p => Str p
  | None => Undefined
  end.

Definition airtime_request (requestId serviceID : string) (amount : number)
    (phone : option string) : value :=
  Obj [("request_id", Str requestId); ("serviceID", Str serviceID);
       ("amount", Number amount); ("phone", phone_value phone)].

Definition data_request (requestId serviceID : string) (variation_code : value)
    (phone : option string) : value :=
  Obj [("request_id", Str requestId); ("serviceID", Str serviceID);
       ("billersCode", phone_value phone); ("variation_code", variation_code)].

Definition electricity_request (requestId serviceID : string) (billersCode : option string)
    (variation_code : string) (amount : number) (phone : string) : value :=
  Obj [("request_id", Str requestId); ("serviceID", Str serviceID);
       ("billersCode", phone_value billersCode); ("variation_code", Str variation_code);
       ("amount", Number amount); ("phone", Str phone)].

Definition tv_request (requestId serviceID : string) (billersCode : option string)
    (variation_code : value) : value :=
  Obj [("request_id", Str requestId); ("serviceID", Str serviceID);
       ("billersCode", phone_value billersCode); ("variation_code", variation_code)].

(** [verifyMeterNumber(billersCode, serviceID, type)]; [answer] is what
    [makeRequest("merchant-verify", ..)] comes to. *)
Definition verifyMeterNumber (isTestMode : bool) (billersCode serviceID type : string)
    (answer : outcome value) : outcome value :=
  if String.eqb billersCode "" || String.eqb serviceID ""
  then Throw (Error "billersCode and serviceID are required")
  else if isTestMode then
    Ok (Obj [("code", Str "000");
             ("response_description", Str "SUCCESS");
             ("content",
              Obj [("Customer_Name", Str "Test Customer");
                   ("Status", Str "Active");
                   ("Due_Date", Str "2024-12-31");
                   ("Customer_Number", Str billersCode);
                   ("Customer_Type", Str type);
                   ("Current_Bouquet", Str "Test Package");
                   ("Current_Bouquet_Code", Str "test-001")])])
  else answer.

End VTPass.

(* ===================================================================== *)
(** * Transaction references ([index.js]) *)
(* ===================================================================== *)

Module Reference.

(** The origins that stamp a reference: the four purchase branches and the
    [/fund] command. *)
Inductive prefix := AIRTIME | DATA | ELEC | TV | FUND.

Definition prefix_text (p : prefix) : string :=
  match p with
  | AIRTIME => "AIRTIME"
  | DATA => "DATA"
  | ELEC => "ELEC"
  | TV => "TV"
  | FUND => "FUND"
  end.

(** [`${PREFIX}_${userId}_${Date.now()}`]; [now] is the epoch time in
    milliseconds, printed in decimal. *)
Definition make (p : prefix) (userId : string) (now : N) : string :=
  prefix_text p +:+ "_" +:+ userId +:+ "_" +:+ pretty now.

(** [reference.split("_")[1]]; [None] stands for [undefined]. *)
Definition user_part (reference : string) : option string :=
  Js.split "_" reference !! 1%nat.

End Reference.

(* ===================================================================== *)
(** * [index.js]: the message handler *)
(* ===================================================================== *)

Module Bot.
Import Js Eff Database.
Local Open Scope eff_scope.

(** An entry of [SUPPORTED_NETWORKS], and a provider as the callback
    handlers store it in the session ([{ code, ...selectedProvider }]). *)
Record network := {
  net_name : string;
  airtime_code : string;
  data_code : string }.

Record provider := {
  prov_code : string;
  prov_name : string }.

(** The session object of a chat.  A field that was never assigned is
    [None] (or [Undefined] for the fields holding provider data); [stage]
    is [None] as well once it is set to [null]. *)
Record session := {
  lastActivity : N;
  stage : option string;
  airtimeNetwork : option network;
  airtimeAmount : option number;
  phone : option string;
  dataNetwork : option network;
  dataPhone : option string;
  variations : value;
  variation : value;
  electricityProvider : option provider;
  meter : option string;
  amount : option number;
  tvProvider : option provider;
  card : option string }.

(** [{ lastActivity: Date.now() }] *)
Definition new_session (now : N) : session :=
  {| lastActivity := now; stage := None; airtimeNetwork := None; airtimeAmount := None;
     phone := None; dataNetwork := None; dataPhone := None; variations := Undefined;
     variation := Undefined; electricityProvider := None; meter := None; amount := None;
     tvProvider := None; card := None |}.

Definition set_lastActivity (now : N) (s : session) : session :=
  {| lastActivity := now; stage := stage s; airtimeNetwork := airtimeNetwork s;
     airtimeAmount := airtimeAmount s; phone := phone s; dataNetwork := dataNetwork s;
     dataPhone := dataPhone s; variations := variations s; variation := variation s;
     electricityProvider := electricityProvider s; meter := meter s; amount := amount s;
     tvProvider := tvProvider s; card := card s |}.

Definition set_stage (st : option string) (s : session) : session :=
  {| lastActivity := lastActivity s; stage := st; airtimeNetwork := airtimeNetwork s;
     airtimeAmount := airtimeAmount s; phone := phone s; dataNetwork := dataNetwork s;
     dataPhone := dataPhone s; variations := variations s; variation := variation s;
     electricityProvider := electricityProvider s; meter := meter s; amount := amount s;
     tvProvider := tvProvider s; card := card s |}.

Definition set_dataPhone (p : string) (s : session) : session :=
  {| lastActivity := lastActivity s; stage := stage s; airtimeNetwork := airtimeNetwork s;
     airtimeAmount := airtimeAmount s; phone := phone s; dataNetwork := dataNetwork s;
     dataPhone := Some p; variations := variations s; variation := variation s;
     electricityProvider := electricityProvider s; meter := meter s; amount := amount s;
     tvProvider := tvProvider s; card := card s |}.

Definition set_card (c : string) (s : session) : session :=
  {| lastActivity := lastActivity s; stage := stage s; airtimeNetwork := airtimeNetwork s;
     airtimeAmount := airtimeAmount s; phone := phone s; dataNetwork := dataNetwork s;
     dataPhone := dataPhone s; variations := variations s; variation := variation s;
     electricityProvider := electricityProvider s; meter := meter s; amount := amount s;
     tvProvider := tvProvider s; card := Some c |}.

Definition set_variations (v : value) (s : session) : session :=
  {| lastActivity := lastActivity s; stage := stage s; airtimeNetwork := airtimeNetwork s;
     airtimeAmount := airtimeAmount s; phone := phone s; dataNetwork := dataNetwork s;
     dataPhone := dataPhone s; variations := v; variation := variation s;
     electricityProvider := electricityProvider s; meter := meter s; amount := amount s;
     tvProvider := tvProvider s; card := card s |}.

(** ** What the handlers do to the outside *)

Inductive recipient :=
| Chat (chatId : Z)
| TelegramUser (telegramId : string).

(** The four purchase flows. *)
Inductive flow := Airtime | Data | Electricity | Tv.

(** The texts the modelled code sends, one constructor per template, with
    the values the template interpolates. *)
Inductive message :=
| InsufficientBalanceFundWallet   (* "❌ Insufficient balance. Please fund your wallet." *)
| InsufficientBalance             (* "❌ Insufficient balance." *)
| PurchaseDone (f : flow) (details : list value)
    (* "✅ Airtime sent to .. on ..!", "✅ Data sent to .. on .. (..)!",
       "✅ Electricity paid for meter ..!", "✅ TV subscription completed for ..!" *)
| PurchaseFailed (f : flow) (description : value)
    (* "❌ Airtime purchase failed: ..", "❌ Data purchase failed: ..",
       "❌ Electricity payment failed: ..", "❌ TV subscription failed: .." *)
| PurchaseCancelled (f : flow)
    (* "❌ Airtime purchase cancelled.", .., "❌ TV payment cancelled." *)
| SendYesOrCancel                 (* "Send 'yes' or 'cancel'" *)
| InvalidPhoneNumber              (* "❌ Invalid phone number. Try again." *)
| InvalidSmartCardNumber          (* "❌ Invalid Smart Card Number. Try again." *)
| NoDataPlansFound (networkName : string)
    (* "❌ No data plans found for ... Please try again later or choose another network." *)
| NoTvPlansFound (providerName : string)
    (* "❌ No TV plans found for ... Please try again later." *)
| ChooseDataPlan (networkName : string) (plans : list (value * value * value)) (example : value)
| ChooseTvPlan (providerName : string) (plans : list (value * value * value))
| ProcessReset
    (* "❌ Something went wrong. The process has been reset. Please try again from the menu." *)
| WalletFunded (amount : number)  (* "✅ Wallet funded successfully with ₦..!" *)
| PaymentFailed                   (* "❌ Payment failed. Please try again." *)
| VerificationTimedOut.
    (* "❌ Payment verification timed out. Please contact support if payment was successful." *)

(** A call of a method of the billing adapter, with its arguments. *)
Inductive vtpass_call :=
| BuyAirtime (serviceID : string) (amount : number) (phone : option string)
| BuyData (serviceID : string) (variation_code : value) (phone : option string)
| PayElectricityBill (serviceID : string) (billersCode : option string)
    (variation_code : string) (amount : number) (phone : string)
| PayTvSubscription (serviceID : string) (billersCode : option string) (variation_code : value)
| GetVariations (serviceID : string).

Inductive effect :=
| Sent (to : recipient) (m : message)
| Vtpass (c : vtpass_call)
| PaystackVerify (reference : string).

(** The store, the session map [userSessions], and what was done to the
    outside so far, oldest first. *)
Record world := {
  db : Database.t;
  userSessions : gmap Z session;
  effects : list effect }.

Definition with_db (d : Database.t) (w : world) : world :=
  {| db := d; userSessions := userSessions w; effects := effects w |}.

Definition with_sessions (m : gmap Z session) (w : world) : world :=
  {| db := db w; userSessions := m; effects := effects w |}.

Definition on_db {A} (m : M Database.t A) : M world A := zoom db with_db m.

(** The world with further effects on record. *)
Definition noting (es : list effect) (w : world) : world :=
  {| db := db w; userSessions := userSessions w; effects := effects w ++ es |}.

Definition emit (e : effect) : M world unit :=
  modify (fun w => {| db := db w; userSessions := userSessions w; effects := effects w ++ [e] |}).

(** [bot.sendMessage(to, ..)] *)
Definition sendMessage (to : recipient) (m : message) : M world unit := emit (Sent to m).

(** [userSessions.delete(chatId)] *)
Definition delete_session (chatId : Z) : M world unit :=
  modify (fun w => with_sessions (delete chatId (userSessions w)) w).

(** An assignment to a field of the session object: the object in the map,
    while the map still holds it, is the handler's [session]. *)
Definition assign (chatId : Z) (s : session) : M world unit :=
  modify (fun w =>
    match userSessions w !! chatId with
    | Some _ => with_sessions (<[chatId := s]> (userSessions w)) w
    | None => w
    end).

(** What the outside answers while one handler runs. *)
Record env := {
  clock : ambient;
  vtpassTestMode : bool;
  pay_answer : outcome value;          (* [vtpass.makeRequest("pay", ..)] *)
  variations_answer : outcome value }. (* [vtpass.makeRequest("service-variations", ..)] *)

(** [o.k] for an object read from the session or the store, [null] or
    [undefined] when [None]. *)
Definition defined {A} (o : option A) : outcome A :=
  match o with
  | Some a => Ok a
  | None => Throw TypeError
  end.

(** A number read from a session field that may be [undefined]. *)
Definition number_of (o : option number) : number :=
  match o with
  | Some n => n
  | None => NaN
  end.

Definition value_of (o : option string) : value :=
  match o with
  | Some s => Str s
  | None => Undefined
  end.

(** [!wallet || wallet.balance < cost] *)
Definition insufficient (wallet : option wallet) (cost : number) : bool :=
  match wallet with
  | None => true
  | Some wallet => lt (balance wallet) cost
  end.

(** [result.code === "000" && result.content?.transactions?.status === "delivered"
     ? "success" : "failed"] *)
Definition transactionStatus (result : value) : outcome string :=
  match member result "code" with
  | Throw e => Throw e
  | Ok code =>
      Ok (if is_str code "000"
             && is_str (prop (prop (prop result "content") "transactions") "status") "delivered"
          then "success" else "failed")
  end.

(** ** The confirm stages

    The four branches [confirm_airtime], [confirm_data],
    [confirm_electricity] and [confirm_tv] run the same steps in the same
    order; the functions below give the parts in which they differ. *)

Definition confirm_stage (f : flow) : string :=
  match f with
  | Airtime => "confirm_airtime"
  | Data => "confirm_data"
  | Electricity => "confirm_electricity"
  | Tv => "confirm_tv"
  end.

(** The cost the balance is checked against: [session.airtimeAmount],
    [session.amount], or [parseFloat(session.variation.variation_amount)]. *)
Definition cost_of (f : flow) (s : session) : outcome number :=
  match f with
  | Airtime => Ok (number_of (airtimeAmount s))
  | Electricity => Ok (number_of (amount s))
  | Data | Tv =>
      match member (variation s) "variation_amount" with
      | Ok v => Ok (parseFloat v)
      | Throw e => Throw e
      end
  end.

Definition insufficient_notice (f : flow) : message :=
  match f with
  | Airtime | Data => InsufficientBalanceFundWallet
  | Electricity | Tv => InsufficientBalance
  end.

(** [session.phone || "08012345678"] *)
Definition phone_or_default (p : option string) : string :=
  match p with
  | Some p => if String.eqb p "" then "08012345678" else p
  | None => "08012345678"
  end.

(** The call of the billing adapter: its arguments are read from the
    session first, which throws when an object they are read from is
    missing. *)
Definition purchase (f : flow) (s : session) (cost : number) (answer : outcome value)
  : outcome (vtpass_call * outcome value) :=
  match f with
  | Airtime =>
      match defined (airtimeNetwork s) with
      | Throw e => Throw e
      | Ok n =>
          Ok (BuyAirtime (airtime_code n) (number_of (airtimeAmount s)) (phone s),
              VTPass.buyAirtime (airtime_code n) (number_of (airtimeAmount s)) (phone s) answer)
      end
  | Data =>
      match defined (dataNetwork s), member (variation s) "variation_code" with
      | Ok n, Ok code =>
          Ok (BuyData (data_code n) code (dataPhone s),
              VTPass.buyData (data_code n) code (dataPhone s) answer)
      | Throw e, _ | _, Throw e => Throw e
      end
  | Electricity =>
      match defined (electricityProvider s) with
      | Throw e => Throw e
      | Ok p =>
          Ok (PayElectricityBill (prov_code p) (meter s) "prepaid" (number_of (amount s))
                (phone_or_default (phone s)),
              VTPass.payElectricityBill (prov_code p) (meter s) "prepaid"
                (number_of (amount s)) (phone_or_default (phone s)) answer)
      end
  | Tv =>
      match defined (tvProvider s), member (variation s) "variation_code" with
      | Ok p, Ok code =>
          Ok (PayTvSubscription (prov_code p) (card s) code,
              VTPass.payTvSubscription (prov_code p) (card s) code answer)
      | Throw e, _ | _, Throw e => Throw e
      end
  end.

(** The [type] of the transaction record. *)
Definition tx_type_of (f : flow) : string :=
  match f with
  | Airtime => "airtime"
  | Data => "data"
  | Electricity => "electricity"
  | Tv => "tv"
  end.

Definition prefix_of (f : flow) : Reference.prefix :=
  match f with
  | Airtime => Reference.AIRTIME
  | Data => Reference.DATA
  | Electricity => Reference.ELEC
  | Tv => Reference.TV
  end.

Definition network_name (n : option network) : value :=
  match n with Some n => Str (net_name n) | None => Undefined end.

Definition provider_name (p : option provider) : value :=
  match p with Some p => Str (prov_name p) | None => Undefined end.

(** The [details] object: the reference, the fields of the flow, and the
    provider's response spread over them. *)
Definition details_of (f : flow) (s : session) (userId : string) (now : N) (result : value)
  : value :=
  let reference := ("reference", Str (Reference.make (prefix_of f) userId now)) in
  match f with
  | Airtime =>
      obj_with_spread
        [reference; ("network", network_name (airtimeNetwork s)); ("phone", value_of (phone s))]
        result
  | Data =>
      obj_with_spread
        [reference; ("network", network_name (dataNetwork s));
         ("plan", prop (variation s) "name"); ("phone", value_of (dataPhone s))]
        result
  | Electricity =>
      obj_with_spread
        [reference; ("provider", provider_name (electricityProvider s));
         ("meter", value_of (meter s))]
        result
  | Tv =>
      obj_with_spread
        [reference; ("provider", provider_name (tvProvider s));
         ("card", value_of (card s)); ("plan", prop (variation s) "name")]
        result
  end.

(** The values the success text interpolates. *)
Definition done_details (f : flow) (s : session) : list value :=
  match f with
  | Airtime => [value_of (phone s); network_name (airtimeNetwork s)]
  | Data => [value_of (dataPhone s); network_name (dataNetwork s); prop (variation s) "name"]
  | Electricity => [value_of (meter s)]
  | Tv => [value_of (card s)]
  end.

(** The text sent after the purchase: the success text for ["success"],
    the failure text with [result.response_description || "Unknown error"]
    otherwise. *)
Definition report (f : flow) (s : session) (transactionStatus : string) (result : value)
  : message :=
  if String.eqb transactionStatus "success" then PurchaseDone f (done_details f s)
  else PurchaseFailed f (or_else (prop result "response_description") (Str "Unknown error")).

Definition confirm (f : flow) (e : env) (chatId userId : Z) (session : session)
    (sanitizedText : string) : M world unit :=
  if String.eqb (toLowerCase sanitizedText) "yes" then
    let session := set_stage None session in
    assign chatId session ;;
    let* user := on_db (getUserByTelegramId (ArgNumber userId)) in
    let* user := lift (defined user) in
    let* wallet := on_db (getUserWallet (user_id user)) in
    let* cost := lift (cost_of f session) in
    if insufficient wallet cost then
      delete_session chatId ;;
      sendMessage (Chat chatId) (insufficient_notice f)
    else
      on_db (updateWalletBalance (user_id user) cost "debit") ;;
      let* call := lift (purchase f session cost (pay_answer e)) in
      emit (Vtpass (fst call)) ;;
      let* result := lift (snd call) in
      let* transactionStatus := lift (transactionStatus result) in
      on_db (createTransaction (clock e) (user_id user) (tx_type_of f) cost
               (details_of f session (user_id user) (now (clock e)) result)
               transactionStatus) ;;
      delete_session chatId ;;
      sendMessage (Chat chatId) (report f session transactionStatus result)
  else if String.eqb (toLowerCase sanitizedText) "cancel" then
    delete_session chatId ;;
    sendMessage (Chat chatId) (PurchaseCancelled f)
  else
    sendMessage (Chat chatId) SendYesOrCancel.

(** ** The stages that fetch the plans *)

(** [variations.map((v) => `• ${v.name} (₦${v.variation_amount}) - Code: ..`)]:
    the three fields of each plan; it throws on a value without [map] and
    on a plan that is [null]. *)
Fixpoint plan_fields (items : list value) : outcome (list (value * value * value)) :=
  match items with
  | [] => Ok []
  | v :: rest =>
      match member v "name", plan_fields rest with
      | Ok _, Ok fields =>
          Ok ((prop v "name", prop v "variation_amount", prop v "variation_code") :: fields)
      | Throw e, _ | _, Throw e => Throw e
      end
  end.

Definition plan_lines (variations : value) : outcome (list (value * value * value)) :=
  match variations with
  | Arr items => plan_fields items
  | _ => Throw TypeError
  end.

(** [session.variations[0].variation_code] *)
Definition first_code (variations : value) : outcome value :=
  match variations with
  | Arr (v :: _) => member v "variation_code"
  | _ => Throw TypeError
  end.

(** [variations.content?.varations || []] *)
Definition read_plans (variations : value) : outcome value :=
  match member variations "content" with
  | Ok content => Ok (or_else (prop content "varations") (Arr []))
  | Throw e => Throw e
  end.

(** [!session.variations.length] *)
Definition no_plans (variations : value) : bool := negb (truthy (prop variations "length")).

Definition awaiting_data_phone (e : env) (chatId : Z) (session : session)
    (sanitizedText : string) : M world unit :=
  let phone := strip_non_digits sanitizedText in
  if negb (phone_ok phone) then sendMessage (Chat chatId) InvalidPhoneNumber
  else
    let session := set_stage (Some "awaiting_data_variation") (set_dataPhone phone session) in
    assign chatId session ;;
    let* network := lift (defined (dataNetwork session)) in
    emit (Vtpass (GetVariations (data_code network))) ;;
    let* variations :=
      lift (VTPass.getVariations (vtpassTestMode e) (data_code network) (variations_answer e)) in
    let* plans := lift (read_plans variations) in
    let session := set_variations plans session in
    assign chatId session ;;
    if no_plans (Bot.variations session) then
      delete_session chatId ;;
      sendMessage (Chat chatId) (NoDataPlansFound (net_name network))
    else
      let* opts := lift (plan_lines (Bot.variations session)) in
      let* example := lift (first_code (Bot.variations session)) in
      sendMessage (Chat chatId) (ChooseDataPlan (net_name network) opts example).

Definition awaiting_card_number (e : env) (chatId : Z) (session : session)
    (sanitizedText : string) : M world unit :=
  let card := trim sanitizedText in
  if negb (long_digits_ok card) then sendMessage (Chat chatId) InvalidSmartCardNumber
  else
    let session := set_stage (Some "awaiting_tv_variation") (set_card card session) in
    assign chatId session ;;
    let* provider := lift (defined (tvProvider session)) in
    emit (Vtpass (GetVariations (prov_code provider))) ;;
    let* variations :=
      lift (VTPass.getVariations (vtpassTestMode e) (prov_code provider) (variations_answer e)) in
    let* plans := lift (read_plans variations) in
    let session := set_variations plans session in
    assign chatId session ;;
    if no_plans (Bot.variations session) then
      delete_session chatId ;;
      sendMessage (Chat chatId) (NoTvPlansFound (prov_name provider))
    else
      let* opts := lift (plan_lines (Bot.variations session)) in
      sendMessage (Chat chatId) (ChooseTvPlan (prov_name provider) opts).

(** ** [bot.on("message", ..)] *)

(** A text message ([msg.callback_query] is not set on one). *)
Record incoming := {
  chat_id : Z;     (* msg.chat.id *)
  from_id : Z;     (* msg.from.id *)
  text : option string }.

(** The branch of the stage the session is in, for the stages of this
    development; [None] for the other stages and the menu. *)
Definition branch (e : env) (chatId userId : Z) (session : session) (sanitizedText : string)
  : option (M world unit) :=
  match stage session with
  | Some st =>
      if String.eqb st "confirm_airtime" then Some (confirm Airtime e chatId userId session sanitizedText)
      else if String.eqb st "awaiting_data_phone" then Some (awaiting_data_phone e chatId session sanitizedText)
      else if String.eqb st "confirm_data" then Some (confirm Data e chatId userId session sanitizedText)
      else if String.eqb st "confirm_electricity" then Some (confirm Electricity e chatId userId session sanitizedText)
      else if String.eqb st "awaiting_card_number" then Some (awaiting_card_number e chatId session sanitizedText)
      else if String.eqb st "confirm_tv" then Some (confirm Tv e chatId userId session sanitizedText)
      else None
  | None => None
  end.

(** The [catch] of the handler. *)
Definition reset (chatId : Z) (err : error) : M world unit :=
  delete_session chatId ;;
  sendMessage (Chat chatId) ProcessReset.

(** [if (!userSessions.has(chatId)) userSessions.set(chatId, { lastActivity: Date.now() });
     const session = userSessions.get(chatId); session.lastActivity = Date.now();] *)
Definition touch_session (now : N) (chatId : Z) (m : gmap Z session) : session :=
  match m !! chatId with
  | Some s => set_lastActivity now s
  | None => new_session now
  end.

(** [!text || text.startsWith("/start") || text.startsWith("/cancel")] *)
Definition skipped (text : string) : bool :=
  String.eqb text "" || String.prefix "/start" text || String.prefix "/cancel" text.

Definition on_message (e : env) (msg : incoming) (w : world) : option world :=
  match text msg with
  | None => Some w
  | Some raw =>
      let text := trim raw in
      if skipped text then Some w
      else
        let chatId := chat_id msg in
        let session := touch_session (now (clock e)) chatId (userSessions w) in
        let w := with_sessions (<[chatId := session]> (userSessions w)) w in
        let sanitizedText := sanitize text in
        match branch e chatId (from_id msg) session sanitizedText with
        | Some body => Some (snd (try_catch body (reset chatId) w))
        | None => None
        end
  end.

End Bot.

(* ===================================================================== *)
(** * [index.js]: the payment webhook and the polling fallback *)
(* ===================================================================== *)

Module Reconcile.
Import Js Eff Database Bot.
Local Open Scope eff_scope.

(** ** The request as the middlewares leave it

    Modelled from the documented behaviour of [body-parser] (the module
    behind [bodyParser.json] and [express.raw]) and of [crypto.Hmac]. *)

Record request := {
  has_body : bool;               (* the request carries a body *)
  is_json : bool;                (* its Content-Type is application/json *)
  wire : string;                 (* the bytes of the body *)
  signature : option string }.   (* the x-paystack-signature header *)

(** [req.body]: a value a JSON parser left there, or a [Buffer]. *)
Inductive body :=
| Parsed (v : value)
| Raw (bytes : string).

Record parsing := {
  req_body : body;
  rawBody : option string;       (* [req.rawBody], set by the [verify] hook *)
  already_parsed : bool }.       (* [req._body] *)

Record response := {
  status : nat;
  text : string }.

Inductive middleware :=
| Next (p : parsing)
| Fail (r : response).           (* [next(err)]: the default error handler answers *)

Definition incoming_request : parsing :=
  {| req_body := Parsed Undefined; rawBody := None; already_parsed := false |}.

(** [req.body = req.body || {}] *)
Definition body_or_empty (b : body) : body :=
  match b with
  | Parsed v => if truthy v then b else Parsed (Obj [])
  | Raw _ => b
  end.

(** [(await paystack.verifyPayment(reference)).data.status] *)
Definition verification_status (reference : string) (verify : nat -> Paystack.http_result)
  : outcome value :=
  match Paystack.result (Paystack.verifyPayment reference verify) with
  | Ok verification =>
      match member verification "data" with
      | Ok data => member data "status"
      | Throw e => Throw e
      end
  | Throw e => Throw e
  end.

Section Webhook.

(** [crypto.createHmac("sha512", key).update(bytes).digest("hex")] *)
Variable hmac_sha512_hex : string -> string -> string.
(** [JSON.parse]; [None] when it throws. *)
Variable JSON_parse : string -> option value.
(** [ToNumber] on a string, an array or an object. *)
Variable text_to_number : value -> number.
(** [process.env.PAYSTACK_SECRET_KEY] *)
Variable secret : string.

(** [app.use(bodyParser.json({ verify: (req, res, buf) => (req.rawBody = buf) }))]:
    a body of type JSON is read, kept in [rawBody], and parsed; in the
    default strict mode only an object or an array is accepted.  (A body
    the parser refuses for its size or its encoding goes to the error
    handler in the same way.) *)
Definition bodyParser_json (r : request) (p : parsing) : middleware :=
  if already_parsed p then Next p
  else
    let p := {| req_body := body_or_empty (req_body p); rawBody := rawBody p;
                already_parsed := false |} in
    if negb (has_body r) then Next p
    else if negb (is_json r) then Next p
    else
      let parsed :=
        if String.eqb (wire r) "" then Some (Obj [])
        else match JSON_parse (wire r) with
             | Some (Obj fields) => Some (Obj fields)
             | Some (Arr items) => Some (Arr items)
             | _ => None
             end in
      match parsed with
      | Some v => Next {| req_body := Parsed v; rawBody := Some (wire r); already_parsed := true |}
      | None => Fail {| status := 400; text := "Bad Request" |}
      end.

(** [express.raw({ type: "application/json" })]: a body of type JSON that no
    parser has read yet is left in [req.body] as a [Buffer]. *)
Definition express_raw (r : request) (p : parsing) : middleware :=
  if already_parsed p then Next p
  else
    let p := {| req_body := body_or_empty (req_body p); rawBody := rawBody p;
                already_parsed := false |} in
    if negb (has_body r) then Next p
    else if negb (is_json r) then Next p
    else Next {| req_body := Raw (wire r); rawBody := rawBody p; already_parsed := true |}.

(** [hmac.update(req.body)] takes a string or a buffer. *)
Definition signed_bytes (b : body) : outcome string :=
  match b with
  | Raw bytes => Ok bytes
  | Parsed (Str s) => Ok s
  | Parsed _ => Throw TypeError
  end.

(** A body the handler cannot hash: what a JSON parser left in [req.body]. *)
Definition unsignable (b : body) : Prop := signed_bytes b = Throw TypeError.

(** [ToNumber(v)], the number that [v / 100] divides. *)
Definition ToNumber (v : value) : number :=
  match v with
  | Number n => n
  | Undefined => NaN
  | Null => Num 0
  | Bool b => Num (if b then 1 else 0)
  | _ => text_to_number v
  end.

(** [reference.split("_")[1]] as the argument of [getUserByTelegramId]. *)
Definition user_of_reference (reference : value) : outcome (string * telegram_arg) :=
  match reference with
  | Str r =>
      Ok (r, match Reference.user_part r with
             | Some part => ArgString part
             | None => ArgUndefined
             end)
  | _ => Throw TypeError
  end.

Definition respond (status : nat) (text : string) : M world response :=
  ret {| status := status; text := text |}.

(** The body of the [try] of the webhook handler. *)
Definition webhook_try (verify : nat -> Paystack.http_result) (e : ambient)
    (b : body) (sig : option string) : M world response :=
  let* bytes := lift (signed_bytes b) in
  let hash := hmac_sha512_hex secret bytes in
  if negb (bool_decide (Some hash = sig)) then respond 401 "Invalid signature"
  else
    let* payload :=
      lift (match JSON_parse bytes with
            | Some v => Ok v
            | None => Throw SyntaxError
            end) in
    let* event := lift (member payload "event") in
    let data := prop payload "data" in
    if negb (is_str event "charge.success") then respond 200 "Event ignored"
    else
      let* reference := lift (member data "reference") in
      let amount := div100 (ToNumber (prop data "amount")) in
      let* parts := lift (user_of_reference reference) in
      let reference := fst parts in
      let* user := on_db (getUserByTelegramId (snd parts)) in
      match user with
      | None => respond 400 "User not found"
      | Some user =>
          let* existingTransaction := on_db (findTransactionByReference reference) in
          if match existingTransaction with
             | Some x => String.eqb (tx_status x) "success"
             | None => false
             end
          then respond 200 "Transaction already processed"
          else
            emit (PaystackVerify reference) ;;
            let* vstatus := lift (verification_status reference verify) in
            if negb (is_str vstatus "success") then respond 400 "Payment not successful"
            else
              on_db (updateWalletBalance (user_id user) amount "credit") ;;
              match existingTransaction with
              | Some x => on_db (updateTransaction (tx_id x) "success")
              | None =>
                  on_db (createTransaction e (user_id user) "credit" amount
                           (Obj [("reference", Str reference); ("source", Str "Paystack")])
                           "success")
              end ;;
              sendMessage (TelegramUser (telegramId user)) (WalletFunded amount) ;;
              respond 200 "Webhook processed"
      end.

(** The handler: every exception ends in status 500. *)
Definition webhook_handler (verify : nat -> Paystack.http_result) (e : ambient)
    (b : body) (sig : option string) (w : world) : response * world :=
  match webhook_try verify e b sig w with
  | (Ok r, w') => (r, w')
  | (Throw _, w') => ({| status := 500; text := "Internal server error" |}, w')
  end.

(** A POST to [/paystack/webhook]: the global JSON parser, then the raw
    parser of the route, then the handler. *)
Definition webhook_route (verify : nat -> Paystack.http_result) (e : ambient)
    (r : request) (w : world) : response * world :=
  match bodyParser_json r incoming_request with
  | Fail resp => (resp, w)
  | Next p =>
      match express_raw r p with
      | Fail resp => (resp, w)
      | Next p => webhook_handler verify e (req_body p) (signature r) w
      end
  end.

(** The push signal delivered several times, one delivery after the other. *)
Definition deliver_all
    (pushes : list (request * (nat -> Paystack.http_result) * ambient)) (w : world) : world :=
  foldl (fun w '(r, verify, e) => snd (webhook_route verify e r w)) w pushes.

End Webhook.

(** ** [pollPaymentStatus] *)

(** The closure of one poll: the world, the counter [attempts], and whether
    the interval is still set. *)
Record polling := {
  pworld : world;
  attempts : nat;
  running : bool }.

Definition in_world {A} (m : M world A) : M polling A :=
  zoom pworld
    (fun w p => {| pworld := w; attempts := attempts p; running := running p |}) m.

(** [clearInterval(intervalId)] *)
Definition clearInterval : M polling unit :=
  modify (fun p => {| pworld := pworld p; attempts := attempts p; running := false |}).

(** [transactions.find((t) => details?.reference === reference)] *)
Definition find_by_details (reference : string) (transactions : list transaction)
  : option transaction :=
  List.find (fun x => is_str (prop (tx_details x) "reference") reference) transactions.

(** The [try] block of a tick; [true] when it ends in [return]. *)
Definition tick_try (reference : string) (userId : Z) (amount : number) (chatId : Z)
    (verify : nat -> Paystack.http_result) (e : ambient) : M polling bool :=
  in_world (emit (PaystackVerify reference)) ;;
  let* vstatus := lift (verification_status reference verify) in
  if is_str vstatus "success" then
    clearInterval ;;
    let* user := in_world (on_db (getUserByTelegramId (ArgNumber userId))) in
    let* user := lift (defined user) in
    let* transactions := in_world (on_db (getUserTransactions (user_id user) 10)) in
    let transaction := find_by_details reference transactions in
    if match transaction with
       | Some x => String.eqb (tx_status x) "success"
       | None => false
       end
    then ret true
    else
      in_world (on_db (updateWalletBalance (user_id user) amount "credit")) ;;
      match transaction with
      | Some x => in_world (on_db (updateTransaction (tx_id x) "success"))
      | None =>
          in_world (on_db (createTransaction e (user_id user) "credit" amount
                             (Obj [("reference", Str reference); ("source", Str "Paystack");
                                   ("method", Str "polling")])
                             "success"))
      end ;;
      in_world (sendMessage (Chat chatId) (WalletFunded amount)) ;;
      in_world (delete_session chatId) ;;
      ret false
  else if is_str vstatus "failed" then
    clearInterval ;;
    in_world (sendMessage (Chat chatId) PaymentFailed) ;;
    in_world (delete_session chatId) ;;
    ret false
  else ret false.

(** After the [try]/[catch]: [attempts++] and the exhaustion check. *)
Definition tick_end (maxAttempts : nat) (chatId : Z) : M polling unit :=
  modify (fun p => {| pworld := pworld p; attempts := S (attempts p); running := running p |}) ;;
  let* p := get in
  if (maxAttempts <=? attempts p)%nat then
    clearInterval ;;
    in_world (sendMessage (Chat chatId) VerificationTimedOut) ;;
    in_world (delete_session chatId)
  else ret tt.

(** One run of the interval callback. *)
Definition tick (maxAttempts : nat) (reference : string) (userId : Z) (amount : number)
    (chatId : Z) (verify : nat -> Paystack.http_result) (e : ambient) (p : polling) : polling :=
  match tick_try reference userId amount chatId verify e p with
  | (Ok true, p') => p'
  | (_, p') => snd (tick_end maxAttempts chatId p')
  end.

(** [pollPaymentStatus]: the callback runs once per interval, each time
    against what the gateway answers then, until the interval is cleared. *)
Fixpoint run_ticks (maxAttempts : nat) (reference : string) (userId : Z) (amount : number)
    (chatId : Z) (outside : list ((nat -> Paystack.http_result) * ambient)) (p : polling)
  : polling :=
  match outside with
  | [] => p
  | (verify, e) :: rest =>
      if running p
      then run_ticks maxAttempts reference userId amount chatId rest
             (tick maxAttempts reference userId amount chatId verify e p)
      else p
  end.

Definition pollPaymentStatus (maxAttempts : nat) (reference : string) (userId : Z)
    (amount : number) (chatId : Z) (outside : list ((nat -> Paystack.http_result) * ambient))
    (w : world) : polling :=
  run_ticks maxAttempts reference userId amount chatId outside
    {| pworld := w; attempts := 0; running := true |}.

(** A tick on which the gateway reports neither success nor failure, or
    the verification throws: the poll goes on. *)
Definition inconclusive (reference : string) (verify : nat -> Paystack.http_result) : bool :=
  match verification_status reference verify with
  | Ok vstatus => negb (is_str vstatus "success") && negb (is_str vstatus "failed")
  | Throw _ => true
  end.

(** The gateway reports the payment of the reference as successful. *)
Definition confirms (reference : string) (verify : nat -> Paystack.http_result) : Prop :=
  exists vstatus,
    verification_status reference verify = Ok vstatus /\ is_str vstatus "success" = true.

(** The texts among the effects, oldest first. *)
Fixpoint messages_of (es : list effect) : list (recipient * message) :=
  match es with
  | [] => []
  | Sent to m :: rest => (to, m) :: messages_of rest
  | _ :: rest => messages_of rest
  end.

(** The calls of the billing adapter among the effects. *)
Fixpoint vtpass_calls_of (es : list effect) : list vtpass_call :=
  match es with
  | [] => []
  | Vtpass c :: rest => c :: vtpass_calls_of rest
  | _ :: rest => vtpass_calls_of rest
  end.

(** The transactions of a reference that are settled as ["success"]. *)
Definition settled (reference : string) (d : Database.t) : list transaction :=
  List.filter
    (fun x => is_str (tx_reference x) reference && String.eqb (tx_status x) "success")
    (transactions d).

(** ** The two paths on one funding

    The reconciliation as the handler and the poll are written, with the
    body of the push handed to the handler as the buffer it expects. *)

Record funding := {
  fund_reference : string;
  fund_userId : Z;               (* [msg.from.id] of the [/fund] command *)
  fund_amount : number;          (* the amount of the command *)
  fund_chatId : Z;
  fund_maxAttempts : nat;
  fund_wire : string }.          (* the body of the gateway's push *)

Inductive signal :=
| Push (verify : nat -> Paystack.http_result) (e : ambient)
| Tick (verify : nat -> Paystack.http_result) (e : ambient).

Definition verify_of (s : signal) : nat -> Paystack.http_result :=
  match s with
  | Push verify _ => verify
  | Tick verify _ => verify
  end.

Section Funding.

Variable hmac_sha512_hex : string -> string -> string.
Variable JSON_parse : string -> option value.
Variable text_to_number : value -> number.
Variable secret : string.

(** A push is handled with its own signature; a tick runs while the
    interval is set. *)
Definition handle (fd : funding) (s : signal) (p : polling) : polling :=
  match s with
  | Push verify e =>
      {| pworld :=
           snd (webhook_handler hmac_sha512_hex JSON_parse text_to_number secret verify e
                  (Raw (fund_wire fd))
                  (Some (hmac_sha512_hex secret (fund_wire fd)))
                  (pworld p));
         attempts := attempts p;
         running := running p |}
  | Tick verify e =>
      if running p
      then tick (fund_maxAttempts fd) (fund_reference fd) (fund_userId fd) (fund_amount fd)
             (fund_chatId fd) verify e p
      else p
  end.

Definition reconcile (fd : funding) (signals : list signal) (w : world) : polling :=
  foldl (fun p s => handle fd s p) {| pworld := w; attempts := 0; running := true |} signals.

End Funding.

(** The store holds the funding [fd] as the [/fund] command leaves it: the
    user [u] of the reference with the wallet [wl], and the transaction [x]
    of the reference, not settled, which both lookups find: the one by
    reference, and the one among the ten latest transactions of the user. *)
Record awaited (fd : funding) (u : user) (wl : wallet) (x : transaction) (d : Database.t)
  : Prop := {
  awaited_by_part :
    exists part,
      Reference.user_part (fund_reference fd) = Some part /\
      fst (getUserByTelegramId (ArgString part) d) = Ok (Some u);
  awaited_by_id : fst (getUserByTelegramId (ArgNumber (fund_userId fd)) d) = Ok (Some u);
  awaited_wallet : fst (getUserWallet (user_id u) d) = Ok (Some wl);
  awaited_by_reference : fst (findTransactionByReference (fund_reference fd) d) = Ok (Some x);
  awaited_among_latest :
    exists txs,
      fst (getUserTransactions (user_id u) 10 d) = Ok txs /\
      find_by_details (fund_reference fd) txs = Some x;
  awaited_only :
    forall y, In y (transactions d) ->
      is_str (tx_reference y) (fund_reference fd) = true -> y = x;
  awaited_id : tx_id x <> "";
  awaited_open : tx_status x <> "success" }.

(** The ids of the transactions are not empty and name one document each. *)
Definition ids_kept (d : Database.t) : Prop :=
  Forall (fun y => tx_id y <> "") (transactions d) /\ NoDup (map tx_id (transactions d)).

(** The store once the funding is reconciled: the wallet credited with the
    amount, the transaction set to success. *)
Definition reconciled (wl : wallet) (x : transaction) (q a : Q) (d : Database.t) : Database.t :=
  with_transactions (set_status (tx_id x) "success" (transactions d))
    (with_wallets (set_balance (wallet_id wl) (Num (toFixed2_Q (q + a))) (wallets d)) d).

(** The push of a funding: a [charge.success] for its reference, with the
    amount in kobo. *)
Definition charge_for (fd : funding) (kobo : Q) (payload : value) : Prop :=
  member payload "event" = Ok (Str "charge.success") /\
  member (prop payload "data") "reference" = Ok (Str (fund_reference fd)) /\
  prop (prop payload "data") "amount" = Number (Num kobo).

End Reconcile.

(* ===================================================================== *)
(** * [index.js]: the menus, the commands and the other stages *)
(* ===================================================================== *)

Module Handlers.
Import Js Eff Database Bot.
Local Open Scope eff_scope.

(** ** The tables and the keyboards *)

(** [Object.values] and [Object.entries] list the entries of these tables
    in the order they are written in. *)
Definition SUPPORTED_NETWORKS : list (string * network) :=
  [("MTN", {| net_name := "MTN"; airtime_code := "mtn"; data_code := "mtn-data" |});
   ("GLO", {| net_name := "Glo"; airtime_code := "glo"; data_code := "glo-data" |});
   ("AIRTEL", {| net_name := "Airtel"; airtime_code := "airtel"; data_code := "airtel-data" |});
   ("9MOBILE",
    {| net_name := "9mobile"; airtime_code := "etisalat"; data_code := "etisalat-data" |})].

(** The entries [{ name }], by their code. *)
Definition SUPPORTED_ELECTRICITY_PROVIDERS : list (string * string) :=
  [("eko-electric", "Eko Electric");
   ("kano-electric", "Kano Electric");
   ("portharcourt-electric", "Port Harcourt Electric")].

(** The entries [{ name, code }], by their key. *)
Definition SUPPORTED_TV_PROVIDERS : list (string * provider) :=
  [("dstv", {| prov_code := "dstv"; prov_name := "DSTV" |});
   ("gotv", {| prov_code := "gotv"; prov_name := "GOTV" |});
   ("startimes", {| prov_code := "startimes"; prov_name := "StarTimes" |})].

Record button := {
  button_text : string;
  callback_data : string }.

Definition cancel_button : button :=
  {| button_text := "❌ Cancel"; callback_data := "cancel_operation" |}.

(** [for (let i = 0; i < l.length; i += 2) rows.push(l.slice(i, i + 2))] *)
Fixpoint rows_of_two {A} (l : list A) : list (list A) :=
  match l with
  | [] => []
  | [a] => [[a]]
  | a :: b :: rest => [a; b] :: rows_of_two rest
  end.

Definition getNetworkKeyboard (type : string) : list (list button) :=
  map (map (fun network =>
              {| button_text := net_name network;
                 callback_data := type +:+ "_network_" +:+ airtime_code network |}))
      (rows_of_two (map snd SUPPORTED_NETWORKS))
  ++ [[cancel_button]].

Definition getElectricityProviderKeyboard : list (list button) :=
  map (map (fun '(code, name) =>
              {| button_text := name; callback_data := "electricity_provider_" +:+ code |}))
      (rows_of_two SUPPORTED_ELECTRICITY_PROVIDERS)
  ++ [[cancel_button]].

Definition getTvProviderKeyboard : list (list button) :=
  map (map (fun '(code, provider) =>
              {| button_text := prov_name provider; callback_data := "tv_provider_" +:+ code |}))
      (rows_of_two SUPPORTED_TV_PROVIDERS)
  ++ [[cancel_button]].

Definition getCancelKeyboard : list (list button) := [[cancel_button]].

(** The reply keyboard sent by [/start] and [/cancel]. *)
Definition main_menu : list (list string) :=
  [["💳 Buy Airtime"; "📱 Buy Data"];
   ["💡 Pay Electricity"; "📺 Pay TV"];
   ["💰 Fund Wallet"; "📊 Check Balance"];
   ["📜 Transaction History"; "❓ Help"]].

(** ** What these handlers do to the outside *)

Inductive keyboard :=
| NoKeyboard
| InlineKeyboard (rows : list (list button))
| ReplyKeyboard (rows : list (list string)).

(** A line of the history: [t.type.toUpperCase()], [t.amount], [t.status]
    and the time [t.createdAt] of which the day is printed. *)
Record history_line := {
  line_type : string;
  line_amount : number;
  line_status : string;
  line_createdAt : N }.

(** The texts these handlers send, one constructor per template, with the
    values the template interpolates. *)
Inductive notice :=
| EnterValidAmountMin50           (* "❌ Enter valid amount (min ₦50)." *)
| EnterPhoneNumber                (* "📞 Enter phone number:" *)
| ConfirmAirtime (network : string) (amount : option number) (phone : string)
| InvalidVariationCode
    (* "❌ Invalid variation code. Please copy and send the exact code." *)
| ConfirmData (network : string) (plan amount phone : value)
| InvalidMeterNumber              (* "❌ Invalid meter number. Try again." *)
| MeterVerificationFailed (description : value)
| MeterVerified (customer : value)
| EnterValidAmountMin100          (* "❌ Enter valid amount (min ₦100)." *)
| ConfirmPayment (provider : string) (meter : value) (amount : number)
| InvalidCode                     (* "❌ Invalid code. Try again." *)
| ConfirmTv (provider : string) (card plan amount : value)
| EnterValidFundAmount            (* "❌ Enter a valid amount (min ₦100)" *)
| FailedToCreatePaymentLink       (* "❌ Failed to create payment link. Try again later." *)
| FundLink (amount : number) (authUrl : value)
| TryAgainLater                   (* "❌ Something went wrong. Try again later." *)
| SelectAirtimeNetwork            (* "Please select your network for Airtime:" *)
| SelectDataNetwork               (* "Please select your network for Data:" *)
| SelectElectricityProvider       (* "Please select your electricity provider:" *)
| SelectTvProvider                (* "Please select your TV provider:" *)
| UseFundCommand                  (* "Use command: /fund <amount> (e.g., /fund 500)" *)
| Balance (balance : number)      (* "💼 Balance: ₦.." *)
| NoTransactionsFound             (* "📭 No transactions found." *)
| Transactions (lines : list history_line)
| Help
| UnknownCommand
    (* "❓ Unknown command. Please use the menu buttons or available commands." *)
| InvalidNetworkSelected          (* "❌ Invalid network selected. Please try again." *)
| InvalidProviderSelected         (* "❌ Invalid provider selected. Please try again." *)
| SelectionFailed
    (* "❌ Something went wrong while processing your selection." *)
| OperationCancelled              (* "❌ Operation cancelled." *)
| SelectedNetworkEnterAmount (network : string)
| SelectedNetworkEnterPhone (network : string)
| SelectedProviderEnterMeter (provider : string)
| SelectedProviderEnterCard (provider : string)
| PaymentComplete
    (* "✅ Payment complete! Your wallet will reflect the balance shortly." *)
| Welcome (testMode : bool) (first_name : string)
| TryAgain                        (* "❌ Something went wrong. Please try again." *)
| TestOnlyInTestMode              (* "❌ Test commands are only available in test mode." *)
| TestCommands
| CurrentOperationCancelled.      (* "❌ Current operation cancelled." *)

Inductive action :=
| Did (e : effect)                  (* what the branches modelled in [Bot] do *)
| Reply (chatId : Z) (n : notice) (k : keyboard)
| AnswerCallbackQuery (queryId : string)
| EditMessageText (chatId messageId : Z) (n : notice)
| VerifyMeterNumber (billersCode serviceID type : string)
| InitializePayment (email : string) (amount : number) (reference : string)
| PollPaymentStatus (reference : string) (userId : Z) (amount : number) (chatId : Z).

(** The store, the session map and what was done to the outside so far,
    oldest first. *)
Record world := {
  store : Database.t;
  sessions : gmap Z session;
  log : list action }.

Definition of_bot (b : Bot.world) : world :=
  {| store := db b; sessions := userSessions b; log := map Did (effects b) |}.

(** A step of a branch modelled in [Bot], run on this world: its effects
    are appended to the log. *)
Definition bot {A} (m : M Bot.world A) : M world A :=
  zoom (fun w => {| db := store w; userSessions := sessions w; effects := [] |})
       (fun b w =>
          {| store := db b; sessions := userSessions b; log := log w ++ map Did (effects b) |})
       m.

Definition act (a : action) : M world unit :=
  modify (fun w => {| store := store w; sessions := sessions w; log := log w ++ [a] |}).

(** [bot.sendMessage(chatId, .., { reply_markup })] *)
Definition reply (chatId : Z) (n : notice) (k : keyboard) : M world unit :=
  act (Reply chatId n k).

Definition with_entry (chatId : Z) (s : session) (w : world) : world :=
  {| store := store w; sessions := <[chatId := s]> (sessions w); log := log w |}.

(** ** The session fields these handlers assign *)

Definition set_airtimeNetwork (n : network) (s : session) : session :=
  {| lastActivity := lastActivity s; stage := stage s; airtimeNetwork := Some n;
     airtimeAmount := airtimeAmount s; phone := phone s; dataNetwork := dataNetwork s;
     dataPhone := dataPhone s; variations := variations s; variation := variation s;
     electricityProvider := electricityProvider s; meter := meter s; amount := amount s;
     tvProvider := tvProvider s; card := card s |}.

Definition set_airtimeAmount (a : number) (s : session) : session :=
  {| lastActivity := lastActivity s; stage := stage s; airtimeNetwork := airtimeNetwork s;
     airtimeAmount := Some a; phone := phone s; dataNetwork := dataNetwork s;
     dataPhone := dataPhone s; variations := variations s; variation := variation s;
     electricityProvider := electricityProvider s; meter := meter s; amount := amount s;
     tvProvider := tvProvider s; card := card s |}.

Definition set_phone (p : string) (s : session) : session :=
  {| lastActivity := lastActivity s; stage := stage s; airtimeNetwork := airtimeNetwork s;
     airtimeAmount := airtimeAmount s; phone := Some p; dataNetwork := dataNetwork s;
     dataPhone := dataPhone s; variations := variations s; variation := variation s;
     electricityProvider := electricityProvider s; meter := meter s; amount := amount s;
     tvProvider := tvProvider s; card := card s |}.

Definition set_dataNetwork (n : network) (s : session) : session :=
  {| lastActivity := lastActivity s; stage := stage s; airtimeNetwork := airtimeNetwork s;
     airtimeAmount := airtimeAmount s; phone := phone s; dataNetwork := Some n;
     dataPhone := dataPhone s; variations := variations s; variation := variation s;
     electricityProvider := electricityProvider s; meter := meter s; amount := amount s;
     tvProvider := tvProvider s; card := card s |}.

Definition set_variation (v : value) (s : session) : session :=
  {| lastActivity := lastActivity s; stage := stage s; airtimeNetwork := airtimeNetwork s;
     airtimeAmount := airtimeAmount s; phone := phone s; dataNetwork := dataNetwork s;
     dataPhone := dataPhone s; variations := variations s; variation := v;
     electricityProvider := electricityProvider s; meter := meter s; amount := amount s;
     tvProvider := tvProvider s; card := card s |}.

Definition set_electricityProvider (p : provider) (s : session) : session :=
  {| lastActivity := lastActivity s; stage := stage s; airtimeNetwork := airtimeNetwork s;
     airtimeAmount := airtimeAmount s; phone := phone s; dataNetwork := dataNetwork s;
     dataPhone := dataPhone s; variations := variations s; variation := variation s;
     electricityProvider := Some p; meter := meter s; amount := amount s;
     tvProvider := tvProvider s; card := card s |}.

Definition set_meter (m : string) (s : session) : session :=
  {| lastActivity := lastActivity s; stage := stage s; airtimeNetwork := airtimeNetwork s;
     airtimeAmount := airtimeAmount s; phone := phone s; dataNetwork := dataNetwork s;
     dataPhone := dataPhone s; variations := variations s; variation := variation s;
     electricityProvider := electricityProvider s; meter := Some m; amount := amount s;
     tvProvider := tvProvider s; card := card s |}.

Definition set_amount (a : number) (s : session) : session :=
  {| lastActivity := lastActivity s; stage := stage s; airtimeNetwork := airtimeNetwork s;
     airtimeAmount := airtimeAmount s; phone := phone s; dataNetwork := dataNetwork s;
     dataPhone := dataPhone s; variations := variations s; variation := variation s;
     electricityProvider := electricityProvider s; meter := meter s; amount := Some a;
     tvProvider := tvProvider s; card := card s |}.

Definition set_tvProvider (p : provider) (s : session) : session :=
  {| lastActivity := lastActivity s; stage := stage s; airtimeNetwork := airtimeNetwork s;
     airtimeAmount := airtimeAmount s; phone := phone s; dataNetwork := dataNetwork s;
     dataPhone := dataPhone s; variations := variations s; variation := variation s;
     electricityProvider := electricityProvider s; meter := meter s; amount := amount s;
     tvProvider := Some p; card := card s |}.

(** ** The outside *)

(** What the outside answers while one message is handled. *)
Record env := {
  outside : Bot.env;
  paystackTestMode : bool;                         (* PAYSTACK_TEST_MODE === "true" *)
  meter_answer : outcome value;                    (* [vtpass.makeRequest("merchant-verify", ..)] *)
  initialize_answers : nat -> Paystack.http_result;
  reference_now : N;                               (* [Date.now()] in the reference of a funding *)
  record_clock : ambient }.                        (* [new Date()], [ID.unique()] of its record *)

(** [isTestMode] of [index.js] *)
Definition isTestMode (e : env) : bool := vtpassTestMode (outside e) || paystackTestMode e.

(** ** The stages that collect the data of a purchase *)

(** [session.stage === st] *)
Definition stage_is (session : session) (st : string) : bool :=
  match stage session with
  | Some s => String.eqb s st
  | None => false
  end.

Definition awaiting_airtime_amount (chatId : Z) (session : session) (sanitizedText : string)
  : M world unit :=
  let amount := parseFloat_string sanitizedText in
  if isNaN amount || lt amount (Num 50) then reply chatId EnterValidAmountMin50 NoKeyboard
  else
    let session := set_stage (Some "awaiting_airtime_phone") (set_airtimeAmount amount session) in
    bot (assign chatId session) ;;
    reply chatId EnterPhoneNumber (InlineKeyboard getCancelKeyboard).

Definition awaiting_airtime_phone (chatId : Z) (session : session) (sanitizedText : string)
  : M world unit :=
  let phone := strip_non_digits sanitizedText in
  if negb (phone_ok phone) then bot (sendMessage (Chat chatId) InvalidPhoneNumber)
  else
    let session := set_stage (Some "confirm_airtime") (set_phone phone session) in
    bot (assign chatId session) ;;
    let* network := lift (defined (airtimeNetwork session)) in
    reply chatId (ConfirmAirtime (net_name network) (airtimeAmount session) phone)
      (InlineKeyboard getCancelKeyboard).

(** [session.variations.find((v) =>
       v.variation_code.toLowerCase() === vcode.toLowerCase())]: it throws on
    a value without [find], on a plan that is [null] and on a code that is
    no string. *)
Fixpoint find_variation (vcode : string) (items : list value) : outcome (option value) :=
  match items with
  | [] => Ok None
  | v :: rest =>
      match member v "variation_code" with
      | Ok (Str code) =>
          if String.eqb (toLowerCase code) (toLowerCase vcode) then Ok (Some v)
          else find_variation vcode rest
      | Ok _ => Throw TypeError
      | Throw e => Throw e
      end
  end.

Definition choose_variation (variations : value) (vcode : string) : outcome (option value) :=
  match variations with
  | Arr items => find_variation vcode items
  | _ => Throw TypeError
  end.

Definition awaiting_data_variation (chatId : Z) (session : session) (sanitizedText : string)
  : M world unit :=
  let vcode := trim sanitizedText in
  let* variation := lift (choose_variation (variations session) vcode) in
  match variation with
  | None => reply chatId InvalidVariationCode NoKeyboard
  | Some variation =>
      let session := set_stage (Some "confirm_data") (set_variation variation session) in
      bot (assign chatId session) ;;
      let* network := lift (defined (dataNetwork session)) in
      reply chatId
        (ConfirmData (net_name network) (prop variation "name")
           (prop variation "variation_amount") (value_of (dataPhone session)))
        (InlineKeyboard getCancelKeyboard)
  end.

Definition awaiting_meter_number (e : env) (chatId : Z) (session : session)
    (sanitizedText : string) : M world unit :=
  let meter := trim sanitizedText in
  if negb (long_digits_ok meter) then reply chatId InvalidMeterNumber NoKeyboard
  else
    let session := set_meter meter session in
    bot (assign chatId session) ;;
    let* provider := lift (defined (electricityProvider session)) in
    act (VerifyMeterNumber meter (prov_code provider) "prepaid") ;;
    let* verification :=
      lift (VTPass.verifyMeterNumber (vtpassTestMode (outside e)) meter (prov_code provider)
              "prepaid" (meter_answer e)) in
    let* code := lift (member verification "code") in
    if negb (is_str code "000") then
      bot (delete_session chatId) ;;
      reply chatId
        (MeterVerificationFailed
           (or_else (prop verification "response_description") (Str "Unknown error")))
        NoKeyboard
    else
      let session := set_stage (Some "awaiting_meter_amount") session in
      bot (assign chatId session) ;;
      let* customer := lift (member (prop verification "content") "Customer_Name") in
      reply chatId (MeterVerified customer) (InlineKeyboard getCancelKeyboard).

Definition awaiting_meter_amount (chatId : Z) (session : session) (sanitizedText : string)
  : M world unit :=
  let amount := parseFloat_string sanitizedText in
  if isNaN amount || lt amount (Num 100) then reply chatId EnterValidAmountMin100 NoKeyboard
  else
    let session := set_stage (Some "confirm_electricity") (set_amount amount session) in
    bot (assign chatId session) ;;
    let* provider := lift (defined (electricityProvider session)) in
    reply chatId (ConfirmPayment (prov_name provider) (value_of (meter session)) amount)
      (InlineKeyboard getCancelKeyboard).

Definition awaiting_tv_variation (chatId : Z) (session : session) (sanitizedText : string)
  : M world unit :=
  let vcode := trim sanitizedText in
  let* variation := lift (choose_variation (variations session) vcode) in
  match variation with
  | None => reply chatId InvalidCode NoKeyboard
  | Some variation =>
      let session := set_stage (Some "confirm_tv") (set_variation variation session) in
      bot (assign chatId session) ;;
      let* provider := lift (defined (tvProvider session)) in
      reply chatId
        (ConfirmTv (prov_name provider) (value_of (card session)) (prop variation "name")
           (prop variation "variation_amount"))
        (InlineKeyboard getCancelKeyboard)
  end.

(** ** [/fund <amount>] *)

(** [s.startsWith(p)], with what follows the prefix. *)
Fixpoint drop_prefix (p s : string) : option string :=
  match p, s with
  | EmptyString, _ => Some s
  | String a p', String b s' => if Ascii.eqb a b then drop_prefix p' s' else None
  | String _ _, EmptyString => None
  end.

(** [/^\/fund (\d+)/.test(s)] *)
Definition fund_command (s : string) : bool :=
  match drop_prefix "/fund " s with
  | Some (String c _) => is_digit c
  | _ => false
  end.

(** [parseFloat(s.split(" ")[1])] *)
Definition fund_amount (s : string) : number :=
  match split " " s !! 1%nat with
  | Some piece => parseFloat_string piece
  | None => NaN
  end.

(** The block of the [/fund] command; [true] when it ends in [return],
    [false] when the handler goes on to the menu.  The user documents of
    this store carry no [email] ([createUser] writes none), so
    [user.email || `${user.telegramId}@example.com`] is the second
    operand.  The clock is read three times on the way: for
    [lastActivity] when the handler starts, for the reference, and, after
    the gateway has answered, for [createdAt] of the record. *)
Definition fund (e : env) (chatId userId : Z) (sanitizedText : string) : M world bool :=
  let amount := fund_amount sanitizedText in
  if isNaN amount || lt amount (Num 100) then
    reply chatId EnterValidFundAmount NoKeyboard ;;
    ret true
  else
    try_catch
      (let* user := bot (on_db (getUserByTelegramId (ArgNumber userId))) in
       let* user := lift (defined user) in
       let email := telegramId user +:+ "@example.com" in
       let reference := Reference.make Reference.FUND (telegramId user) (reference_now e) in
       act (InitializePayment email amount reference) ;;
       let* paystackResponse :=
         lift (Paystack.result
                 (Paystack.initializePayment email amount reference (initialize_answers e))) in
       let authUrl := prop (prop paystackResponse "data") "authorization_url" in
       if negb (truthy authUrl) then
         reply chatId FailedToCreatePaymentLink NoKeyboard ;;
         ret true
       else
         bot (on_db (createTransaction (record_clock e) (user_id user) "credit" amount
                       (Obj [("reference", Str reference); ("method", Str "paystack")])
                       "pending")) ;;
         reply chatId (FundLink amount authUrl) NoKeyboard ;;
         (if isTestMode e then act (PollPaymentStatus reference userId amount chatId)
          else ret tt) ;;
         ret false)
      (fun err =>
         reply chatId TryAgainLater NoKeyboard ;;
         ret true).

(** ** The menu *)

Definition upper_char (c : ascii) : ascii :=
  let n := nat_of_ascii c in
  if (97 <=? n)%nat && (n <=? 122)%nat then ascii_of_nat (n - 32) else c.

(** [s.toUpperCase()] on the ASCII letters. *)
Fixpoint toUpperCase (s : string) : string :=
  match s with
  | EmptyString => EmptyString
  | String c r => String (upper_char c) (toUpperCase r)
  end.

Definition history (t : transaction) : history_line :=
  {| line_type := toUpperCase (tx_type t);
     line_amount := tx_amount t;
     line_status := tx_status t;
     line_createdAt := tx_createdAt t |}.

Definition menu (chatId userId : Z) (session : session) (sanitizedText : string)
  : M world unit :=
  if String.eqb sanitizedText "💳 Buy Airtime" then
    bot (assign chatId (set_stage (Some "awaiting_airtime_network") session)) ;;
    reply chatId SelectAirtimeNetwork (InlineKeyboard (getNetworkKeyboard "airtime"))
  else if String.eqb sanitizedText "📱 Buy Data" then
    bot (assign chatId (set_stage (Some "awaiting_data_network") session)) ;;
    reply chatId SelectDataNetwork (InlineKeyboard (getNetworkKeyboard "data"))
  else if String.eqb sanitizedText "💡 Pay Electricity" then
    bot (assign chatId (set_stage (Some "awaiting_electricity_provider") session)) ;;
    reply chatId SelectElectricityProvider (InlineKeyboard getElectricityProviderKeyboard)
  else if String.eqb sanitizedText "📺 Pay TV" then
    bot (assign chatId (set_stage (Some "awaiting_tv_provider") session)) ;;
    reply chatId SelectTvProvider (InlineKeyboard getTvProviderKeyboard)
  else if String.eqb sanitizedText "💰 Fund Wallet" then
    reply chatId UseFundCommand NoKeyboard
  else if String.eqb sanitizedText "📊 Check Balance" then
    let* user := bot (on_db (getUserByTelegramId (ArgNumber userId))) in
    let* user := lift (defined user) in
    let* wallet := bot (on_db (getUserWallet (user_id user))) in
    let balance :=
      match wallet with
      | Some wallet => Database.balance wallet
      | None => Num 0
      end in
    reply chatId (Balance balance) NoKeyboard
  else if String.eqb sanitizedText "📜 Transaction History" then
    let* user := bot (on_db (getUserByTelegramId (ArgNumber userId))) in
    let* user := lift (defined user) in
    let* txns := bot (on_db (getUserTransactions (user_id user) 10)) in
    match txns with
    | [] => reply chatId NoTransactionsFound NoKeyboard
    | _ => reply chatId (Transactions (map history txns)) NoKeyboard
    end
  else if String.eqb sanitizedText "❓ Help" then
    reply chatId Help NoKeyboard
  else if negb (truthy (value_of (stage session))) then
    reply chatId UnknownCommand NoKeyboard
  else ret tt.

(** ** [bot.on("message", ..)] *)

(** The [try] block of the handler. *)
Definition body (e : env) (chatId userId : Z) (session : session) (sanitizedText : string)
  : M world unit :=
  if stage_is session "awaiting_airtime_amount" then
    awaiting_airtime_amount chatId session sanitizedText
  else if stage_is session "awaiting_airtime_phone" then
    awaiting_airtime_phone chatId session sanitizedText
  else if stage_is session "confirm_airtime" then
    bot (confirm Airtime (outside e) chatId userId session sanitizedText)
  else if stage_is session "awaiting_data_phone" then
    bot (awaiting_data_phone (outside e) chatId session sanitizedText)
  else if stage_is session "awaiting_data_variation" then
    awaiting_data_variation chatId session sanitizedText
  else if stage_is session "confirm_data" then
    bot (confirm Data (outside e) chatId userId session sanitizedText)
  else if stage_is session "awaiting_meter_number" then
    awaiting_meter_number e chatId session sanitizedText
  else if stage_is session "awaiting_meter_amount" then
    awaiting_meter_amount chatId session sanitizedText
  else if stage_is session "confirm_electricity" then
    bot (confirm Electricity (outside e) chatId userId session sanitizedText)
  else if stage_is session "awaiting_card_number" then
    bot (awaiting_card_number (outside e) chatId session sanitizedText)
  else if stage_is session "awaiting_tv_variation" then
    awaiting_tv_variation chatId session sanitizedText
  else if stage_is session "confirm_tv" then
    bot (confirm Tv (outside e) chatId userId session sanitizedText)
  else
    let* returned :=
      if fund_command sanitizedText then fund e chatId userId sanitizedText else ret false in
    if returned then ret tt else menu chatId userId session sanitizedText.

Definition on_message (e : env) (msg : incoming) (w : world) : world :=
  match text msg with
  | None => w
  | Some raw =>
      let text := trim raw in
      if skipped text then w
      else
        let chatId := chat_id msg in
        let session := touch_session (now (clock (outside e))) chatId (sessions w) in
        snd (try_catch (body e chatId (from_id msg) session (sanitize text))
               (fun err => bot (reset chatId err))
               (with_entry chatId session w))
  end.

(** ** [bot.on("callback_query", ..)] *)

Record callback := {
  query_id : string;             (* query.id *)
  query_chat : Z;                (* query.message.chat.id *)
  query_message : Z;             (* query.message.message_id *)
  query_data : option string }.  (* query.data *)

(** What a branch of the handler makes of the code in the callback data:
    [None] where the table answers an inherited member. *)
Definition selection := option (M world unit).

Definition select_airtime_network (q : callback) (session : session) (networkCode : string)
  : M world unit :=
  match List.find (fun net => String.eqb (airtime_code net) networkCode)
          (map snd SUPPORTED_NETWORKS) with
  | None => reply (query_chat q) InvalidNetworkSelected NoKeyboard
  | Some selectedNetwork =>
      bot (assign (query_chat q)
             (set_stage (Some "awaiting_airtime_amount")
                (set_airtimeNetwork selectedNetwork session))) ;;
      act (EditMessageText (query_chat q) (query_message q)
             (SelectedNetworkEnterAmount (net_name selectedNetwork)))
  end.

Definition select_data_network (q : callback) (session : session) (networkCode : string)
  : M world unit :=
  match List.find (fun net => String.eqb (airtime_code net) networkCode)
          (map snd SUPPORTED_NETWORKS) with
  | None => reply (query_chat q) InvalidNetworkSelected NoKeyboard
  | Some selectedNetwork =>
      bot (assign (query_chat q)
             (set_stage (Some "awaiting_data_phone")
                (set_dataNetwork selectedNetwork session))) ;;
      act (EditMessageText (query_chat q) (query_message q)
             (SelectedNetworkEnterPhone (net_name selectedNetwork)))
  end.

(** [session.electricityProvider = { code: providerCode, ...selectedProvider }] *)
Definition select_electricity_provider (q : callback) (session : session)
    (providerCode : string) : selection :=
  match Tables.lookup SUPPORTED_ELECTRICITY_PROVIDERS providerCode with
  | Tables.Inherited => None
  | Tables.Absent => Some (reply (query_chat q) InvalidProviderSelected NoKeyboard)
  | Tables.Own name =>
      Some
        (bot (assign (query_chat q)
                (set_stage (Some "awaiting_meter_number")
                   (set_electricityProvider
                      {| prov_code := providerCode; prov_name := name |} session))) ;;
         act (EditMessageText (query_chat q) (query_message q)
                (SelectedProviderEnterMeter name)))
  end.

(** [session.tvProvider = { code: providerCode, ...selectedProvider }]: the
    [code] of the entry overwrites the one written first. *)
Definition select_tv_provider (q : callback) (session : session) (providerCode : string)
  : selection :=
  match Tables.lookup SUPPORTED_TV_PROVIDERS providerCode with
  | Tables.Inherited => None
  | Tables.Absent => Some (reply (query_chat q) InvalidProviderSelected NoKeyboard)
  | Tables.Own selectedProvider =>
      Some
        (bot (assign (query_chat q)
                (set_stage (Some "awaiting_card_number")
                   (set_tvProvider
                      {| prov_code := prov_code selectedProvider;
                         prov_name := prov_name selectedProvider |} session))) ;;
         act (EditMessageText (query_chat q) (query_message q)
                (SelectedProviderEnterCard (prov_name selectedProvider))))
  end.

(** The branch the callback data selects; [data.replace(prefix, "")] of a
    text that starts with the prefix is what follows it. *)
Definition selected (q : callback) (session : session) (data : string) : selection :=
  match drop_prefix "airtime_network_" data with
  | Some networkCode => Some (select_airtime_network q session networkCode)
  | None =>
      match drop_prefix "data_network_" data with
      | Some networkCode => Some (select_data_network q session networkCode)
      | None =>
          match drop_prefix "electricity_provider_" data with
          | Some providerCode => select_electricity_provider q session providerCode
          | None =>
              match drop_prefix "tv_provider_" data with
              | Some providerCode => select_tv_provider q session providerCode
              | None => Some (ret tt)
              end
          end
      end
  end.

(** The handler; [None] where it leaves the model. *)
Definition on_callback_query (now : N) (q : callback) (w : world) : option world :=
  let chatId := query_chat q in
  if bool_decide (query_data q = Some "cancel_operation") then
    Some (snd ((bot (delete_session chatId) ;;
                act (AnswerCallbackQuery (query_id q)) ;;
                act (EditMessageText chatId (query_message q) OperationCancelled))
                 w))
  else
    let session := touch_session now chatId (sessions w) in
    let w := with_entry chatId session w in
    let choice :=
      match query_data q with
      | Some data => selected q session data
      | None => Some (throw TypeError)
      end in
    match choice with
    | Some branch =>
        Some (snd (try_catch (act (AnswerCallbackQuery (query_id q)) ;; branch)
                     (fun err => reply chatId SelectionFailed NoKeyboard) w))
    | None => None
    end.

(** ** The commands *)

(** The message of a command: the chat, the sender, and what the pattern
    of the command captured ([match[1]]). *)
Record command := {
  cmd_chat : Z;                    (* msg.chat.id *)
  cmd_from : Z;                    (* msg.from.id *)
  cmd_first_name : string;         (* msg.from.first_name, empty when missing *)
  cmd_last_name : option string;
  cmd_username : option string;
  cmd_param : option string }.

(** [s || ""] *)
Definition or_empty (s : option string) : string :=
  match s with
  | Some s => s
  | None => ""
  end.

(** [/start]; [fresh_user] and [fresh_wallet] are the ids [ID.unique()]
    answers. *)
Definition on_start (testMode : bool) (fresh_user fresh_wallet : string) (c : command)
    (w : world) : world :=
  snd (try_catch
         (bot (on_db (createUser fresh_user fresh_wallet (ArgNumber (cmd_from c))
                        (cmd_first_name c) (or_empty (cmd_last_name c))
                        (or_empty (cmd_username c)))) ;;
          (if bool_decide (cmd_param c = Some "wallet_funded")
           then reply (cmd_chat c) PaymentComplete NoKeyboard
           else ret tt) ;;
          reply (cmd_chat c) (Welcome testMode (cmd_first_name c)) (ReplyKeyboard main_menu))
         (fun err => reply (cmd_chat c) TryAgain NoKeyboard)
         w).

(** [/test] *)
Definition on_test (testMode : bool) (c : command) (w : world) : world :=
  snd (reply (cmd_chat c) (if testMode then TestCommands else TestOnlyInTestMode) NoKeyboard w).

(** [/cancel] *)
Definition on_cancel (c : command) (w : world) : world :=
  snd ((bot (delete_session (cmd_chat c)) ;;
        reply (cmd_chat c) CurrentOperationCancelled (ReplyKeyboard main_menu)) w).

(** ** The periodic session cleanup *)

Definition SESSION_TIMEOUT : Z := 30 * 60 * 1000.

(** [now - session.lastActivity > SESSION_TIMEOUT] *)
Definition expired (now : N) (s : session) : bool :=
  (SESSION_TIMEOUT <? Z.of_N now - Z.of_N (lastActivity s))%Z.

(** The callback of the cleanup interval: every expired session is
    deleted. *)
Definition cleanup (now : N) (w : world) : world :=
  {| store := store w;
     sessions := filter (fun entry => expired now (snd entry) = false) (sessions w);
     log := log w |}.

(** ** The handlers, one event after the other *)

Inductive event :=
| Message (e : env) (msg : incoming)
| CallbackQuery (now : N) (q : callback)
| StartCommand (testMode : bool) (fresh_user fresh_wallet : string) (c : command)
| TestCommand (testMode : bool) (c : command)
| CancelCommand (c : command)
| Cleanup (now : N).

Definition handle (ev : event) (w : world) : option world :=
  match ev with
  | Message e msg => Some (on_message e msg w)
  | CallbackQuery now q => on_callback_query now q w
  | StartCommand testMode fresh_user fresh_wallet c =>
      Some (on_start testMode fresh_user fresh_wallet c w)
  | TestCommand testMode c => Some (on_test testMode c w)
  | CancelCommand c => Some (on_cancel c w)
  | Cleanup now => Some (cleanup now w)
  end.

Fixpoint run (evs : list event) (w : world) : option world :=
  match evs with
  | [] => Some w
  | ev :: rest =>
      match handle ev w with
      | Some w' => run rest w'
      | None => None
      end
  end.

(** ** What a session holds at a stage *)

(** The stages that read the text of a message as their input; at any
    other stage the text is read as a command of the menu. *)
Definition input_stages : list string :=
  ["awaiting_airtime_amount"; "awaiting_airtime_phone"; "confirm_airtime";
   "awaiting_data_phone"; "awaiting_data_variation"; "confirm_data";
   "awaiting_meter_number"; "awaiting_meter_amount"; "confirm_electricity";
   "awaiting_card_number"; "awaiting_tv_variation"; "confirm_tv"].

Definition at_menu (s : session) : bool :=
  forallb (fun st => negb (stage_is s st)) input_stages.

Definition network_known (n : option network) : Prop :=
  exists k, n = Some k /\ In k (map snd SUPPORTED_NETWORKS).

Definition electricity_provider_known (p : option provider) : Prop :=
  exists k, p = Some k /\ In (prov_code k, prov_name k) SUPPORTED_ELECTRICITY_PROVIDERS.

Definition tv_provider_known (p : option provider) : Prop :=
  exists k, p = Some k /\ In k (map snd SUPPORTED_TV_PROVIDERS).

Definition at_least (min : Q) (a : option number) : Prop :=
  exists q, a = Some (Num q) /\ (min <= q)%Q.

(** A number of 10 to 14 digits; a number of 10 digits or more. *)
Definition phone_number (p : option string) : Prop :=
  exists t, p = Some t /\ phone_ok t = true.

Definition long_number (p : option string) : Prop :=
  exists t, p = Some t /\ long_digits_ok t = true.

(** A plan with a code that is a string. *)
Definition plan_chosen (v : value) : Prop :=
  exists code, member v "variation_code" = Ok (Str code).

(** The session holds what the stages before its own have collected. *)
Definition complete (s : session) : Prop :=
  (stage_is s "awaiting_airtime_amount" = true -> network_known (airtimeNetwork s)) /\
  (stage_is s "awaiting_airtime_phone" = true ->
   network_known (airtimeNetwork s) /\ at_least 50 (airtimeAmount s)) /\
  (stage_is s "confirm_airtime" = true ->
   network_known (airtimeNetwork s) /\ at_least 50 (airtimeAmount s)
   /\ phone_number (phone s)) /\
  (stage_is s "awaiting_data_phone" = true -> network_known (dataNetwork s)) /\
  (stage_is s "awaiting_data_variation" = true ->
   network_known (dataNetwork s) /\ phone_number (dataPhone s)) /\
  (stage_is s "confirm_data" = true ->
   network_known (dataNetwork s) /\ phone_number (dataPhone s)
   /\ plan_chosen (variation s)) /\
  (stage_is s "awaiting_meter_number" = true ->
   electricity_provider_known (electricityProvider s)) /\
  (stage_is s "awaiting_meter_amount" = true ->
   electricity_provider_known (electricityProvider s) /\ long_number (meter s)) /\
  (stage_is s "confirm_electricity" = true ->
   electricity_provider_known (electricityProvider s) /\ long_number (meter s)
   /\ at_least 100 (amount s)) /\
  (stage_is s "awaiting_card_number" = true -> tv_provider_known (tvProvider s)) /\
  (stage_is s "awaiting_tv_variation" = true ->
   tv_provider_known (tvProvider s) /\ long_number (card s)) /\
  (stage_is s "confirm_tv" = true ->
   tv_provider_known (tvProvider s) /\ long_number (card s) /\ plan_chosen (variation s)).

Definition all_complete (w : world) : Prop :=
  forall chatId s, sessions w !! chatId = Some s -> complete s.

(** What a handler that ran at the time [now] leaves in the session of its
    chat. *)
Definition kept (now : N) (_ : unit) (s : session) : Prop :=
  complete s /\ lastActivity s = now.

(** ** What a handler body does to the store and to the session map

    [m] leaves a part of the state (the store, the sessions) as it is; [m]
    touches the session of one chat only; and, for a body that runs from a
    session of the chat that satisfies [before]: when it returns [a], the
    session of the chat, if there is one, satisfies [after a]. *)
Definition quiet {S V A} (view : S -> V) (m : M S A) : Prop :=
  forall s, view (snd (m s)) = view s.

Definition confined {S A} (view : S -> gmap Z session) (chatId : Z) (m : M S A) : Prop :=
  forall s c, c <> chatId -> view (snd (m s)) !! c = view s !! c.

Definition entry {S A} (view : S -> gmap Z session) (chatId : Z)
    (before : session -> Prop) (m : M S A) (after : A -> session -> Prop) : Prop :=
  forall s a s',
    (forall x, view s !! chatId = Some x -> before x) ->
    m s = (Ok a, s') ->
    forall x, view s' !! chatId = Some x -> after a x.

(** The chat an event belongs to; the cleanup belongs to none. *)
Definition chat_of (ev : event) : option Z :=
  match ev with
  | Message _ msg => Some (chat_id msg)
  | CallbackQuery _ q => Some (query_chat q)
  | StartCommand _ _ _ c => Some (cmd_chat c)
  | TestCommand _ c => Some (cmd_chat c)
  | CancelCommand c => Some (cmd_chat c)
  | Cleanup _ => None
  end.

(** The messages that can reach a write to the store: a [yes] at a confirm
    stage, and a [/fund] command at the menu. *)
Definition may_write (session : session) (sanitizedText : string) : bool :=
  String.eqb (toLowerCase sanitizedText) "yes"
  && existsb (fun f => stage_is session (confirm_stage f)) [Airtime; Data; Electricity; Tv]
  || at_menu session && fund_command sanitizedText.

Definition writes (ev : event) (w : world) : bool :=
  match ev with
  | Message e msg =>
      match text msg with
      | Some raw =>
          may_write (touch_session (now (clock (outside e))) (chat_id msg) (sessions w))
            (sanitize (trim raw))
      | None => false
      end
  | StartCommand _ _ _ _ => true
  | _ => false
  end.

(** ** The events the model follows

    Two readings of a text are idealised in [Js]: the number [parseFloat]
    answers is kept exact where the code holds the nearest binary number
    (or an infinity), and letters change case in ASCII only.  The texts
    below are those on which the handlers decide as the code does.

    An amount: the number the text starts with has at most 15 digits and
    no exponent, and is not [Infinity]; its nearest binary number is then
    on the same side of 50 and of 100. *)
Definition plain_amount (s : string) : bool :=
  let '(_, r0) := read_sign (trim_start s) in
  let '(_, ni, r1) := read_digits r0 0 0 in
  let '(nf, r3) :=
    match r1 with
    | String c r2 =>
        if Ascii.eqb c "." then let '(_, nf, r3) := read_digits r2 0 0 in (nf, r3)
        else (0%nat, r1)
    | EmptyString => (0%nat, r1)
    end in
  negb (String.prefix "Infinity" r0)
  && (ni + nf <=? 15)%nat
  && match r3 with
     | String c _ => negb (Ascii.eqb c "e" || Ascii.eqb c "E")
     | EmptyString => true
     end.

(** A text of ASCII characters; a list of plans whose codes are such. *)
Definition ascii_text (s : string) : bool :=
  all_chars (fun c => (nat_of_ascii c <? 128)%nat) s.

Definition plain_codes (variations : value) : bool :=
  match variations with
  | Arr items =>
      forallb (fun v => match prop v "variation_code" with
                        | Str code => ascii_text code
                        | _ => true
                        end) items
  | _ => true
  end.

(** The message is one the model follows in the world it arrives in: an
    amount, where the handler reads one, is plain; a plan code, where the
    handler compares one, is typed in ASCII and compared with ASCII codes. *)
Definition within (ev : event) (w : world) : bool :=
  match ev with
  | Message e msg =>
      match text msg with
      | Some raw =>
          let session := touch_session (now (clock (outside e))) (chat_id msg) (sessions w) in
          let sanitizedText := sanitize (trim raw) in
          if skipped (trim raw) then true
          else if stage_is session "awaiting_airtime_amount"
                  || stage_is session "awaiting_meter_amount"
          then plain_amount sanitizedText
          else if stage_is session "awaiting_data_variation"
                  || stage_is session "awaiting_tv_variation"
          then ascii_text sanitizedText && plain_codes (variations session)
          else if at_menu session && fund_command sanitizedText
          then match split " " sanitizedText !! 1%nat with
               | Some piece => plain_amount piece
               | None => true
               end
          else true
      | None => true
      end
  | _ => true
  end.

(** Every event of the sequence is handled, and is within the model in the
    world it arrives in. *)
Fixpoint followed (evs : list event) (w : world) : bool :=
  match evs with
  | [] => true
  | ev :: rest =>
      within ev w
      && match handle ev w with
         | Some w' => followed rest w'
         | None => false
         end
  end.

End Handlers.

(* ===================================================================== *)
(** * Sample stores and events for the examples *)
(* ===================================================================== *)

Module Samples.
Import Js Database.

Definition alice : user := {| user_id := "u1"; telegramId := "42" |}.

Definition store : Database.t :=
  {| users := [alice];
     wallets := [ {| wallet_id := "w1"; wallet_userId := "u1"; balance := Num 100 |} ];
     transactions := [] |}.

Definition ledger_calls : list ledger_call :=
  [ {| call_userId := "u1"; call_amount := Num 50; call_type := "credit" |};
    {| call_userId := "u1"; call_amount := Num 500; call_type := "debit" |};
    {| call_userId := "u1"; call_amount := Num (120555 # 1000); call_type := "debit" |} ].

(** A gateway that is rate limited once and then answers. *)
Definition rate_limited_once (k : nat) : Paystack.http_result :=
  match k with
  | O => Paystack.HttpError (Some 429%nat)
  | S _ => Paystack.Response (Obj [("status", Bool true)])
  end.

(** A funding of 500 by the user with Telegram id 42, waiting for its
    payment, and the push that reports the payment. *)
Definition funding_reference : string := "FUND_42_1700000000000".

Definition pending_funding : transaction :=
  {| tx_id := "t1"; tx_userId := "u1"; tx_type := "credit"; tx_amount := Num 500;
     tx_reference := Str funding_reference;
     tx_details := Obj [("reference", Str funding_reference); ("method", Str "paystack")];
     tx_status := "pending"; tx_createdAt := 1700000000000 |}.

Definition funding_store : Database.t :=
  {| users := [alice];
     wallets := [ {| wallet_id := "w1"; wallet_userId := "u1"; balance := Num 0 |} ];
     transactions := [pending_funding] |}.

Definition funding_world : Bot.world :=
  {| Bot.db := funding_store; Bot.userSessions := ∅; Bot.effects := [] |}.

Definition charge_success : value :=
  Obj [("event", Str "charge.success");
       ("data", Obj [("reference", Str funding_reference);
                     ("amount", Number (Num 50000))])].

Definition quoted (s : string) : string :=
  String (ascii_of_nat 34) s +:+ String (ascii_of_nat 34) EmptyString.

(** The JSON text of [charge_success]. *)
Definition charge_success_wire : string :=
  "{" +:+ quoted "event" +:+ ":" +:+ quoted "charge.success" +:+ ","
  +:+ quoted "data" +:+ ":{" +:+ quoted "reference" +:+ ":" +:+ quoted funding_reference
  +:+ "," +:+ quoted "amount" +:+ ":50000}}".

(** A parser that knows this one text. *)
Definition parse_charge (text : string) : option value :=
  if String.eqb text charge_success_wire then Some charge_success else None.

(** The gateway confirms the payment. *)
Definition payment_succeeded (k : nat) : Paystack.http_result :=
  Paystack.Response (Obj [("status", Bool true); ("data", Obj [("status", Str "success")])]).

(** The gateway still waits for the payment. *)
Definition payment_pending (k : nat) : Paystack.http_result :=
  Paystack.Response (Obj [("status", Bool true); ("data", Obj [("status", Str "abandoned")])]).

Definition at_time (t : N) (id : string) : ambient := {| now := t; unique := id |}.

(** The push of the gateway, signed with the key [secret] under [hmac]. *)
Definition signed_push (hmac : string -> string -> string) (secret : string)
  : Reconcile.request :=
  {| Reconcile.has_body := true; Reconcile.is_json := true;
     Reconcile.wire := charge_success_wire;
     Reconcile.signature := Some (hmac secret charge_success_wire) |}.

(** The same body under a signature that does not match. *)
Definition forged_push : Reconcile.request :=
  {| Reconcile.has_body := true; Reconcile.is_json := true;
     Reconcile.wire := charge_success_wire;
     Reconcile.signature := Some "00" |}.

(** A chat with the bot: chat 7, by the user with Telegram id 42. *)
Definition MTN : Bot.network :=
  {| Bot.net_name := "MTN"; Bot.airtime_code := "mtn"; Bot.data_code := "mtn-data" |}.

Definition DSTV : Bot.provider := {| Bot.prov_code := "dstv"; Bot.prov_name := "DSTV" |}.

(** The session before the confirmation of an airtime purchase. *)
Definition airtime_session (amount : Q) : Bot.session :=
  {| Bot.lastActivity := 1700000000000; Bot.stage := Some "confirm_airtime";
     Bot.airtimeNetwork := Some MTN; Bot.airtimeAmount := Some (Num amount);
     Bot.phone := Some "08012345678"; Bot.dataNetwork := None; Bot.dataPhone := None;
     Bot.variations := Undefined; Bot.variation := Undefined;
     Bot.electricityProvider := None; Bot.meter := None; Bot.amount := None;
     Bot.tvProvider := None; Bot.card := None |}.

(** The session before the confirmation of a data purchase of the plan
    [M1024], priced ["500"]. *)
Definition data_session : Bot.session :=
  {| Bot.lastActivity := 1700000000000; Bot.stage := Some "confirm_data";
     Bot.airtimeNetwork := None; Bot.airtimeAmount := None; Bot.phone := None;
     Bot.dataNetwork := Some MTN; Bot.dataPhone := Some "08012345678";
     Bot.variations := Arr [VTPass.plan "M1024" "MTN Data 1GB" "500"];
     Bot.variation := VTPass.plan "M1024" "MTN Data 1GB" "500";
     Bot.electricityProvider := None; Bot.meter := None; Bot.amount := None;
     Bot.tvProvider := None; Bot.card := None |}.

(** The sessions that wait for the phone number of a data purchase and for
    the smart card number of a TV subscription. *)
Definition data_phone_session : Bot.session :=
  {| Bot.lastActivity := 1700000000000; Bot.stage := Some "awaiting_data_phone";
     Bot.airtimeNetwork := None; Bot.airtimeAmount := None; Bot.phone := None;
     Bot.dataNetwork := Some MTN; Bot.dataPhone := None;
     Bot.variations := Undefined; Bot.variation := Undefined;
     Bot.electricityProvider := None; Bot.meter := None; Bot.amount := None;
     Bot.tvProvider := None; Bot.card := None |}.

Definition card_session : Bot.session :=
  {| Bot.lastActivity := 1700000000000; Bot.stage := Some "awaiting_card_number";
     Bot.airtimeNetwork := None; Bot.airtimeAmount := None; Bot.phone := None;
     Bot.dataNetwork := None; Bot.dataPhone := None;
     Bot.variations := Undefined; Bot.variation := Undefined;
     Bot.electricityProvider := None; Bot.meter := None; Bot.amount := None;
     Bot.tvProvider := Some DSTV; Bot.card := None |}.

Definition chatting (s : Bot.session) (d : Database.t) : Bot.world :=
  {| Bot.db := d; Bot.userSessions := {[ 7%Z := s ]}; Bot.effects := [] |}.

(** U+00A0, the no-break space, and U+2003, the em space, in UTF-8. *)
Definition no_break_space : string :=
  String (ascii_of_nat 194) (String (ascii_of_nat 160) EmptyString).

Definition em_space : string :=
  String (ascii_of_nat 226) (String (ascii_of_nat 128) (String (ascii_of_nat 131) EmptyString)).

Definition says (t : string) : Bot.incoming :=
  {| Bot.chat_id := 7; Bot.from_id := 42; Bot.text := Some t |}.

(** Provider responses: delivered, accepted but still pending, refused. *)
Definition provider_response (code description : string) (delivery : string) : value :=
  Obj [("code", Str code);
       ("response_description", Str description);
       ("content", Obj [("transactions", Obj [("status", Str delivery)])])].

Definition delivered : value := provider_response "000" "TRANSACTION SUCCESSFUL" "delivered".
Definition accepted_pending : value := provider_response "000" "TRANSACTION SUCCESSFUL" "pending".
Definition refused : value :=
  Obj [("code", Str "016"); ("response_description", Str "TRANSACTION FAILED");
       ("content", Obj [("error", Str "Insufficient balance on merchant account")])].

(** The outside during one message: test mode, the provider answers
    [answer] to a purchase. *)
Definition outside (answer : value) : Bot.env :=
  {| Bot.clock := at_time 1700000100000 "t9";
     Bot.vtpassTestMode := true;
     Bot.pay_answer := Ok answer;
     Bot.variations_answer := Throw (Error "Service temporarily unavailable") |}.

(** A stand-in for the keyed hash, for the examples that run the handler on
    a buffer. *)
Definition toy_hmac (key bytes : string) : string := key +:+ ":" +:+ bytes.

(** Another funding of the same user, left pending. *)
Definition other_funding (k : N) : transaction :=
  {| tx_id := "o" +:+ pretty k; tx_userId := "u1"; tx_type := "credit"; tx_amount := Num 100;
     tx_reference := Str (Reference.make Reference.FUND "42" (1700000000000 + k));
     tx_details :=
       Obj [("reference", Str (Reference.make Reference.FUND "42" (1700000000000 + k)));
            ("method", Str "paystack")];
     tx_status := "pending"; tx_createdAt := 1700000000000 + k |}.

(** The store of [funding_store] after ten more [/fund] commands. *)
Definition crowded_store : Database.t :=
  {| users := [alice];
     wallets := [ {| wallet_id := "w1"; wallet_userId := "u1"; balance := Num 0 |} ];
     transactions := pending_funding :: map other_funding [1; 2; 3; 4; 5; 6; 7; 8; 9; 10]%N |}.

(** The funding of [funding_reference], as [/fund 500] in chat 7 starts it. *)
Definition the_funding : Reconcile.funding :=
  {| Reconcile.fund_reference := funding_reference;
     Reconcile.fund_userId := 42;
     Reconcile.fund_amount := Num 500;
     Reconcile.fund_chatId := 7;
     Reconcile.fund_maxAttempts := 30;
     Reconcile.fund_wire := charge_success_wire |}.

(** The gateway answers an initialization with a payment link. *)
Definition payment_link (k : nat) : Paystack.http_result :=
  Paystack.Response
    (Obj [("status", Bool true);
          ("data", Obj [("authorization_url", Str "https://checkout.paystack.com/0peioxfhpn")])]).

(** The outside of the handlers of [index.js] during one message: the
    provider delivers, the gateway answers a payment link. *)
Definition surroundings (paystackTest : bool) : Handlers.env :=
  {| Handlers.outside := outside delivered;
     Handlers.paystackTestMode := paystackTest;
     Handlers.meter_answer := Throw (Error "Service temporarily unavailable");
     Handlers.initialize_answers := payment_link;
     Handlers.reference_now := 1700000100002;
     Handlers.record_clock := at_time 1700000100350 "t10" |}.

(** Live mode, and the provider answers [answer] to a purchase. *)
Definition answering (answer : value) : Bot.env :=
  {| Bot.clock := at_time 1700000100000 "t9";
     Bot.vtpassTestMode := false;
     Bot.pay_answer := Ok answer;
     Bot.variations_answer := Throw (Error "Service temporarily unavailable") |}.

(** Live mode, and the provider cannot be reached. *)
Definition unreachable : Bot.env :=
  {| Bot.clock := at_time 1700000100000 "t9";
     Bot.vtpassTestMode := false;
     Bot.pay_answer := Throw (Error "Service temporarily unavailable");
     Bot.variations_answer := Throw (Error "Service temporarily unavailable") |}.

(** The registered user [alice] before any chat, and what chat 7 sends
    to order airtime: the button of a network, an amount, a phone number. *)
Definition registered : Handlers.world :=
  {| Handlers.store := store; Handlers.sessions := ∅; Handlers.log := [] |}.

Definition presses (data : string) : Handlers.callback :=
  {| Handlers.query_id := "q1"; Handlers.query_chat := 7; Handlers.query_message := 11;
     Handlers.query_data := Some data |}.

Definition airtime_order : list Handlers.event :=
  [ Handlers.CallbackQuery 1700000000000 (presses "airtime_network_mtn");
    Handlers.Message (surroundings false) (says "200");
    Handlers.Message (surroundings false) (says "08012345678") ].

End Samples.

(* ===================================================================== *)
(** * Part II: properties *)
(* ===================================================================== *)

(** ** Transaction references *)

Example reference_fund_42 :
  Reference.make Reference.FUND "42" 1700000000000 = "FUND_42_1700000000000".
Proof. reflexivity. Qed.

Example reference_user_part_42 :
  Reference.user_part "FUND_42_1700000000000" = Some "42".
Proof. reflexivity. Qed.

(** An underscore inside the user id cuts the parsed part short. *)
Example reference_user_part_underscore :
  Reference.user_part (Reference.make Reference.AIRTIME "a_b" 5) = Some "a".
Proof. reflexivity. Qed.

Section SplitFacts.
Variable sep : ascii.

Lemma no_sep_cons c s :
  Js.has_char sep (String c s) = false ->
  Ascii.eqb c sep = false /\ Js.has_char sep s = false.
Proof.
  unfold Js.has_char. cbn [Js.all_chars].
  destruct (Ascii.eqb c sep); cbn; [discriminate | auto].
Qed.

(** A piece without separator, followed by a separator, is cut off as the
    first element. *)
Lemma split_piece s rest :
  Js.has_char sep s = false ->
  Js.split sep (s +:+ String sep rest) = s :: Js.split sep rest.
Proof.
  induction s as [|c s IH]; intros Hfree; simpl.
  - now rewrite Ascii.eqb_refl.
  - apply no_sep_cons in Hfree as [-> Hs]. now rewrite (IH Hs).
Qed.
End SplitFacts.

Lemma prefix_text_free p : Js.has_char "_" (Reference.prefix_text p) = false.
Proof. now destruct p. Qed.

(** C7. A reference built as [<PREFIX>_<userId>_<epochMillis>] from a user
    id without underscore is parsed back, by [split("_")[1]], to that same
    user id, for each of the prefixes and every timestamp. *)
Theorem reference_round_trip (p : Reference.prefix) (userId : string) (now : N) :
  Js.has_char "_" userId = false ->
  Reference.user_part (Reference.make p userId now) = Some userId.
Proof.
  intros Hfree. unfold Reference.user_part.
  change (Reference.make p userId now)
    with (Reference.prefix_text p +:+ String "_" (userId +:+ String "_" (pretty now))).
  rewrite (split_piece "_" _ _ (prefix_text_free p)).
  now rewrite (split_piece "_" userId (pretty now) Hfree).
Qed.

Lemma reference_round_trip_witness :
  Js.has_char "_" "64f1c2a9" = false /\
  Reference.user_part (Reference.make Reference.AIRTIME "64f1c2a9" 1700000000000)
  = Some "64f1c2a9".
Proof.
  split; [reflexivity | apply (reference_round_trip Reference.AIRTIME); reflexivity].
Defined.

(** ** The wallet ledger *)

Lemma Qltb_false_iff a b : Js.Qltb a b = false <-> (b <= a)%Q.
Proof.
  unfold Js.Qltb. rewrite negb_false_iff. apply Qle_bool_iff.
Qed.

Lemma Qltb_true_iff a b : Js.Qltb a b = true <-> (a < b)%Q.
Proof.
  unfold Js.Qltb. rewrite negb_true_iff, <- not_true_iff_false, Qle_bool_iff.
  split; [apply Qnot_le_lt | apply Qlt_not_le].
Qed.

Lemma round_cents_nonneg q : (0 <= q)%Q -> (0 <= Js.round_cents q)%Z.
Proof.
  intros Hq. unfold Js.round_cents.
  change 0%Z with (Qfloor 0). apply Qfloor_resp_le. lra.
Qed.

Lemma toFixed2_Q_nonneg q : (0 <= q)%Q -> (0 <= Js.toFixed2_Q q)%Q.
Proof.
  intros Hq. unfold Js.toFixed2_Q.
  replace (Js.Qltb q 0) with false by (symmetry; now apply Qltb_false_iff).
  pose proof (round_cents_nonneg q Hq) as Hz.
  unfold Qle; simpl. lia.
Qed.

Section Ledger.
Import Js Eff Database.

Lemma first_match_In {A} (p : A -> bool) l x :
  first_match p l = Some x -> In x l /\ p x = true.
Proof. apply find_some. Qed.

Lemma getUserWallet_found userId d w s :
  getUserWallet userId d = (Ok (Some w), s) ->
  s = d /\ userId <> "" /\ In w (wallets d) /\ wallet_userId w = userId.
Proof.
  unfold getUserWallet. destruct (String.eqb_spec userId "") as [->|Hne]; [discriminate|].
  unfold bind, get, ret. intros [= Hfind <-].
  apply first_match_In in Hfind as [Hin Heq]. apply String.eqb_eq in Heq. auto.
Qed.

Lemma set_balance_nonneg id b ws :
  Forall balance_nonneg ws ->
  (match b with Num q => (0 <= q)%Q | NaN => False end) ->
  Forall balance_nonneg (set_balance id b ws).
Proof.
  intros Hws Hb. unfold set_balance. apply List.Forall_map.
  eapply List.Forall_impl; [|exact Hws]. intros w Hw; cbn.
  destruct (String.eqb (wallet_id w) id); [exact Hb | exact Hw].
Qed.

Lemma updateWalletBalance_keeps_nonneg userId amount type d :
  balances_nonneg d ->
  balances_nonneg (snd (updateWalletBalance userId amount type d)).
Proof.
  intros Hinv. unfold updateWalletBalance.
  destruct (String.eqb userId "" || isNaN amount || lt amount (Num 0)) eqn:Hguard;
    [exact Hinv|].
  apply orb_false_iff in Hguard as [Hguard Hneg].
  apply orb_false_iff in Hguard as [_ Hnan].
  unfold bind at 1.
  destruct (getUserWallet userId d) as [[[w|]|e] s] eqn:Hget.
  - apply getUserWallet_found in Hget as (-> & _ & Hin & _).
    pose proof (proj1 (List.Forall_forall _ _) Hinv w Hin) as Hw.
    unfold balance_nonneg in Hw.
    destruct (balance w) as [|q] eqn:Hbal; [contradiction|].
    destruct amount as [|a]; [discriminate|].
    cbn in Hneg. apply Qltb_false_iff in Hneg.
    destruct (String.eqb type "credit"); cbn [add sub lt].
    + destruct (Qltb (q + a) 0) eqn:Hlt; [exact Hinv|].
      apply Qltb_false_iff in Hlt. cbn.
      apply set_balance_nonneg; [exact Hinv|]. now apply toFixed2_Q_nonneg.
    + destruct (Qltb (q - a) 0) eqn:Hlt; [exact Hinv|].
      apply Qltb_false_iff in Hlt. cbn.
      apply set_balance_nonneg; [exact Hinv|]. now apply toFixed2_Q_nonneg.
  - unfold getUserWallet in Hget.
    destruct (String.eqb userId ""); [discriminate|].
    unfold bind, get, ret in Hget. injection Hget as _ <-. exact Hinv.
  - unfold getUserWallet in Hget.
    destruct (String.eqb userId ""); [|discriminate].
    unfold throw in Hget. injection Hget as _ <-. exact Hinv.
Qed.

Lemma run_calls_keep_nonneg cs d :
  balances_nonneg d -> balances_nonneg (run_calls cs d).
Proof.
  revert d. induction cs as [|c cs IH]; intros d Hinv; cbn; [exact Hinv|].
  apply IH. now apply updateWalletBalance_keeps_nonneg.
Qed.

(** A debit that would leave a negative balance is rejected. *)
Lemma overdraft_rejected userId amount type d w :
  balances_nonneg d ->
  type <> "credit" ->
  fst (getUserWallet userId d) = Ok (Some w) ->
  lt (sub (balance w) amount) (Num 0) = true ->
  updateWalletBalance userId amount type d = (Throw (Error "Insufficient balance"), d).
Proof.
  intros Hinv Hty Hget Hneg.
  destruct (getUserWallet userId d) as [o s] eqn:Hget'. cbn in Hget; subst o.
  pose proof Hget' as Hfound.
  apply getUserWallet_found in Hfound as (-> & Hid & Hin & _).
  pose proof (proj1 (List.Forall_forall _ _) Hinv w Hin) as Hw.
  unfold balance_nonneg in Hw.
  destruct (balance w) as [|q] eqn:Hbal; [contradiction|].
  destruct amount as [|a]; [discriminate|].
  cbn in Hneg. pose proof Hneg as Hlt. apply Qltb_true_iff in Hlt.
  unfold updateWalletBalance.
  apply String.eqb_neq in Hid. rewrite Hid. cbn [isNaN orb lt].
  replace (Qltb a 0) with false by (symmetry; apply Qltb_false_iff; lra).
  unfold bind at 1. rewrite Hget'.
  apply String.eqb_neq in Hty. rewrite Hty, Hbal. cbn [sub lt]. now rewrite Hneg.
Qed.
End Ledger.

(** C2. Along every sequence of [updateWalletBalance] calls that starts from
    stored balances that are not negative, no stored balance ever becomes
    negative; and a debit whose result would be negative throws
    ["Insufficient balance"] and writes nothing: the store is unchanged. *)
Theorem wallet_balance_never_negative (d : Database.t) (cs : list Database.ledger_call) :
  Database.balances_nonneg d ->
  Database.balances_nonneg (Database.run_calls cs d) /\
  forall userId amount type w,
    type <> "credit" ->
    fst (Database.getUserWallet userId (Database.run_calls cs d)) = Js.Ok (Some w) ->
    Js.lt (Js.sub (Database.balance w) amount) (Js.Num 0) = true ->
    Database.updateWalletBalance userId amount type (Database.run_calls cs d)
    = (Js.Throw (Js.Error "Insufficient balance"), Database.run_calls cs d).
Proof.
  intros Hinv.
  pose proof (run_calls_keep_nonneg cs d Hinv) as Hinv'.
  split; [exact Hinv'|].
  intros userId amount type w Hty Hget Hneg.
  now apply overdraft_rejected with (w := w).
Qed.

Lemma wallet_balance_never_negative_witness :
  Database.balances_nonneg Samples.store /\
  Database.balances_nonneg (Database.run_calls Samples.ledger_calls Samples.store) /\
  Database.updateWalletBalance "u1" (Js.Num 500) "debit"
    (Database.run_calls Samples.ledger_calls Samples.store)
  = (Js.Throw (Js.Error "Insufficient balance"),
     Database.run_calls Samples.ledger_calls Samples.store).
Proof.
  assert (Hinv : Database.balances_nonneg Samples.store).
  { repeat constructor; cbn; discriminate. }
  destruct (wallet_balance_never_negative Samples.store Samples.ledger_calls Hinv)
    as [Hkeep Hreject].
  split; [exact Hinv|]. split; [exact Hkeep|].
  eapply Hreject; [discriminate | vm_compute; reflexivity | vm_compute; reflexivity].
Defined.




Example credit_typo_debits :
  map Database.balance
    (Database.wallets (snd (Database.updateWalletBalance "u1" (Js.Num 30) "Credit" Samples.store)))
  = [Js.Num (7000 # 100)%Q].
Proof. vm_compute. reflexivity. Qed.

(** ** Reading the store *)

Section Reads.
Import Js Eff Database.

Lemma run_eq {S A} (m : M S A) (s : S) (o : outcome A) :
  fst (m s) = o -> snd (m s) = s -> m s = (o, s).
Proof. destruct (m s); cbn; congruence. Qed.

Lemma getUserByTelegramId_reads a d : snd (getUserByTelegramId a d) = d.
Proof. unfold getUserByTelegramId. now destruct (arg_missing a). Qed.

Lemma getUserWallet_reads userId d : snd (getUserWallet userId d) = d.
Proof. unfold getUserWallet. now destruct (String.eqb userId ""). Qed.

Lemma getUserTransactions_reads userId limit d : snd (getUserTransactions userId limit d) = d.
Proof. unfold getUserTransactions. now destruct (String.eqb userId ""). Qed.

Lemma In_insert_desc x y l : In x (insert_desc y l) <-> x = y \/ In x l.
Proof.
  induction l as [|z l IH]; cbn; [intuition congruence|].
  destruct (tx_createdAt z <? tx_createdAt y)%N; cbn; [intuition congruence|].
  rewrite IH. tauto.
Qed.

Lemma In_orderDesc x l : In x (orderDesc_createdAt l) <-> In x l.
Proof.
  unfold orderDesc_createdAt. induction l as [|y l IH]; cbn; [tauto|].
  rewrite In_insert_desc, IH. intuition congruence.
Qed.

Lemma In_take {A} (x : A) n l : In x (take n l) -> In x l.
Proof.
  revert l; induction n as [|n IH]; intros [|y l]; cbn; try tauto.
  intros [->|H]; auto.
Qed.

(** What [getUserTransactions] lists is in the store. *)
Lemma getUserTransactions_In userId limit d txs x :
  fst (getUserTransactions userId limit d) = Ok txs -> In x txs -> In x (transactions d).
Proof.
  unfold getUserTransactions. destruct (String.eqb userId ""); [discriminate|].
  cbn. intros [= <-] Hin.
  apply In_take, In_orderDesc, filter_In in Hin. tauto.
Qed.

(** A credit of an amount that is not negative, to a wallet that holds a
    number that is not negative, is written. *)
Lemma credit_written userId d wl q a :
  fst (getUserWallet userId d) = Ok (Some wl) ->
  balance wl = Num q -> (0 <= q)%Q -> (0 <= a)%Q ->
  updateWalletBalance userId (Num a) "credit" d
  = (Ok tt, with_wallets (set_balance (wallet_id wl) (Num (toFixed2_Q (q + a))) (wallets d)) d).
Proof.
  intros Hget Hbal Hq Ha.
  pose proof (run_eq _ _ _ Hget (getUserWallet_reads userId d)) as Hrun.
  pose proof Hrun as Hfound. apply getUserWallet_found in Hfound as (_ & Hid & _ & _).
  apply String.eqb_neq in Hid.
  unfold updateWalletBalance. rewrite Hid. cbn [isNaN orb lt].
  replace (Qltb a 0) with false by (symmetry; now apply Qltb_false_iff).
  unfold bind. rewrite Hrun, Hbal. cbn.
  replace (Qltb (q + a) 0) with false; [reflexivity|].
  symmetry; apply Qltb_false_iff. apply Qle_trans with (y := q); [exact Hq | lra].
Qed.

(** A debit that the balance covers is written. *)
Lemma debit_written userId type d wl q a :
  type <> "credit" ->
  fst (getUserWallet userId d) = Ok (Some wl) ->
  balance wl = Num q -> (0 <= a)%Q -> (a <= q)%Q ->
  updateWalletBalance userId (Num a) type d
  = (Ok tt, with_wallets (set_balance (wallet_id wl) (Num (toFixed2_Q (q - a))) (wallets d)) d).
Proof.
  intros Hty Hget Hbal Ha Hq. apply String.eqb_neq in Hty.
  pose proof (run_eq _ _ _ Hget (getUserWallet_reads userId d)) as Hrun.
  pose proof Hrun as Hfound. apply getUserWallet_found in Hfound as (_ & Hid & _ & _).
  apply String.eqb_neq in Hid.
  unfold updateWalletBalance. rewrite Hid, Hty. cbn [isNaN orb lt].
  replace (Qltb a 0) with false by (symmetry; now apply Qltb_false_iff).
  unfold bind. rewrite Hrun, Hbal. cbn.
  replace (Qltb (q - a) 0) with false; [reflexivity|].
  symmetry; apply Qltb_false_iff. lra.
Qed.

Lemma updateTransaction_written id st d :
  id <> "" -> (exists x, In x (transactions d) /\ tx_id x = id) ->
  updateTransaction id st d
  = (Ok tt, with_transactions (set_status id st (transactions d)) d).
Proof.
  intros Hid (x & Hin & Hx). apply String.eqb_neq in Hid.
  unfold updateTransaction. rewrite Hid. unfold bind, get.
  replace (existsb _ _) with true; [reflexivity|].
  symmetry. apply existsb_exists. exists x. split; [exact Hin|]. now apply String.eqb_eq.
Qed.

Lemma createTransaction_written env userId type amount details status d :
  userId <> "" -> type <> "" -> falsy_number amount = false ->
  truthy (prop details "reference") = true ->
  createTransaction env userId type amount details status d
  = (Ok tt,
     with_transactions
       (transactions d ++
        [{| tx_id := unique env; tx_userId := userId; tx_type := type;
            tx_amount := toFixed2 amount; tx_reference := prop details "reference";
            tx_details := details; tx_status := status; tx_createdAt := now env |}]) d).
Proof.
  intros Hu Ht Ha Hr. apply String.eqb_neq in Hu, Ht.
  unfold createTransaction. now rewrite Hu, Ht, Ha, Hr.
Qed.

(** A transaction without amount or without reference is refused and
    nothing is written. *)
Lemma createTransaction_refused env userId type amount details status d :
  falsy_number amount = true \/ truthy (prop details "reference") = false ->
  createTransaction env userId type amount details status d
  = (Throw
       (if String.eqb userId "" || falsy_number amount || String.eqb type ""
        then Error "Invalid transaction data: Missing userId, amount, or type"
        else Error "Transaction 'reference' is required inside details object"),
     d).
Proof.
  intros Hrefused. unfold createTransaction.
  destruct (String.eqb userId "" || falsy_number amount || String.eqb type "") eqn:Hargs.
  - reflexivity.
  - destruct Hrefused as [Hzero | Href].
    + rewrite Hzero, orb_true_r in Hargs. discriminate.
    + rewrite Href. reflexivity.
Qed.

End Reads.

(** ** The payment gateway adapter *)

Section Retry.
Import Js Paystack.
Local Open Scope nat_scope.









End Retry.


Example verification_rate_limited_once :
  Paystack.verifyPayment "FUND_42_1700000000000" Samples.rate_limited_once
  = {| Paystack.result := Js.Throw (Js.Error "Payment verification failed");
       Paystack.calls := 1; Paystack.slept := [] |}.
Proof. reflexivity. Qed.

Example initialization_rate_limited_once :
  Paystack.initializePayment "42@example.com" (Js.Num 500) "FUND_42_1700000000000"
    Samples.rate_limited_once
  = {| Paystack.result := Js.Ok (Js.Obj [("status", Js.Bool true)]);
       Paystack.calls := 2; Paystack.slept := [1000%N] |}.
Proof. reflexivity. Qed.


(** A gateway that answers 429 three times: the third error is thrown. *)
Example initialization_rate_limited_thrice :
  Paystack.initializePayment "42@example.com" (Js.Num 500) "FUND_42_1700000000000"
    (fun _ => Paystack.HttpError (Some 429%nat))
  = {| Paystack.result := Js.Throw (Js.Error "Payment initialization failed");
       Paystack.calls := 3; Paystack.slept := [1000%N; 2000%N] |}.
Proof. reflexivity. Qed.

(** ** The payment webhook *)

Section WebhookFacts.
Import Js Eff Database Bot Reconcile.

Variable hmac : string -> string -> string.
Variable JSON_parse : string -> option value.
Variable text_to_number : value -> number.
Variable secret : string.

Lemma bodyParser_json_body r p :
  bodyParser_json JSON_parse r incoming_request = Next p ->
  unsignable (req_body p) /\
  (already_parsed p = false -> has_body r && is_json r = false).
Proof.
  unfold bodyParser_json, incoming_request, unsignable. cbn.
  destruct (has_body r); cbn.
  2:{ intros [= <-]. cbn. auto. }
  destruct (is_json r); cbn.
  2:{ intros [= <-]. cbn. auto. }
  destruct (String.eqb (wire r) "").
  - intros [= <-]. cbn. split; [reflexivity | discriminate].
  - destruct (JSON_parse (wire r)) as [[| | | | | |]|]; intros [= <-]; cbn;
      (split; [reflexivity | discriminate]).
Qed.

Lemma express_raw_after_json r p p' :
  bodyParser_json JSON_parse r incoming_request = Next p ->
  express_raw r p = Next p' ->
  unsignable (req_body p').
Proof.
  intros Hjson Hraw.
  destruct (bodyParser_json_body r p Hjson) as [Hbody Hskip].
  unfold express_raw in Hraw.
  destruct (already_parsed p) eqn:Hflag.
  - injection Hraw as <-. exact Hbody.
  - specialize (Hskip eq_refl).
    assert (Hsame : body_or_empty (req_body p) = req_body p \/
                    body_or_empty (req_body p) = Parsed (Obj [])).
    { destruct (req_body p) as [v|bytes]; cbn; [|auto]. destruct (truthy v); auto. }
    destruct (has_body r); cbn in *.
    + destruct (is_json r); cbn in *; [discriminate|].
      injection Hraw as <-. cbn. destruct Hsame as [-> | ->]; [exact Hbody | reflexivity].
    + injection Hraw as <-. cbn. destruct Hsame as [-> | ->]; [exact Hbody | reflexivity].
Qed.

(** The handler cannot hash such a body: it answers 500 and does nothing. *)
Lemma webhook_handler_unsignable verify e b sig w :
  unsignable b ->
  webhook_handler hmac JSON_parse text_to_number secret verify e b sig w
  = ({| status := 500; text := "Internal server error" |}, w).
Proof.
  unfold unsignable, webhook_handler, webhook_try, bind, lift. now intros ->.
Qed.

(** Whatever is posted to the route, the answer is 400 or 500 and the
    world is as before. *)
Lemma webhook_route_inert verify e r w :
  webhook_route hmac JSON_parse text_to_number secret verify e r w
  = ({| status := 400; text := "Bad Request" |}, w) \/
  webhook_route hmac JSON_parse text_to_number secret verify e r w
  = ({| status := 500; text := "Internal server error" |}, w).
Proof.
  unfold webhook_route.
  destruct (bodyParser_json JSON_parse r incoming_request) as [p|resp] eqn:Hjson.
  - destruct (express_raw r p) as [p'|resp] eqn:Hraw.
    + right. apply webhook_handler_unsignable. eapply express_raw_after_json; eassumption.
    + unfold express_raw in Hraw.
      repeat match type of Hraw with
             | (if ?c then _ else _) = _ => destruct c
             end; discriminate.
  - left. unfold bodyParser_json, incoming_request in Hjson. cbn in Hjson.
    repeat match type of Hjson with
           | (if ?c then _ else _) = _ => destruct c; cbn in Hjson
           | match ?c with _ => _ end = _ => destruct c; cbn in Hjson
           end; try discriminate; now injection Hjson as <-.
Qed.

(** On a buffer, the handler does reject a signature that does not match,
    before it reads the payload. *)
Lemma webhook_handler_rejects_bad_signature verify e bytes sig w :
  Some (hmac secret bytes) <> sig ->
  webhook_handler hmac JSON_parse text_to_number secret verify e (Raw bytes) sig w
  = ({| status := 401; text := "Invalid signature" |}, w).
Proof.
  intros Hsig. unfold webhook_handler, webhook_try, bind, lift. cbn.
  now rewrite bool_decide_eq_false_2.
Qed.

Lemma deliver_all_inert pushes w :
  deliver_all hmac JSON_parse text_to_number secret pushes w = w.
Proof.
  revert w. induction pushes as [|[[r verify] e] pushes IH]; intros w; cbn; [reflexivity|].
  destruct (webhook_route_inert verify e r w) as [-> | ->]; cbn; apply IH.
Qed.

End WebhookFacts.

(** C3.  The handler does not answer 401 to a POST whose signature does not
    match: the global JSON parser has replaced [req.body] by the parsed
    object before the route's raw parser runs, the handler cannot hash that
    object, and every POST to the route is answered 400 (by the parser) or
    500 (by the handler's [catch]).  No processing takes place: the store,
    the sessions and the effects are as before. *)
Theorem webhook_never_answers_unauthorized
    (hmac : string -> string -> string) (JSON_parse : string -> option Js.value)
    (text_to_number : Js.value -> Js.number) (secret : string)
    (verify : nat -> Paystack.http_result) (e : Js.ambient)
    (r : Reconcile.request) (w : Bot.world) :
  let answer := Reconcile.webhook_route hmac JSON_parse text_to_number secret verify e r w in
  Reconcile.status (fst answer) <> 401%nat /\ snd answer = w.
Proof.
  cbn zeta.
  destruct (webhook_route_inert hmac JSON_parse text_to_number secret verify e r w)
    as [-> | ->]; cbn; split; (discriminate || reflexivity).
Qed.

(** The forged push of the samples is answered 500. *)
Example forged_push_answered_500
    (hmac : string -> string -> string) (text_to_number : Js.value -> Js.number)
    (secret : string) (verify : nat -> Paystack.http_result) (e : Js.ambient) :
  Reconcile.webhook_route hmac Samples.parse_charge text_to_number secret verify e
    Samples.forged_push Samples.funding_world
  = ({| Reconcile.status := 500; Reconcile.text := "Internal server error" |},
     Samples.funding_world).
Proof. reflexivity. Qed.

(** C1.  Deliveries of the push signal alone settle nothing: however often
    the webhook is posted, no transaction of the reference becomes
    ["success"] and no wallet is credited, since every delivery ends in the
    handler's [catch] (see C3). *)
Theorem push_deliveries_settle_nothing
    (hmac : string -> string -> string) (JSON_parse : string -> option Js.value)
    (text_to_number : Js.value -> Js.number) (secret : string)
    (pushes : list (Reconcile.request * (nat -> Paystack.http_result) * Js.ambient))
    (reference : string) (w : Bot.world) :
  let w' := Reconcile.deliver_all hmac JSON_parse text_to_number secret pushes w in
  Reconcile.settled reference (Bot.db w') = Reconcile.settled reference (Bot.db w) /\
  Database.wallets (Bot.db w') = Database.wallets (Bot.db w).
Proof.
  cbn zeta. now rewrite deliver_all_inert.
Qed.

(** The signed push of the samples, delivered once to the store that holds
    the pending funding: nothing is settled, the balance stays 0. *)
Example signed_push_settles_nothing
    (hmac : string -> string -> string) (text_to_number : Js.value -> Js.number)
    (secret : string) :
  let w' :=
    Reconcile.deliver_all hmac Samples.parse_charge text_to_number secret
      [(Samples.signed_push hmac secret, Samples.payment_succeeded,
        Samples.at_time 1700000060000 "t2")]
      Samples.funding_world in
  Reconcile.settled Samples.funding_reference (Bot.db w') = [] /\
  map Database.balance (Database.wallets (Bot.db w')) = [Js.Num 0].
Proof. split; reflexivity. Qed.

(** ** The polling fallback *)

Section Polling.
Import Js Eff Database Bot Reconcile.

Variables (maxAttempts : nat) (reference : string) (userId : Z) (amount : number) (chatId : Z).

Lemma messages_of_app es es' :
  messages_of (es ++ es') = (messages_of es ++ messages_of es')%list.
Proof.
  induction es as [|[to m|c|r] es IH]; cbn; [reflexivity| |assumption|assumption].
  now rewrite IH.
Qed.

Lemma messages_of_verifies n r : messages_of (replicate n (PaystackVerify r)) = [].
Proof. induction n as [|n IH]; cbn; [reflexivity | exact IH]. Qed.

(** An inconclusive tick before the last only counts. *)
Lemma tick_inconclusive verify e p :
  inconclusive reference verify = true ->
  (S (attempts p) < maxAttempts)%nat ->
  tick maxAttempts reference userId amount chatId verify e p
  = {| pworld := noting [PaystackVerify reference] (pworld p);
       attempts := S (attempts p);
       running := running p |}.
Proof.
  intros Hinc Hleft. apply Nat.leb_gt in Hleft.
  unfold tick, tick_try, inconclusive in *.
  unfold bind at 1. cbn. unfold bind at 1, lift at 1.
  destruct (verification_status reference verify) as [vstatus|err].
  - apply andb_true_iff in Hinc as [Hs Hf].
    apply negb_true_iff in Hs, Hf. rewrite Hs, Hf. cbn.
    unfold tick_end, bind; cbn. now rewrite Hleft.
  - unfold tick_end, bind; cbn. now rewrite Hleft.
Qed.

Lemma run_ticks_inconclusive early rest p :
  Forall (fun t => inconclusive reference (fst t) = true) early ->
  (attempts p + length early < maxAttempts)%nat ->
  running p = true ->
  run_ticks maxAttempts reference userId amount chatId (early ++ rest) p
  = run_ticks maxAttempts reference userId amount chatId rest
      {| pworld := noting (replicate (length early) (PaystackVerify reference)) (pworld p);
         attempts := attempts p + length early;
         running := true |}.
Proof.
  revert p. induction early as [|[verify e] early IH]; intros p Hall Hleft Hrun.
  - cbn. destruct p as [[d m es] n r]; cbn in *. subst r.
    unfold noting; cbn. now rewrite app_nil_r, Nat.add_0_r.
  - apply List.Forall_cons_iff in Hall as [Hinc Hall]. cbn in Hinc, Hleft.
    cbn [app run_ticks length]. rewrite Hrun.
    rewrite tick_inconclusive by (assumption || lia).
    rewrite IH; [|assumption|cbn; lia|exact Hrun].
    cbn. unfold noting; cbn. rewrite <- app_assoc. cbn.
    do 2 f_equal. lia.
Qed.

End Polling.

Section Steps.
Import Js Eff Database Bot Reconcile.

Lemma bind_ok {S A B} (m : M S A) (k : A -> M S B) s a s' :
  m s = (Ok a, s') -> bind m k s = k a s'.
Proof. unfold bind. now intros ->. Qed.

Lemma bind_throw {S A B} (m : M S A) (k : A -> M S B) s err s' :
  m s = (Throw err, s') -> bind m k s = (Throw err, s').
Proof. unfold bind. now intros ->. Qed.

Lemma on_db_run {A} (m : M Database.t A) w o d' :
  m (db w) = (o, d') -> on_db m w = (o, with_db d' w).
Proof. unfold on_db, zoom. now intros ->. Qed.

Lemma in_world_run {A} (m : M world A) p o w' :
  m (pworld p) = (o, w') ->
  in_world m p = (o, {| pworld := w'; attempts := attempts p; running := running p |}).
Proof. unfold in_world, zoom. now intros ->. Qed.

End Steps.

(** One statement of a handler body: its run is given by [tac]. *)
Ltac step_by tac := erewrite bind_ok by tac; cbv beta iota.
Ltac step := step_by ltac:(reflexivity).

Section LastTick.
Import Js Eff Database Bot Reconcile.

Variables (maxAttempts : nat) (reference : string) (userId : Z) (chatId : Z).

(** A tick on which the gateway reports success, for a funding that is not
    settled yet: the wallet is credited, the user is told, and the counter
    goes up; if the counter has then reached [maxAttempts], the time-out
    text follows. *)
Lemma tick_success verify e p vstatus user wl q a :
  verification_status reference verify = Ok vstatus ->
  is_str vstatus "success" = true ->
  fst (getUserByTelegramId (ArgNumber userId) (db (pworld p))) = Ok (Some user) ->
  fst (getUserWallet (user_id user) (db (pworld p))) = Ok (Some wl) ->
  balance wl = Num q -> (0 <= q)%Q -> (0 < a)%Q ->
  Forall (fun x => tx_id x <> "") (transactions (db (pworld p))) ->
  (forall txs x,
      fst (getUserTransactions (user_id user) 10 (db (pworld p))) = Ok txs ->
      find_by_details reference txs = Some x -> tx_status x <> "success") ->
  exists d',
    wallets d' = set_balance (wallet_id wl) (Num (toFixed2_Q (q + a))) (wallets (db (pworld p))) /\
    users d' = users (db (pworld p)) /\
    (forall txs x,
        fst (getUserTransactions (user_id user) 10 (db (pworld p))) = Ok txs ->
        find_by_details reference txs = Some x ->
        transactions d' = set_status (tx_id x) "success" (transactions (db (pworld p)))) /\
    tick maxAttempts reference userId (Num a) chatId verify e p
    = {| pworld :=
           {| db := d';
              userSessions := delete chatId (userSessions (pworld p));
              effects :=
                (effects (pworld p)
                 ++ [PaystackVerify reference; Sent (Chat chatId) (WalletFunded (Num a))]
                 ++ (if (maxAttempts <=? S (attempts p))%nat
                     then [Sent (Chat chatId) VerificationTimedOut] else []))%list |};
         attempts := S (attempts p);
         running := false |}.
Proof.
  intros Hver Hsuccess Huser Hwallet Hbal Hq Ha Hids Hopen.
  destruct p as [[d sessions es] n r]; cbn [pworld db userSessions effects attempts running] in *.
  pose proof (run_eq _ _ _ Huser (getUserByTelegramId_reads _ _)) as Huser'.
  pose proof (run_eq _ _ _ Hwallet (getUserWallet_reads _ _)) as Hwallet'.
  pose proof Hwallet' as Hfound. apply getUserWallet_found in Hfound as (_ & Hid & _ & _).
  assert (Hreference : reference <> "").
  { intros ->. unfold verification_status in Hver. cbn in Hver. discriminate. }
  assert (Htxs : exists txs, getUserTransactions (user_id user) 10 d = (Ok txs, d)).
  { unfold getUserTransactions. apply String.eqb_neq in Hid. rewrite Hid. eexists. reflexivity. }
  destruct Htxs as [txs Htxs].
  assert (Hcredit := credit_written (user_id user) d wl q a Hwallet Hbal Hq (Qlt_le_weak _ _ Ha)).
  set (d1 := with_wallets (set_balance (wallet_id wl) (Num (toFixed2_Q (q + a))) (wallets d)) d) in *.
  assert (Hfalsy : falsy_number (Num a) = false).
  { cbn. apply not_true_iff_false. intros Heq. apply Qeq_bool_iff in Heq. lra. }
  assert (Hsettle : exists d',
    wallets d' = wallets d1 /\
    users d' = users d /\
    (forall x, find_by_details reference txs = Some x ->
               transactions d' = set_status (tx_id x) "success" (transactions d)) /\
    match find_by_details reference txs with
    | Some x => updateTransaction (tx_id x) "success" d1
    | None =>
        createTransaction e (user_id user) "credit" (Num a)
          (Obj [("reference", Str reference); ("source", Str "Paystack");
                ("method", Str "polling")]) "success" d1
    end = (Ok tt, d')).
  { destruct (find_by_details reference txs) as [x|] eqn:Hfind.
    - assert (Hin : In x (transactions d)).
      { apply find_some in Hfind as [Hin _].
        eapply getUserTransactions_In; [|exact Hin]. now rewrite Htxs. }
      eexists. split; [|split; [|split; [|apply updateTransaction_written]]].
      + reflexivity.
      + reflexivity.
      + now intros y [= <-].
      + exact (proj1 (List.Forall_forall _ _) Hids x Hin).
      + exists x. split; [exact Hin | reflexivity].
    - eexists. split; [|split; [|split; [|apply createTransaction_written]]].
      + reflexivity.
      + reflexivity.
      + discriminate.
      + exact Hid.
      + discriminate.
      + exact Hfalsy.
      + cbn. apply negb_true_iff. now apply String.eqb_neq.
  }
  destruct Hsettle as (d' & Hwallets & Husers & Hrecord & Hsettle).
  exists d'. split; [exact Hwallets|]. split; [exact Husers|].
  split.
  { intros txs' x Htxs' Hfind. rewrite Htxs in Htxs'. injection Htxs' as <-.
    now apply Hrecord. }
  assert (Hopen' : match find_by_details reference txs with
                   | Some x => String.eqb (tx_status x) "success"
                   | None => false
                   end = false).
  { destruct (find_by_details reference txs) as [x|] eqn:Hfind; [|reflexivity].
    apply String.eqb_neq. eapply Hopen; [|exact Hfind]. now rewrite Htxs. }
  assert (Htry : tick_try reference userId (Num a) chatId verify e
                   {| pworld := {| db := d; userSessions := sessions; effects := es |};
                      attempts := n; running := r |}
                 = (Ok false,
                    {| pworld :=
                         {| db := d';
                            userSessions := delete chatId sessions;
                            effects := (es ++ [PaystackVerify reference])
                                       ++ [Sent (Chat chatId) (WalletFunded (Num a))] |};
                       attempts := n; running := false |})).
  { unfold tick_try.
    step. step_by ltac:(unfold lift; rewrite Hver; reflexivity).
    rewrite Hsuccess.
    step. step_by ltac:(apply in_world_run, on_db_run; exact Huser').
    step. step_by ltac:(apply in_world_run, on_db_run; exact Htxs).
    rewrite Hopen'.
    step_by ltac:(apply in_world_run, on_db_run; exact Hcredit).
    step_by ltac:(destruct (find_by_details reference txs);
                  apply in_world_run, on_db_run; exact Hsettle).
    step. step. reflexivity. }
  unfold tick. rewrite Htry. unfold tick_end.
  step. step. cbn [attempts].
  destruct (maxAttempts <=? S n)%nat.
  - step. step. cbn. rewrite delete_delete_eq, <- !app_assoc. reflexivity.
  - cbn. rewrite <- !app_assoc. reflexivity.
Qed.
End LastTick.

(** C10.  When the verification first reports success on the last tick (the
    ticks before it were inconclusive and [maxAttempts] is their number
    plus one) and the funding is not settled yet, that tick credits the
    wallet, sends the text that the wallet was funded, and then sends the
    time-out text as well: the counter is incremented and checked after
    the successful branch. *)
Theorem success_on_last_tick_also_times_out
    (maxAttempts : nat) (reference : string) (userId chatId : Z) (a q : Q)
    (early : list ((nat -> Paystack.http_result) * Js.ambient))
    (verify : nat -> Paystack.http_result) (e : Js.ambient) (w : Bot.world)
    (vstatus : Js.value) (user : Database.user) (wl : Database.wallet) :
  maxAttempts = S (length early) ->
  Forall (fun t => Reconcile.inconclusive reference (fst t) = true) early ->
  Reconcile.verification_status reference verify = Js.Ok vstatus ->
  Js.is_str vstatus "success" = true ->
  fst (Database.getUserByTelegramId (Database.ArgNumber userId) (Bot.db w)) = Js.Ok (Some user) ->
  fst (Database.getUserWallet (Database.user_id user) (Bot.db w)) = Js.Ok (Some wl) ->
  Database.balance wl = Js.Num q -> (0 <= q)%Q -> (0 < a)%Q ->
  Forall (fun x => Database.tx_id x <> "") (Database.transactions (Bot.db w)) ->
  (forall txs x,
      fst (Database.getUserTransactions (Database.user_id user) 10 (Bot.db w)) = Js.Ok txs ->
      Reconcile.find_by_details reference txs = Some x -> Database.tx_status x <> "success") ->
  let p :=
    Reconcile.pollPaymentStatus maxAttempts reference userId (Js.Num a) chatId
      (early ++ [(verify, e)]) w in
  Reconcile.messages_of (Bot.effects (Reconcile.pworld p))
  = (Reconcile.messages_of (Bot.effects w)
     ++ [(Bot.Chat chatId, Bot.WalletFunded (Js.Num a));
         (Bot.Chat chatId, Bot.VerificationTimedOut)])%list /\
  Database.wallets (Bot.db (Reconcile.pworld p))
  = Database.set_balance (Database.wallet_id wl) (Js.Num (Js.toFixed2_Q (q + a)))
      (Database.wallets (Bot.db w)) /\
  Reconcile.running p = false /\
  Reconcile.attempts p = maxAttempts.
Proof.
  intros -> Hearly Hver Hsuccess Huser Hwallet Hbal Hq Ha Hids Hopen p. subst p.
  unfold Reconcile.pollPaymentStatus.
  rewrite run_ticks_inconclusive by (assumption || (cbn; lia) || reflexivity).
  cbn [Reconcile.run_ticks Reconcile.running Reconcile.attempts Reconcile.pworld Nat.add].
  match goal with
  | |- context [Reconcile.tick ?m ?r ?u ?am ?c ?v ?e ?p] =>
      destruct (tick_success m r u c v e p vstatus user wl q a)
        as (d' & Hwallets & _ & _ & ->); try assumption
  end.
  cbn [Reconcile.pworld Bot.effects Bot.db Reconcile.running Reconcile.attempts Bot.noting] in *.
  rewrite Nat.leb_refl.
  repeat split; try assumption.
  rewrite !messages_of_app, messages_of_verifies, app_nil_r. reflexivity.
Qed.

Lemma success_on_last_tick_also_times_out_witness :
  let p :=
    Reconcile.pollPaymentStatus 3 Samples.funding_reference 42 (Js.Num 500) 7
      ([(Samples.payment_pending, Samples.at_time 1700000010000 "t2");
        (Samples.payment_pending, Samples.at_time 1700000020000 "t3")]
       ++ [(Samples.payment_succeeded, Samples.at_time 1700000030000 "t4")])
      Samples.funding_world in
  Reconcile.messages_of (Bot.effects (Reconcile.pworld p))
  = [(Bot.Chat 7, Bot.WalletFunded (Js.Num 500)); (Bot.Chat 7, Bot.VerificationTimedOut)] /\
  map Database.balance (Database.wallets (Bot.db (Reconcile.pworld p))) = [Js.Num (50000 # 100)].
Proof.
  cbn zeta.
  destruct (success_on_last_tick_also_times_out 3 Samples.funding_reference 42 7 500 0
              [(Samples.payment_pending, Samples.at_time 1700000010000 "t2");
               (Samples.payment_pending, Samples.at_time 1700000020000 "t3")]
              Samples.payment_succeeded (Samples.at_time 1700000030000 "t4")
              Samples.funding_world (Js.Str "success") Samples.alice
              {| Database.wallet_id := "w1"; Database.wallet_userId := "u1";
                 Database.balance := Js.Num 0 |})
    as (Hmessages & Hwallets & _ & _).
  - reflexivity.
  - repeat constructor.
  - reflexivity.
  - reflexivity.
  - reflexivity.
  - reflexivity.
  - reflexivity.
  - discriminate.
  - reflexivity.
  - repeat constructor; discriminate.
  - intros txs x Htxs Hfind. vm_compute in Htxs. injection Htxs as <-.
    vm_compute in Hfind. injection Hfind as <-. discriminate.
  - split.
    + exact Hmessages.
    + rewrite Hwallets. reflexivity.
Defined.

(** ** The message handler *)

Section Messages.
Import Js Eff Database Bot.

(** A text that reads ["yes"] once sanitized and lowered is no command and
    is not empty. *)
Lemma yes_not_skipped text : toLowerCase (sanitize text) = "yes" -> skipped text = false.
Proof.
  unfold skipped. destruct text as [|c text]; [discriminate|].
  intros Hyes. cbn [String.eqb orb String.prefix].
  destruct (Ascii.eqb_spec c "/") as [->|Hc].
  - cbn in Hyes. discriminate.
  - destruct (ascii_dec "/" c) as [Heq|_]; [congruence | reflexivity].
Qed.

(** The fields a confirm stage reads are not touched by the bookkeeping of
    the handler. *)
Lemma cost_of_touched f now st s :
  cost_of f (set_stage st (set_lastActivity now s)) = cost_of f s.
Proof. now destruct f. Qed.

Lemma purchase_touched f now st s cost answer :
  purchase f (set_stage st (set_lastActivity now s)) cost answer = purchase f s cost answer.
Proof. now destruct f. Qed.

Lemma details_of_touched f now st s userId t result :
  details_of f (set_stage st (set_lastActivity now s)) userId t result
  = details_of f s userId t result.
Proof. now destruct f. Qed.

Lemma report_touched f now st s status result :
  report f (set_stage st (set_lastActivity now s)) status result = report f s status result.
Proof. now destruct f. Qed.

(** With the session in a confirm stage, the handler runs [confirm]. *)
Lemma on_message_confirm f e msg w session raw :
  userSessions w !! chat_id msg = Some session ->
  stage session = Some (confirm_stage f) ->
  text msg = Some raw ->
  skipped (trim raw) = false ->
  on_message e msg w
  = Some (snd (try_catch
                 (confirm f e (chat_id msg) (from_id msg)
                    (set_lastActivity (now (clock e)) session) (sanitize (trim raw)))
                 (reset (chat_id msg))
                 (with_sessions
                    (<[chat_id msg := set_lastActivity (now (clock e)) session]> (userSessions w))
                    w))).
Proof.
  intros Hsession Hstage Htext Hskip.
  unfold on_message, touch_session. rewrite Htext, Hskip, Hsession.
  unfold branch. cbn [stage set_lastActivity]. rewrite Hstage.
  now destruct f.
Qed.

Lemma try_catch_ok {S A} (m : M S A) h s a s' :
  m s = (Ok a, s') -> try_catch m h s = (Ok a, s').
Proof. unfold try_catch. now intros ->. Qed.

Lemma try_catch_throw {S A} (m : M S A) h s err s' :
  m s = (Throw err, s') -> try_catch m h s = h err s'.
Proof. unfold try_catch. now intros ->. Qed.

Lemma assign_present chatId s w old :
  userSessions w !! chatId = Some old ->
  assign chatId s w = (Ok tt, with_sessions (<[chatId := s]> (userSessions w)) w).
Proof. unfold assign, modify. now intros ->. Qed.

End Messages.

(** C4.  In each confirm stage (airtime, data, electricity, TV), when the
    user confirms and the wallet read again is missing or holds less than
    the cost, the handler sends the insufficient-balance text and nothing
    else: it calls no method of the billing adapter, writes nothing to the
    store (no debit, the balance is as before), and deletes the session. *)
Theorem insufficient_balance_aborts
    (f : Bot.flow) (e : Bot.env) (msg : Bot.incoming) (w : Bot.world)
    (session : Bot.session) (raw : string) (user : Database.user)
    (wallet : option Database.wallet) (cost : Js.number) :
  Bot.userSessions w !! Bot.chat_id msg = Some session ->
  Bot.stage session = Some (Bot.confirm_stage f) ->
  Bot.text msg = Some raw ->
  Js.toLowerCase (Js.sanitize (Js.trim raw)) = "yes" ->
  fst (Database.getUserByTelegramId (Database.ArgNumber (Bot.from_id msg)) (Bot.db w))
  = Js.Ok (Some user) ->
  fst (Database.getUserWallet (Database.user_id user) (Bot.db w)) = Js.Ok wallet ->
  Bot.cost_of f session = Js.Ok cost ->
  Bot.insufficient wallet cost = true ->
  Bot.on_message e msg w
  = Some {| Bot.db := Bot.db w;
            Bot.userSessions := delete (Bot.chat_id msg) (Bot.userSessions w);
            Bot.effects :=
              (Bot.effects w
               ++ [Bot.Sent (Bot.Chat (Bot.chat_id msg)) (Bot.insufficient_notice f)])%list |}.
Proof.
  intros Hsession Hstage Htext Hyes Huser Hwallet Hcost Hshort.
  rewrite (on_message_confirm f e msg w session raw Hsession Hstage Htext
             (yes_not_skipped _ Hyes)).
  pose proof (run_eq _ _ _ Huser (getUserByTelegramId_reads _ _)) as Huser'.
  pose proof (run_eq _ _ _ Hwallet (getUserWallet_reads _ _)) as Hwallet'.
  destruct w as [d sessions es]; cbn [Bot.db Bot.userSessions Bot.effects] in *.
  erewrite try_catch_ok; [cbn [snd]; reflexivity|].
  unfold Bot.confirm. rewrite Hyes. cbn [String.eqb Ascii.eqb Bool.eqb].
  step_by ltac:(eapply assign_present; cbn; apply lookup_insert_eq).
  step_by ltac:(apply on_db_run; exact Huser').
  step.
  step_by ltac:(apply on_db_run; exact Hwallet').
  step_by ltac:(unfold Eff.lift; rewrite cost_of_touched, Hcost; reflexivity).
  rewrite Hshort.
  step. cbn. unfold Bot.with_sessions; cbn.
  now rewrite !delete_insert_eq.
Qed.

Lemma is_str_eq v s : Js.is_str v s = true <-> v = Js.Str s.
Proof.
  destruct v; cbn; try (split; [discriminate | intros [=]]).
  rewrite String.eqb_eq. split; [now intros -> | now intros [= ->]].
Qed.

Lemma transactionStatus_defined result :
  result <> Js.Undefined -> result <> Js.Null ->
  Bot.transactionStatus result
  = Js.Ok (if Js.is_str (Js.prop result "code") "000"
              && Js.is_str
                   (Js.prop (Js.prop (Js.prop result "content") "transactions") "status")
                   "delivered"
           then "success" else "failed").
Proof. intros Hu Hn. unfold Bot.transactionStatus. now destruct result. Qed.

(** C5, amended.  In each purchase flow, once the debit is made and the
    provider has answered with [result], the handler records a transaction
    only when [result] is an answer (not [null] or [undefined]), the cost
    is not zero and the details, with the fields of [result] copied over
    the handler's own, still hold a reference.  The record and the text to
    the user then follow the same verdict, which is ["success"] exactly
    when [result.code] is ["000"] and [result.content.transactions.status]
    is ["delivered"], and ["failed"] for every other response.  Otherwise
    nothing is recorded and the user is told that the process has been
    reset.  In both cases the wallet stays debited and the session is
    deleted. *)
Theorem purchase_settled_by_provider_verdict
    (f : Bot.flow) (e : Bot.env) (msg : Bot.incoming) (w : Bot.world)
    (session : Bot.session) (raw : string) (user : Database.user)
    (wl : Database.wallet) (q c : Q) (call : Bot.vtpass_call) (result : Js.value) :
  Bot.userSessions w !! Bot.chat_id msg = Some session ->
  Bot.stage session = Some (Bot.confirm_stage f) ->
  Bot.text msg = Some raw ->
  Js.toLowerCase (Js.sanitize (Js.trim raw)) = "yes" ->
  fst (Database.getUserByTelegramId (Database.ArgNumber (Bot.from_id msg)) (Bot.db w))
  = Js.Ok (Some user) ->
  fst (Database.getUserWallet (Database.user_id user) (Bot.db w)) = Js.Ok (Some wl) ->
  Database.balance wl = Js.Num q ->
  Bot.cost_of f session = Js.Ok (Js.Num c) ->
  (0 <= c)%Q -> (c <= q)%Q ->
  Bot.purchase f session (Js.Num c) (Bot.pay_answer e) = Js.Ok (call, Js.Ok result) ->
  let delivered :=
    Js.is_str (Js.prop result "code") "000"
    && Js.is_str (Js.prop (Js.prop (Js.prop result "content") "transactions") "status")
         "delivered" in
  let verdict := if delivered then "success" else "failed" in
  let details :=
    Bot.details_of f session (Database.user_id user) (Js.now (Bot.clock e)) result in
  let record :=
    {| Database.tx_id := Js.unique (Bot.clock e);
       Database.tx_userId := Database.user_id user;
       Database.tx_type := Bot.tx_type_of f;
       Database.tx_amount := Js.Num (Js.toFixed2_Q c);
       Database.tx_reference := Js.prop details "reference";
       Database.tx_details := details;
       Database.tx_status := verdict;
       Database.tx_createdAt := Js.now (Bot.clock e) |} in
  let text :=
    if delivered then Bot.PurchaseDone f (Bot.done_details f session)
    else Bot.PurchaseFailed f
           (Js.or_else (Js.prop result "response_description") (Js.Str "Unknown error")) in
  let answered :=
    match result with Js.Undefined | Js.Null => false | _ => true end in
  let recorded :=
    answered && negb (Js.falsy_number (Js.Num c)) && Js.truthy (Js.prop details "reference") in
  (delivered = true <->
   Js.prop result "code" = Js.Str "000" /\
   Js.prop (Js.prop (Js.prop result "content") "transactions") "status" = Js.Str "delivered") /\
  Bot.on_message e msg w
  = Some {| Bot.db :=
              {| Database.users := Database.users (Bot.db w);
                 Database.wallets :=
                   Database.set_balance (Database.wallet_id wl) (Js.Num (Js.toFixed2_Q (q - c)))
                     (Database.wallets (Bot.db w));
                 Database.transactions :=
                   (Database.transactions (Bot.db w)
                    ++ (if recorded then [record] else []))%list |};
            Bot.userSessions := delete (Bot.chat_id msg) (Bot.userSessions w);
            Bot.effects :=
              (Bot.effects w
               ++ [Bot.Vtpass call;
                   Bot.Sent (Bot.Chat (Bot.chat_id msg))
                     (if recorded then text else Bot.ProcessReset)])%list |}.
Proof.
  intros Hsession Hstage Htext Hyes Huser Hwallet Hbal Hcost Hc Hq Hcall.
  cbn zeta. split.
  { rewrite andb_true_iff, !is_str_eq. reflexivity. }
  rewrite (on_message_confirm f e msg w session raw Hsession Hstage Htext
             (yes_not_skipped _ Hyes)).
  pose proof (run_eq _ _ _ Huser (getUserByTelegramId_reads _ _)) as Huser'.
  pose proof (run_eq _ _ _ Hwallet (getUserWallet_reads _ _)) as Hwallet'.
  pose proof Hwallet' as Hfound. apply getUserWallet_found in Hfound as (_ & Hid & _ & _).
  assert (Hdebit := debit_written (Database.user_id user) "debit" (Bot.db w) wl q c
                      ltac:(discriminate) Hwallet Hbal Hc Hq).
  assert (Hsufficient : Bot.insufficient (Some wl) (Js.Num c) = false).
  { cbn. rewrite Hbal. cbn. apply Qltb_false_iff. exact Hq. }
  assert (Htype : Bot.tx_type_of f <> "") by (destruct f; discriminate).
  destruct w as [d sessions es]; cbn [Bot.db Bot.userSessions Bot.effects] in *.
  set (details := Bot.details_of f session (Database.user_id user) (Js.now (Bot.clock e)) result).
  assert (Hdebited : forall k : unit -> Eff.M Bot.world unit,
    Bot.confirm f e (Bot.chat_id msg) (Bot.from_id msg)
      (Bot.set_lastActivity (Js.now (Bot.clock e)) session) (Js.sanitize (Js.trim raw))
      (Bot.with_sessions
         (<[Bot.chat_id msg := Bot.set_lastActivity (Js.now (Bot.clock e)) session]> sessions)
         {| Bot.db := d; Bot.userSessions := sessions; Bot.effects := es |})
    = Eff.bind (Eff.lift (Js.Ok result)) (fun _ => Eff.ret tt) 
        {| Bot.db := d; Bot.userSessions := sessions; Bot.effects := es |} -> True) by auto.
  clear Hdebited.
  destruct (match result with Js.Undefined | Js.Null => false | _ => true end
            && negb (Js.falsy_number (Js.Num c)) && Js.truthy (Js.prop details "reference"))
    eqn:Hrecorded.
  - apply andb_true_iff in Hrecorded as [Hrecorded Href].
    apply andb_true_iff in Hrecorded as [Hanswered Hfalsy].
    apply negb_true_iff in Hfalsy.
    assert (Hu : result <> Js.Undefined) by (intros ->; discriminate).
    assert (Hn : result <> Js.Null) by (intros ->; discriminate).
    erewrite try_catch_ok; [cbn [snd]; reflexivity|].
    unfold Bot.confirm. rewrite Hyes. cbn [String.eqb Ascii.eqb Bool.eqb].
    step_by ltac:(eapply assign_present; cbn; apply lookup_insert_eq).
    step_by ltac:(apply on_db_run; exact Huser').
    step.
    step_by ltac:(apply on_db_run; exact Hwallet').
    step_by ltac:(unfold Eff.lift; rewrite cost_of_touched, Hcost; reflexivity).
    rewrite Hsufficient.
    step_by ltac:(apply on_db_run; exact Hdebit).
    step_by ltac:(unfold Eff.lift; rewrite purchase_touched, Hcall; reflexivity).
    step. step.
    step_by ltac:(unfold Eff.lift; rewrite (transactionStatus_defined result Hu Hn); reflexivity).
    rewrite details_of_touched, report_touched.
    step_by ltac:(apply on_db_run, createTransaction_written; [exact Hid | exact Htype | exact Hfalsy | exact Href]).
    step. cbn. unfold Bot.with_sessions, Bot.report; cbn.
    rewrite !delete_insert_eq.
    destruct (Js.is_str (Js.prop result "code") "000"
              && Js.is_str (Js.prop (Js.prop (Js.prop result "content") "transactions") "status")
                   "delivered");
      unfold Bot.sendMessage, Bot.emit, Eff.modify; cbn; rewrite <- app_assoc; reflexivity.
  - destruct (match result with Js.Undefined | Js.Null => false | _ => true end) eqn:Hanswered.
    + assert (Hu : result <> Js.Undefined) by (intros ->; discriminate).
      assert (Hn : result <> Js.Null) by (intros ->; discriminate).
      cbn [andb] in Hrecorded.
      erewrite try_catch_throw; cycle 1.
      { unfold Bot.confirm. rewrite Hyes. cbn [String.eqb Ascii.eqb Bool.eqb].
        step_by ltac:(eapply assign_present; cbn; apply lookup_insert_eq).
        step_by ltac:(apply on_db_run; exact Huser').
        step.
        step_by ltac:(apply on_db_run; exact Hwallet').
        step_by ltac:(unfold Eff.lift; rewrite cost_of_touched, Hcost; reflexivity).
        rewrite Hsufficient.
        step_by ltac:(apply on_db_run; exact Hdebit).
        step_by ltac:(unfold Eff.lift; rewrite purchase_touched, Hcall; reflexivity).
        step. step.
        step_by ltac:(unfold Eff.lift; rewrite (transactionStatus_defined result Hu Hn);
                      reflexivity).
        rewrite details_of_touched.
        apply bind_throw. apply on_db_run. apply createTransaction_refused.
        apply andb_false_iff in Hrecorded as [Hzero | Href].
        - left. now apply negb_false_iff in Hzero.
        - now right. }
      cbn. unfold Bot.with_sessions. cbn.
      rewrite !delete_insert_eq, app_nil_r. now rewrite <- app_assoc.
    + erewrite try_catch_throw; cycle 1.
      { unfold Bot.confirm. rewrite Hyes. cbn [String.eqb Ascii.eqb Bool.eqb].
        step_by ltac:(eapply assign_present; cbn; apply lookup_insert_eq).
        step_by ltac:(apply on_db_run; exact Huser').
        step.
        step_by ltac:(apply on_db_run; exact Hwallet').
        step_by ltac:(unfold Eff.lift; rewrite cost_of_touched, Hcost; reflexivity).
        rewrite Hsufficient.
        step_by ltac:(apply on_db_run; exact Hdebit).
        step_by ltac:(unfold Eff.lift; rewrite purchase_touched, Hcall; reflexivity).
        step. step.
        apply bind_throw. unfold Eff.lift, Bot.transactionStatus.
        destruct result; try discriminate; reflexivity. }
      cbn. unfold Bot.with_sessions. cbn.
      rewrite !delete_insert_eq, app_nil_r. now rewrite <- app_assoc.
Qed.

Section Plans.
Import Js Eff Database Bot.

(** A response that lists its plans under ["variations"] holds nothing
    under ["varations"]: the handler reads an empty list. *)
Lemma read_plans_misspelled response :
  VTPass.lists_plans_under_variations response -> read_plans response = Ok (Arr []).
Proof. intros (code & description & name & serviceID & plans & ->). reflexivity. Qed.

Lemma on_message_stage st e msg w session raw body :
  userSessions w !! chat_id msg = Some session ->
  stage session = Some st ->
  text msg = Some raw ->
  skipped (trim raw) = false ->
  branch e (chat_id msg) (from_id msg) (set_lastActivity (now (clock e)) session)
    (sanitize (trim raw)) = Some body ->
  on_message e msg w
  = Some (snd (try_catch body (reset (chat_id msg))
                 (with_sessions
                    (<[chat_id msg := set_lastActivity (now (clock e)) session]> (userSessions w))
                    w))).
Proof.
  intros Hsession Hstage Htext Hskip Hbranch.
  unfold on_message, touch_session. now rewrite Htext, Hskip, Hsession, Hbranch.
Qed.

End Plans.

(** C8.  When the provider's variation list has the shape of the mock
    responses (the plans under the key ["variations"] of [content]), the
    data flow and the TV flow, which read the key ["varations"], find an
    empty list: the handler deletes the session and tells the user that no
    plans were found; the store is not touched. *)
Theorem misspelled_key_finds_no_plans
    (e : Bot.env) (msg : Bot.incoming) (w : Bot.world) (session : Bot.session)
    (raw : string) (response : Js.value) :
  VTPass.lists_plans_under_variations response ->
  Bot.userSessions w !! Bot.chat_id msg = Some session ->
  Bot.text msg = Some raw ->
  Bot.skipped (Js.trim raw) = false ->
  (forall network,
      Bot.stage session = Some "awaiting_data_phone" ->
      Bot.dataNetwork session = Some network ->
      Js.phone_ok (Js.strip_non_digits (Js.sanitize (Js.trim raw))) = true ->
      VTPass.getVariations (Bot.vtpassTestMode e) (Bot.data_code network)
        (Bot.variations_answer e) = Js.Ok response ->
      Bot.on_message e msg w
      = Some {| Bot.db := Bot.db w;
                Bot.userSessions := delete (Bot.chat_id msg) (Bot.userSessions w);
                Bot.effects :=
                  (Bot.effects w
                   ++ [Bot.Vtpass (Bot.GetVariations (Bot.data_code network));
                       Bot.Sent (Bot.Chat (Bot.chat_id msg))
                         (Bot.NoDataPlansFound (Bot.net_name network))])%list |}) /\
  (forall provider,
      Bot.stage session = Some "awaiting_card_number" ->
      Bot.tvProvider session = Some provider ->
      Js.long_digits_ok (Js.trim (Js.sanitize (Js.trim raw))) = true ->
      VTPass.getVariations (Bot.vtpassTestMode e) (Bot.prov_code provider)
        (Bot.variations_answer e) = Js.Ok response ->
      Bot.on_message e msg w
      = Some {| Bot.db := Bot.db w;
                Bot.userSessions := delete (Bot.chat_id msg) (Bot.userSessions w);
                Bot.effects :=
                  (Bot.effects w
                   ++ [Bot.Vtpass (Bot.GetVariations (Bot.prov_code provider));
                       Bot.Sent (Bot.Chat (Bot.chat_id msg))
                         (Bot.NoTvPlansFound (Bot.prov_name provider))])%list |}).
Proof.
  intros Hshape Hsession Htext Hskip.
  pose proof (read_plans_misspelled response Hshape) as Hplans.
  destruct w as [d sessions es]; cbn [Bot.db Bot.userSessions Bot.effects] in *.
  split.
  - intros network Hstage Hnetwork Hphone Hanswer.
    erewrite on_message_stage; try eassumption.
    2:{ unfold Bot.branch. cbn [Bot.stage Bot.set_lastActivity]. rewrite Hstage. reflexivity. }
    cbn [Bot.userSessions].
    erewrite try_catch_ok; [cbn [snd]; reflexivity|].
    unfold Bot.awaiting_data_phone. rewrite Hphone. cbn [negb].
    step_by ltac:(eapply assign_present; cbn; apply lookup_insert_eq).
    step_by ltac:(unfold Eff.lift; cbn; rewrite Hnetwork; reflexivity).
    step.
    step_by ltac:(unfold Eff.lift; rewrite Hanswer; reflexivity).
    step_by ltac:(unfold Eff.lift; rewrite Hplans; reflexivity).
    step_by ltac:(eapply assign_present; cbn; apply lookup_insert_eq).
    cbn [Bot.variations Bot.set_variations].
    change (Bot.no_plans (Js.Arr [])) with true. cbv beta iota.
    step. unfold Bot.sendMessage, Bot.emit, Eff.modify; cbn.
    unfold Bot.with_sessions; cbn.
    rewrite !delete_insert_eq, <- app_assoc. reflexivity.
  - intros provider Hstage Hprovider Hcard Hanswer.
    erewrite on_message_stage; try eassumption.
    2:{ unfold Bot.branch. cbn [Bot.stage Bot.set_lastActivity]. rewrite Hstage. reflexivity. }
    cbn [Bot.userSessions].
    erewrite try_catch_ok; [cbn [snd]; reflexivity|].
    unfold Bot.awaiting_card_number. rewrite Hcard. cbn [negb].
    step_by ltac:(eapply assign_present; cbn; apply lookup_insert_eq).
    step_by ltac:(unfold Eff.lift; cbn; rewrite Hprovider; reflexivity).
    step.
    step_by ltac:(unfold Eff.lift; rewrite Hanswer; reflexivity).
    step_by ltac:(unfold Eff.lift; rewrite Hplans; reflexivity).
    step_by ltac:(eapply assign_present; cbn; apply lookup_insert_eq).
    cbn [Bot.variations Bot.set_variations].
    change (Bot.no_plans (Js.Arr [])) with true. cbv beta iota.
    step. unfold Bot.sendMessage, Bot.emit, Eff.modify; cbn.
    unfold Bot.with_sessions; cbn.
    rewrite !delete_insert_eq, <- app_assoc. reflexivity.
Qed.

Lemma insufficient_balance_aborts_witness :
  Bot.on_message (Samples.outside Samples.delivered) (Samples.says " Yes ")
    (Samples.chatting (Samples.airtime_session 200) Samples.store)
  = Some {| Bot.db := Samples.store;
            Bot.userSessions := delete 7%Z {[ 7%Z := Samples.airtime_session 200 ]};
            Bot.effects := [Bot.Sent (Bot.Chat 7) Bot.InsufficientBalanceFundWallet] |}.
Proof.
  apply (insufficient_balance_aborts Bot.Airtime (Samples.outside Samples.delivered)
           (Samples.says " Yes ")
           (Samples.chatting (Samples.airtime_session 200) Samples.store)
           (Samples.airtime_session 200) " Yes " Samples.alice
           (Some {| Database.wallet_id := "w1"; Database.wallet_userId := "u1";
                    Database.balance := Js.Num 100 |})
           (Js.Num 200)); reflexivity.
Defined.

Example insufficient_balance_tv :
  Bot.effects <$>
    Bot.on_message (Samples.outside Samples.delivered) (Samples.says "yes")
      {| Bot.db := Samples.store;
         Bot.userSessions :=
           {[ 7%Z := Bot.set_stage (Some "confirm_tv")
                       {| Bot.lastActivity := 0; Bot.stage := None;
                          Bot.airtimeNetwork := None; Bot.airtimeAmount := None;
                          Bot.phone := None; Bot.dataNetwork := None; Bot.dataPhone := None;
                          Bot.variations := Js.Undefined;
                          Bot.variation := VTPass.plan "dstv-padi" "DStv Padi" "2500";
                          Bot.electricityProvider := None; Bot.meter := None;
                          Bot.amount := None; Bot.tvProvider := Some Samples.DSTV;
                          Bot.card := Some "1234567890" |} ]};
         Bot.effects := [] |}
  = Some [Bot.Sent (Bot.Chat 7) Bot.InsufficientBalance].
Proof. vm_compute. reflexivity. Qed.

(** C5, counterexample.  A provider that answers [null]: reading
    [result.code] throws, so after the debit the handler records nothing,
    neither as ["success"] nor as ["failed"], and the user is sent the reset
    text instead of the failure text; the amount stays debited. *)
Lemma null_response_records_nothing :
  (fun w => (map Database.tx_status (Database.transactions (Bot.db w)),
             map Database.balance (Database.wallets (Bot.db w)),
             Reconcile.vtpass_calls_of (Bot.effects w),
             Reconcile.messages_of (Bot.effects w)))
    <$> Bot.on_message (Samples.answering Js.Null) (Samples.says "yes")
          (Samples.chatting (Samples.airtime_session 50) Samples.store)
  = Some ([], [Js.Num (5000 # 100)],
          [Bot.BuyAirtime "mtn" (Js.Num 50) (Some "08012345678")],
          [(Bot.Chat 7, Bot.ProcessReset)]).
Proof. vm_compute. reflexivity. Qed.

(** The same for a response that carries a [reference] of its own that is
    falsy: copied over the handler's reference, it makes
    [createTransaction] throw. *)
Example null_reference_records_nothing :
  (fun w => (map Database.tx_status (Database.transactions (Bot.db w)),
             map Database.balance (Database.wallets (Bot.db w)),
             Reconcile.messages_of (Bot.effects w)))
    <$> Bot.on_message
          (Samples.answering
             (Js.Obj [("code", Js.Str "016");
                      ("response_description", Js.Str "TRANSACTION FAILED");
                      ("reference", Js.Null)]))
          (Samples.says "yes")
          (Samples.chatting (Samples.airtime_session 50) Samples.store)
  = Some ([], [Js.Num (5000 # 100)], [(Bot.Chat 7, Bot.ProcessReset)]).
Proof. vm_compute. reflexivity. Qed.

Lemma purchase_settled_by_provider_verdict_witness :
  exists w',
    Bot.on_message (Samples.outside Samples.delivered) (Samples.says "yes")
      (Samples.chatting (Samples.airtime_session 50) Samples.store) = Some w' /\
    map Database.tx_status (Database.transactions (Bot.db w')) = ["success"] /\
    map Database.balance (Database.wallets (Bot.db w')) = [Js.Num (5000 # 100)] /\
    Reconcile.messages_of (Bot.effects w')
    = [(Bot.Chat 7, Bot.PurchaseDone Bot.Airtime [Js.Str "08012345678"; Js.Str "MTN"])].
Proof.
  destruct (purchase_settled_by_provider_verdict Bot.Airtime
              (Samples.outside Samples.delivered) (Samples.says "yes")
              (Samples.chatting (Samples.airtime_session 50) Samples.store)
              (Samples.airtime_session 50) "yes" Samples.alice
              {| Database.wallet_id := "w1"; Database.wallet_userId := "u1";
                 Database.balance := Js.Num 100 |}
              100 50
              (Bot.BuyAirtime "mtn" (Js.Num 50) (Some "08012345678")) Samples.delivered)
    as [_ Hrun]; try reflexivity; try discriminate.
  eexists. split; [exact Hrun|]. repeat split.
Defined.

(** White space around the text is trimmed whatever its kind: a [yes]
    between no-break spaces confirms the purchase. *)
Example trim_white_space :
  Js.trim (Samples.no_break_space +:+ " yes" +:+ Samples.em_space +:+ Samples.no_break_space)
  = "yes" /\
  Js.trim (" a" +:+ Samples.no_break_space +:+ "b ") = "a" +:+ Samples.no_break_space +:+ "b".
Proof. split; reflexivity. Qed.

Example padded_yes_confirms :
  (fun w => (map Database.tx_status (Database.transactions (Bot.db w)),
             map Database.balance (Database.wallets (Bot.db w))))
    <$> Bot.on_message (Samples.outside Samples.delivered)
          (Samples.says (Samples.no_break_space +:+ "yes" +:+ Samples.no_break_space))
          (Samples.chatting (Samples.airtime_session 50) Samples.store)
  = Some (["success"], [Js.Num (5000 # 100)]).
Proof. vm_compute. reflexivity. Qed.

(** A response that is accepted but not yet delivered is recorded and
    reported as failed; the amount stays debited. *)
Example pending_delivery_is_failed :
  let w' := Bot.on_message (Samples.outside Samples.accepted_pending) (Samples.says "yes")
              (Samples.chatting (Samples.airtime_session 50) Samples.store) in
  (fun w => (map Database.tx_status (Database.transactions (Bot.db w)),
             map Database.balance (Database.wallets (Bot.db w)),
             Reconcile.messages_of (Bot.effects w))) <$> w'
  = Some (["failed"], [Js.Num (5000 # 100)],
          [(Bot.Chat 7, Bot.PurchaseFailed Bot.Airtime (Js.Str "TRANSACTION SUCCESSFUL"))]).
Proof. vm_compute. reflexivity. Qed.

Example data_purchase_delivered :
  let w' := Bot.on_message (Samples.outside Samples.delivered) (Samples.says "YES")
              (Samples.chatting Samples.data_session
                 {| Database.users := [Samples.alice];
                    Database.wallets :=
                      [{| Database.wallet_id := "w1"; Database.wallet_userId := "u1";
                          Database.balance := Js.Num 1200 |}];
                    Database.transactions := [] |}) in
  (fun w => (map (fun x => (Database.tx_type x, Database.tx_status x, Database.tx_reference x))
               (Database.transactions (Bot.db w)),
             map Database.balance (Database.wallets (Bot.db w)),
             Reconcile.vtpass_calls_of (Bot.effects w))) <$> w'
  = Some ([("data", "success", Js.Str "DATA_u1_1700000100000")],
          [Js.Num (70000 # 100)],
          [Bot.BuyData "mtn-data" (Js.Str "M1024") (Some "08012345678")]).
Proof. vm_compute. reflexivity. Qed.

Lemma misspelled_key_finds_no_plans_witness :
  VTPass.lists_plans_under_variations (VTPass.getMockVariations "mtn-data") /\
  Bot.on_message (Samples.outside Samples.delivered) (Samples.says "0801 234 5678")
    (Samples.chatting Samples.data_phone_session Samples.store)
  = Some {| Bot.db := Samples.store;
            Bot.userSessions := delete 7%Z {[ 7%Z := Samples.data_phone_session ]};
            Bot.effects :=
              [Bot.Vtpass (Bot.GetVariations "mtn-data");
               Bot.Sent (Bot.Chat 7) (Bot.NoDataPlansFound "MTN")] |}.
Proof.
  assert (Hshape : VTPass.lists_plans_under_variations (VTPass.getMockVariations "mtn-data")).
  { do 5 eexists. reflexivity. }
  split; [exact Hshape|].
  destruct (misspelled_key_finds_no_plans (Samples.outside Samples.delivered)
              (Samples.says "0801 234 5678")
              (Samples.chatting Samples.data_phone_session Samples.store)
              Samples.data_phone_session "0801 234 5678"
              (VTPass.getMockVariations "mtn-data") Hshape)
    as [Hdata _]; [reflexivity | reflexivity | reflexivity |].
  apply (Hdata Samples.MTN); reflexivity.
Defined.

Example misspelled_key_tv :
  Bot.on_message (Samples.outside Samples.delivered) (Samples.says "1234567890")
    (Samples.chatting Samples.card_session Samples.store)
  = Some {| Bot.db := Samples.store;
            Bot.userSessions := delete 7%Z {[ 7%Z := Samples.card_session ]};
            Bot.effects :=
              [Bot.Vtpass (Bot.GetVariations "dstv");
               Bot.Sent (Bot.Chat 7) (Bot.NoTvPlansFound "DSTV")] |}.
Proof. reflexivity. Qed.

(** ** The two paths on one funding *)

Section Settling.
Import Js Eff Database Bot Reconcile.

Lemma Qltb_comp x y z : (x == y)%Q -> Qltb x z = Qltb y z.
Proof.
  intros Hxy. destruct (Qltb y z) eqn:Hy.
  - apply Qltb_true_iff. apply Qltb_true_iff in Hy. now rewrite Hxy.
  - apply Qltb_false_iff. apply Qltb_false_iff in Hy. now rewrite Hxy.
Qed.

Lemma round_cents_comp x y : (x == y)%Q -> round_cents x = round_cents y.
Proof. intros Hxy. unfold round_cents. apply Qfloor_comp. now rewrite Hxy. Qed.

(** Rounding to cents gives the same number for equal rationals. *)
Lemma toFixed2_Q_comp x y : (x == y)%Q -> toFixed2_Q x = toFixed2_Q y.
Proof.
  intros Hxy. unfold toFixed2_Q.
  rewrite (Qltb_comp x y 0 Hxy), (round_cents_comp x y Hxy).
  rewrite (round_cents_comp (- x) (- y)) by now rewrite Hxy.
  reflexivity.
Qed.

(** [set_status] changes the status only: the lookups, which go by the
    other fields, find the same documents in the same order. *)
Lemma restatus_fields id st y :
  tx_id (restatus id st y) = tx_id y /\
  tx_userId (restatus id st y) = tx_userId y /\
  tx_reference (restatus id st y) = tx_reference y /\
  tx_details (restatus id st y) = tx_details y /\
  tx_createdAt (restatus id st y) = tx_createdAt y.
Proof. unfold restatus. now destruct (String.eqb (tx_id y) id). Qed.

Lemma find_map_same {A} (p : A -> bool) (g : A -> A) l :
  (forall y, p (g y) = p y) -> List.find p (map g l) = option_map g (List.find p l).
Proof.
  intros Hp. induction l as [|y l IH]; cbn; [reflexivity|].
  rewrite Hp. destruct (p y); [reflexivity | exact IH].
Qed.

Lemma filter_map_same {A} (p : A -> bool) (g : A -> A) l :
  (forall y, p (g y) = p y) -> List.filter p (map g l) = map g (List.filter p l).
Proof.
  intros Hp. induction l as [|y l IH]; cbn; [reflexivity|].
  rewrite Hp. destruct (p y); cbn; now rewrite IH.
Qed.

Lemma take_map_same {A} (g : A -> A) n l : take n (map g l) = map g (take n l).
Proof.
  revert l. induction n as [|n IH]; intros [|y l]; cbn; try reflexivity. now rewrite IH.
Qed.

Lemma insert_desc_map g y l :
  (forall z, tx_createdAt (g z) = tx_createdAt z) ->
  insert_desc (g y) (map g l) = map g (insert_desc y l).
Proof.
  intros Hg. induction l as [|z l IH]; cbn; [reflexivity|].
  rewrite !Hg. destruct (tx_createdAt z <? tx_createdAt y)%N; cbn; [reflexivity|].
  now rewrite IH.
Qed.

Lemma orderDesc_map g l :
  (forall z, tx_createdAt (g z) = tx_createdAt z) ->
  orderDesc_createdAt (map g l) = map g (orderDesc_createdAt l).
Proof.
  intros Hg. unfold orderDesc_createdAt. induction l as [|y l IH]; cbn; [reflexivity|].
  rewrite IH. now apply insert_desc_map.
Qed.

End Settling.

Section Reconciling.
Import Js Eff Database Bot Reconcile.

Variable hmac : string -> string -> string.
Variable JSON_parse : string -> option value.
Variable text_to_number : value -> number.
Variable secret : string.

Variables (fd : funding) (u : user) (wl : wallet) (x : transaction).
Variables (q a kobo : Q) (payload : value).

Hypothesis Hparse : JSON_parse (fund_wire fd) = Some payload.
Hypothesis Hcharge : charge_for fd kobo payload.
Hypothesis Hkobo : (kobo == 100 * a)%Q.
Hypothesis Hamount : fund_amount fd = Num a.
Hypothesis Ha : (0 < a)%Q.
Hypothesis Hbal : balance wl = Num q.
Hypothesis Hq : (0 <= q)%Q.

Lemma store_eq (d d' : Database.t) :
  users d = users d' -> wallets d = wallets d' -> transactions d = transactions d' -> d = d'.
Proof. destruct d, d'; cbn; congruence. Qed.

Lemma findTransactionByReference_In reference d y :
  fst (findTransactionByReference reference d) = Ok (Some y) -> In y (transactions d).
Proof.
  unfold findTransactionByReference, bind, get, ret. cbn. intros [= Hfind].
  now apply find_some in Hfind.
Qed.

(** The push on the funding that is still awaited. *)
Lemma push_awaited verify e p :
  awaited fd u wl x (db (pworld p)) ->
  confirms (fund_reference fd) verify ->
  handle hmac JSON_parse text_to_number secret fd (Push verify e) p
  = {| pworld :=
         {| db := reconciled wl x q a (db (pworld p));
            userSessions := userSessions (pworld p);
            effects :=
              (effects (pworld p)
               ++ [PaystackVerify (fund_reference fd);
                   Sent (TelegramUser (telegramId u)) (WalletFunded (Num (kobo / 100)))])%list |};
       attempts := attempts p;
       running := running p |}.
Proof.
  intros Hawaited (vstatus & Hver & Hsuccess).
  destruct Hawaited as [(part & Hpart & Hbypart) _ Hwallet Hbyref _ _ Hid Hopen].
  destruct Hcharge as (Hevent & Hreference & Hkobo').
  destruct p as [[d sessions es] n r];
    cbn [pworld db userSessions effects attempts running] in *.
  pose proof (run_eq _ _ _ Hbypart (getUserByTelegramId_reads _ _)) as Huser.
  assert (Hfound : findTransactionByReference (fund_reference fd) d = (Ok (Some x), d)).
  { apply run_eq; [exact Hbyref | reflexivity]. }
  assert (Hcredit : updateWalletBalance (user_id u) (Num (kobo / 100)) "credit" d
                    = (Ok tt, with_wallets
                                (set_balance (wallet_id wl) (Num (toFixed2_Q (q + a))) (wallets d))
                                d)).
  { rewrite (credit_written (user_id u) d wl q (kobo / 100) Hwallet Hbal Hq).
    - do 4 f_equal. apply toFixed2_Q_comp. rewrite Hkobo. field.
    - apply Qle_shift_div_l; lra. }
  assert (Hrecord := updateTransaction_written (tx_id x) "success"
            (with_wallets (set_balance (wallet_id wl) (Num (toFixed2_Q (q + a))) (wallets d)) d)
            Hid
            (ex_intro _ x (conj (findTransactionByReference_In _ _ _ Hbyref) eq_refl))).
  unfold handle. cbn [pworld attempts running]. f_equal.
  unfold webhook_handler.
  match goal with
  | |- snd (let (_, _) := ?m ?w in _) = ?w' =>
      assert (Hrun : m w = (Ok {| status := 200; text := "Webhook processed" |}, w'))
  end.
  2:{ now rewrite Hrun. }
  unfold webhook_try.
  step.
  rewrite bool_decide_eq_true_2 by reflexivity. cbn [negb].
  step_by ltac:(unfold lift; rewrite Hparse; reflexivity).
  step_by ltac:(unfold lift; rewrite Hevent; reflexivity).
  cbn [is_str String.eqb Ascii.eqb Bool.eqb negb andb].
  step_by ltac:(unfold lift; rewrite Hreference; reflexivity).
  rewrite Hkobo'. cbn [ToNumber div100].
  step_by ltac:(unfold lift, user_of_reference; rewrite Hpart; reflexivity).
  cbn [fst snd].
  step_by ltac:(apply on_db_run; exact Huser).
  step_by ltac:(apply on_db_run; exact Hfound).
  replace (String.eqb (tx_status x) "success") with false
    by (symmetry; now apply String.eqb_neq).
  step.
  step_by ltac:(unfold lift; rewrite Hver; reflexivity).
  rewrite Hsuccess. cbn [negb].
  step_by ltac:(apply on_db_run; exact Hcredit).
  step_by ltac:(apply on_db_run; exact Hrecord).
  step. unfold respond, ret. cbn. rewrite <- app_assoc. reflexivity.
Qed.

(** A tick on the funding that is still awaited. *)
Lemma tick_awaited verify e p :
  awaited fd u wl x (db (pworld p)) ->
  Forall (fun y => tx_id y <> "") (transactions (db (pworld p))) ->
  confirms (fund_reference fd) verify ->
  db (pworld (handle hmac JSON_parse text_to_number secret fd (Tick verify e) p))
  = (if running p then reconciled wl x q a (db (pworld p)) else db (pworld p)).
Proof.
  intros Hawaited Hids (vstatus & Hver & Hsuccess).
  unfold handle. destruct (running p); [|reflexivity].
  destruct Hawaited as [_ Hbyid Hwallet _ (txs & Htxs & Hfind) _ _ Hopen].
  rewrite Hamount.
  destruct (tick_success (fund_maxAttempts fd) (fund_reference fd) (fund_userId fd)
              (fund_chatId fd) verify e p vstatus u wl q a)
    as (d' & Hwallets & Husers & Hrecord & ->); try assumption.
  - intros txs' y Htxs' Hfind'. rewrite Htxs in Htxs'. injection Htxs' as <-.
    rewrite Hfind in Hfind'. now injection Hfind' as <-.
  - cbn [pworld db]. apply store_eq; cbn.
    + exact Husers.
    + exact Hwallets.
    + now apply (Hrecord txs x).
Qed.

(** Once the funding is reconciled, both lookups find its transaction as
    settled. *)
Lemma reconciled_by_reference d :
  awaited fd u wl x d ->
  findTransactionByReference (fund_reference fd) (reconciled wl x q a d)
  = (Ok (Some (with_status "success" x)), reconciled wl x q a d).
Proof.
  intros [_ _ _ Hbyref _ _ _ _].
  unfold findTransactionByReference, bind, get, ret in *. cbn in *.
  injection Hbyref as Hfind. unfold first_match, set_status in *.
  rewrite find_map_same, Hfind.
  - cbn. unfold restatus. now rewrite String.eqb_refl.
  - intros y. now destruct (restatus_fields (tx_id x) "success" y) as (_ & _ & -> & _).
Qed.

Lemma reconciled_among_latest d :
  awaited fd u wl x d ->
  exists txs,
    getUserTransactions (user_id u) 10 (reconciled wl x q a d) = (Ok txs, reconciled wl x q a d) /\
    find_by_details (fund_reference fd) txs = Some (with_status "success" x).
Proof.
  intros [_ _ _ _ (txs & Htxs & Hfind) _ _ _].
  unfold getUserTransactions in *.
  destruct (String.eqb (user_id u) ""); [discriminate|].
  unfold bind, get, ret in *. cbn in *. injection Htxs as <-.
  eexists. split; [reflexivity|].
  unfold set_status, find_by_details in *.
  rewrite filter_map_same, orderDesc_map, take_map_same, find_map_same, Hfind.
  - cbn. unfold restatus. now rewrite String.eqb_refl.
  - intros y. now destruct (restatus_fields (tx_id x) "success" y) as (_ & _ & _ & -> & _).
  - intros y. now destruct (restatus_fields (tx_id x) "success" y) as (_ & _ & _ & _ & ->).
  - intros y. now destruct (restatus_fields (tx_id x) "success" y) as (_ & -> & _).
Qed.

Lemma reconciled_users arg d :
  getUserByTelegramId arg (reconciled wl x q a d)
  = (fst (getUserByTelegramId arg d), reconciled wl x q a d).
Proof. unfold getUserByTelegramId. now destruct (arg_missing arg). Qed.

(** A push after the reconciliation changes nothing. *)
Lemma push_reconciled verify e p d :
  awaited fd u wl x d ->
  db (pworld p) = reconciled wl x q a d ->
  handle hmac JSON_parse text_to_number secret fd (Push verify e) p = p.
Proof.
  intros Hawaited Hdb.
  pose proof (reconciled_by_reference d Hawaited) as Hfound.
  destruct Hawaited as [(part & Hpart & Hbypart) _ _ _ _ _ _ _].
  destruct Hcharge as (Hevent & Hreference & Hkobo').
  destruct p as [[d' sessions es] n r];
    cbn [pworld db userSessions effects attempts running] in *. subst d'.
  unfold handle. cbn [pworld attempts running]. f_equal.
  unfold webhook_handler.
  match goal with
  | |- snd (let (_, _) := ?m ?w in _) = ?w' =>
      assert (Hrun : m w = (Ok {| status := 200; text := "Transaction already processed" |}, w'))
  end.
  2:{ now rewrite Hrun. }
  unfold webhook_try.
  step.
  rewrite bool_decide_eq_true_2 by reflexivity. cbn [negb].
  step_by ltac:(unfold lift; rewrite Hparse; reflexivity).
  step_by ltac:(unfold lift; rewrite Hevent; reflexivity).
  cbn [is_str String.eqb Ascii.eqb Bool.eqb negb andb].
  step_by ltac:(unfold lift; rewrite Hreference; reflexivity).
  step_by ltac:(unfold lift, user_of_reference; rewrite Hpart; reflexivity).
  cbn [fst snd].
  step_by ltac:(apply on_db_run; cbn [db]; rewrite reconciled_users, Hbypart; reflexivity).
  step_by ltac:(apply on_db_run; exact Hfound).
  reflexivity.
Qed.

(** A tick after the reconciliation leaves the store as it is. *)
Lemma tick_reconciled verify e p d :
  awaited fd u wl x d ->
  db (pworld p) = reconciled wl x q a d ->
  confirms (fund_reference fd) verify ->
  db (pworld (handle hmac JSON_parse text_to_number secret fd (Tick verify e) p))
  = reconciled wl x q a d.
Proof.
  intros Hawaited Hdb (vstatus & Hver & Hsuccess).
  destruct (reconciled_among_latest d Hawaited) as (txs & Htxs & Hfind).
  destruct Hawaited as [_ Hbyid _ _ _ _ _ _].
  unfold handle. destruct (running p); [|exact Hdb].
  destruct p as [[d' sessions es] n r];
    cbn [pworld db userSessions effects attempts running] in *. subst d'.
  unfold tick.
  match goal with
  | |- context [tick_try ?r ?u ?am ?c ?v ?e ?p] =>
      assert (Hrun : tick_try r u am c v e p
                     = (Ok true,
                        {| pworld :=
                             {| db := reconciled wl x q a d; userSessions := sessions;
                                effects := (es ++ [PaystackVerify r])%list |};
                           attempts := n; running := false |}))
  end.
  2:{ now rewrite Hrun. }
  unfold tick_try.
  step.
  step_by ltac:(unfold lift; rewrite Hver; reflexivity).
  rewrite Hsuccess.
  step.
  step_by ltac:(apply in_world_run, on_db_run; cbn [db pworld];
                rewrite reconciled_users, Hbyid; reflexivity).
  step.
  step_by ltac:(apply in_world_run, on_db_run; exact Htxs).
  rewrite Hfind. reflexivity.
Qed.

Lemma handle_reconciled s p d :
  awaited fd u wl x d ->
  db (pworld p) = reconciled wl x q a d ->
  confirms (fund_reference fd) (verify_of s) ->
  db (pworld (handle hmac JSON_parse text_to_number secret fd s p)) = reconciled wl x q a d.
Proof.
  intros Hawaited Hdb Hconfirms. destruct s as [verify e|verify e]; cbn in Hconfirms.
  - now rewrite (push_reconciled verify e p d Hawaited Hdb).
  - now apply tick_reconciled.
Qed.

Lemma handle_all_reconciled signals p d :
  awaited fd u wl x d ->
  db (pworld p) = reconciled wl x q a d ->
  Forall (fun s => confirms (fund_reference fd) (verify_of s)) signals ->
  db (pworld (foldl (fun p s => handle hmac JSON_parse text_to_number secret fd s p) p signals))
  = reconciled wl x q a d.
Proof.
  intros Hawaited. revert p.
  induction signals as [|s rest IH]; intros p Hdb Hall; cbn [foldl]; [exact Hdb|].
  apply List.Forall_cons_iff in Hall as [Hs Hrest].
  apply IH; [|exact Hrest]. now apply handle_reconciled.
Qed.

(** With the body handed to the handler as a buffer, any sequence of pushes
    and ticks that the gateway confirms, and that has at least one of them,
    leaves the store reconciled once. *)
Lemma reconcile_once signals w :
  awaited fd u wl x (db w) ->
  Forall (fun y => tx_id y <> "") (transactions (db w)) ->
  signals <> [] ->
  Forall (fun s => confirms (fund_reference fd) (verify_of s)) signals ->
  db (pworld (reconcile hmac JSON_parse text_to_number secret fd signals w))
  = reconciled wl x q a (db w).
Proof.
  intros Hawaited Hids Hsome Hall.
  destruct signals as [|s rest]; [congruence|].
  apply List.Forall_cons_iff in Hall as [Hs Hrest].
  unfold reconcile. cbn [foldl].
  set (p0 := {| pworld := w; attempts := 0; running := true |}).
  assert (Hfirst : db (pworld (handle hmac JSON_parse text_to_number secret fd s p0))
                   = reconciled wl x q a (db w)).
  { destruct s as [verify e|verify e]; cbn in Hs.
    - now rewrite (push_awaited verify e p0 Hawaited Hs).
    - now rewrite (tick_awaited verify e p0 Hawaited Hids Hs). }
  now apply handle_all_reconciled.
Qed.

Lemma filter_none {A} (p : A -> bool) l :
  (forall y, In y l -> p y = false) -> List.filter p l = [].
Proof.
  induction l as [|y l IH]; intros Hp; cbn; [reflexivity|].
  rewrite (Hp y (or_introl eq_refl)). apply IH. intros z Hz. apply Hp. now right.
Qed.

(** In the reconciled store the reference has one settled transaction, and
    the wallet holds the old balance plus the amount. *)
Lemma reconciled_settled d :
  awaited fd u wl x d -> ids_kept d ->
  settled (fund_reference fd) (reconciled wl x q a d) = [with_status "success" x] /\
  wallets (reconciled wl x q a d)
  = set_balance (wallet_id wl) (Num (toFixed2_Q (q + a))) (wallets d).
Proof.
  intros Hawaited [_ Hnodup]. split; [|reflexivity].
  pose proof (findTransactionByReference_In _ _ _ (awaited_by_reference _ _ _ _ _ Hawaited))
    as Hin.
  pose proof (awaited_only _ _ _ _ _ Hawaited) as Honly.
  assert (Href : is_str (tx_reference x) (fund_reference fd) = true).
  { pose proof (awaited_by_reference _ _ _ _ _ Hawaited) as Hfind.
    unfold findTransactionByReference, bind, get, ret in Hfind. cbn in Hfind.
    injection Hfind as Hfind. now apply find_some in Hfind. }
  unfold settled, reconciled. cbn [transactions with_transactions with_wallets].
  unfold set_status. revert Hnodup Hin Honly.
  induction (transactions d) as [|y l IH]; intros Hnodup Hin Honly; [contradiction|].
  cbn [map] in Hnodup. apply NoDup_cons in Hnodup as [Hfresh Hnodup].
  cbn [map List.filter].
  destruct (restatus_fields (tx_id x) "success" y) as (_ & _ & Hry & _). rewrite Hry.
  destruct (is_str (tx_reference y) (fund_reference fd)) eqn:Hy.
  - assert (y = x) as -> by (apply Honly; [now left | exact Hy]).
    unfold restatus at 1 2. rewrite String.eqb_refl. cbn.
    f_equal. apply filter_none. intros z Hz.
    apply list_elem_of_In, list_elem_of_fmap in Hz as (z0 & -> & Hz0).
    apply list_elem_of_In in Hz0.
    destruct (restatus_fields (tx_id x) "success" z0) as (_ & _ & -> & _).
    destruct (is_str (tx_reference z0) (fund_reference fd)) eqn:Hz0r; [|reflexivity].
    exfalso. apply Hfresh. apply list_elem_of_fmap. exists z0.
    split; [|now apply list_elem_of_In].
    f_equal. symmetry. apply Honly; [now right | exact Hz0r].
  - cbn [andb]. apply IH.
    + exact Hnodup.
    + destruct Hin as [->|Hin]; [congruence | exact Hin].
    + intros z Hz. apply Honly. now right.
Qed.

End Reconciling.

(** The store of the samples holds the funding as the lemmas above take it. *)
Example funding_awaited :
  Reconcile.awaited Samples.the_funding Samples.alice
    {| Database.wallet_id := "w1"; Database.wallet_userId := "u1";
       Database.balance := Js.Num 0 |}
    Samples.pending_funding Samples.funding_store.
Proof.
  split; try reflexivity; try discriminate.
  - exists "42". split; reflexivity.
  - eexists. split; reflexivity.
  - intros y [<-|[]] _. reflexivity.
Qed.

(** A push, a tick and a second push on that funding, the body handed to
    the handler as a buffer: one settled transaction, 500 credited once. *)
Example both_paths_settle_once :
  let p :=
    Reconcile.reconcile Samples.toy_hmac Samples.parse_charge (fun _ => Js.NaN) "sk_test"
      Samples.the_funding
      [Reconcile.Push Samples.payment_succeeded (Samples.at_time 1700000060000 "t2");
       Reconcile.Tick Samples.payment_succeeded (Samples.at_time 1700000070000 "t3");
       Reconcile.Push Samples.payment_succeeded (Samples.at_time 1700000080000 "t4")]
      Samples.funding_world in
  map Database.tx_id (Reconcile.settled Samples.funding_reference (Bot.db (Reconcile.pworld p)))
  = ["t1"] /\
  map Database.balance (Database.wallets (Bot.db (Reconcile.pworld p)))
  = [Js.Num (50000 # 100)] /\
  Reconcile.messages_of (Bot.effects (Reconcile.pworld p))
  = [(Bot.TelegramUser "42", Bot.WalletFunded (Js.Num (50000 / 100)))].
Proof. vm_compute. repeat split. Qed.

(** The poll alone, as it runs in test mode: a pending tick, then success. *)
Example poll_settles_once :
  let p :=
    Reconcile.pollPaymentStatus 30 Samples.funding_reference 42 (Js.Num 500) 7
      [(Samples.payment_pending, Samples.at_time 1700000010000 "t2");
       (Samples.payment_succeeded, Samples.at_time 1700000020000 "t3");
       (Samples.payment_succeeded, Samples.at_time 1700000030000 "t4")]
      Samples.funding_world in
  map Database.tx_id (Reconcile.settled Samples.funding_reference (Bot.db (Reconcile.pworld p)))
  = ["t1"] /\
  map Database.balance (Database.wallets (Bot.db (Reconcile.pworld p)))
  = [Js.Num (50000 # 100)] /\
  Reconcile.messages_of (Bot.effects (Reconcile.pworld p))
  = [(Bot.Chat 7, Bot.WalletFunded (Js.Num 500))] /\
  Reconcile.running p = false.
Proof. vm_compute. repeat split. Qed.

(** The funding older than the user's ten latest transactions: the tick
    does not see it and records a second transaction; the push, handed to
    the handler as a buffer, then finds the first one still pending and
    credits again. *)
Example stale_funding_credited_twice :
  let p :=
    Reconcile.reconcile Samples.toy_hmac Samples.parse_charge (fun _ => Js.NaN) "sk_test"
      Samples.the_funding
      [Reconcile.Tick Samples.payment_succeeded (Samples.at_time 1700000060000 "t2");
       Reconcile.Push Samples.payment_succeeded (Samples.at_time 1700000070000 "t3")]
      {| Bot.db := Samples.crowded_store; Bot.userSessions := ∅; Bot.effects := [] |} in
  map Database.tx_id (Reconcile.settled Samples.funding_reference (Bot.db (Reconcile.pworld p)))
  = ["t1"; "t2"] /\
  map Database.balance (Database.wallets (Bot.db (Reconcile.pworld p)))
  = [Js.Num (100000 # 100)].
Proof. vm_compute. repeat split. Qed.
(* ===================================================================== *)
(** * Further properties of the services and the handlers *)
(* ===================================================================== *)

(** ** Accounts: [createUser] and [ensureUserWallet] *)

Section Accounts.
Import Js Eff Database.

Lemma find_app_none {A} (p : A -> bool) l x :
  List.find p l = None -> List.find p (l ++ [x]) = if p x then Some x else None.
Proof.
  induction l as [|y l IH]; cbn; [reflexivity|].
  destruct (p y); [discriminate | exact IH].
Qed.

Lemma find_app_some {A} (p : A -> bool) l l' x :
  List.find p l = Some x -> List.find p (l ++ l') = Some x.
Proof.
  induction l as [|y l IH]; cbn; [discriminate|].
  destruct (p y); [trivial | exact IH].
Qed.

(** What [ensureUserWallet] does, by the wallet it finds. *)
Lemma ensureUserWallet_run fresh userId d :
  userId <> "" ->
  ensureUserWallet fresh userId d
  = match first_match (fun w => String.eqb (wallet_userId w) userId) (wallets d) with
    | Some w => (Ok w, d)
    | None =>
        let created := {| wallet_id := fresh; wallet_userId := userId; balance := Num 0 |} in
        (Ok created, with_wallets (wallets d ++ [created]) d)
    end.
Proof.
  intros Hid. apply String.eqb_neq in Hid.
  unfold ensureUserWallet, getUserWallet. rewrite Hid.
  unfold bind, get, ret, modify.
  now destruct (first_match _ (wallets d)).
Qed.

Lemma ensureUserWallet_wallet fresh userId d w d' :
  ensureUserWallet fresh userId d = (Ok w, d') ->
  userId <> "" /\ getUserWallet userId d' = (Ok (Some w), d') /\ users d' = users d.
Proof.
  intros Hrun.
  assert (Hid : userId <> "").
  { intros ->. discriminate Hrun. }
  split; [exact Hid|].
  rewrite (ensureUserWallet_run _ _ _ Hid) in Hrun.
  unfold getUserWallet. apply String.eqb_neq in Hid. rewrite Hid.
  unfold bind, get, ret.
  destruct (first_match _ (wallets d)) as [w0|] eqn:Hfind.
  - injection Hrun as <- <-. now rewrite Hfind.
  - cbn zeta in Hrun. injection Hrun as <- <-. cbn [wallets with_wallets users].
    unfold first_match in *. rewrite (find_app_none _ _ _ Hfind). cbn [wallet_userId].
    now rewrite String.eqb_refl.
Qed.

Lemma createUser_found fresh_user fresh_wallet tid firstName lastName username d u d' :
  createUser fresh_user fresh_wallet tid firstName lastName username d = (Ok u, d') ->
  arg_missing tid = false /\
  telegramId u = arg_toString tid /\
  getUserByTelegramId tid d' = (Ok (Some u), d') /\
  exists w, getUserWallet (user_id u) d' = (Ok (Some w), d').
Proof.
  unfold createUser.
  destruct (arg_missing tid) eqn:Hmissing; [discriminate|].
  destruct (String.eqb firstName ""); [discriminate|]. cbn [orb].
  unfold getUserByTelegramId. rewrite Hmissing.
  unfold bind at 1. unfold bind at 1. unfold get, ret.
  destruct (first_match _ (users d)) as [existing|] eqn:Hfind.
  - unfold bind.
    destruct (ensureUserWallet fresh_wallet (user_id existing) d) as [[w|err] d1] eqn:Hensure;
      [|discriminate].
    intros [= <- <-].
    apply ensureUserWallet_wallet in Hensure as (_ & Hwallet & Husers).
    split; [reflexivity|]. split.
    { apply first_match_In in Hfind as [_ Hp]. now apply String.eqb_eq in Hp. }
    split; [|now exists w].
    now rewrite Husers, Hfind.
  - unfold bind, modify.
    match goal with
    | |- context [ensureUserWallet ?f ?i ?s] =>
        destruct (ensureUserWallet f i s) as [[w|err] d1] eqn:Hensure; [|discriminate]
    end.
    intros [= <- <-].
    apply ensureUserWallet_wallet in Hensure as (_ & Hwallet & Husers).
    cbn [user_id telegramId] in *.
    split; [reflexivity|]. split; [reflexivity|]. split; [|now exists w].
    rewrite Husers. cbn [users with_users].
    unfold first_match in *. rewrite (find_app_none _ _ _ Hfind). cbn [telegramId].
    now rewrite String.eqb_refl.
Qed.

End Accounts.

(** X1.  A user [createUser] returns is registered: the store finds it by the
    Telegram id of the call, and it owns a wallet. *)
Theorem createUser_registers
    (fresh_user fresh_wallet : string) (tid : Database.telegram_arg)
    (firstName lastName username : string) (d d' : Database.t) (u : Database.user) :
  Database.createUser fresh_user fresh_wallet tid firstName lastName username d = (Js.Ok u, d') ->
  Database.telegramId u = Database.arg_toString tid /\
  Database.getUserByTelegramId tid d' = (Js.Ok (Some u), d') /\
  exists w, Database.getUserWallet (Database.user_id u) d' = (Js.Ok (Some w), d').
Proof.
  intros Hrun. now apply createUser_found in Hrun as (_ & Hid & Huser & Hwallet).
Qed.

Lemma createUser_registers_witness :
  Database.telegramId {| Database.user_id := "u2"; Database.telegramId := "77" |}
  = Database.arg_toString (Database.ArgNumber 77) /\
  Database.getUserByTelegramId (Database.ArgNumber 77)
    (snd (Database.createUser "u2" "w2" (Database.ArgNumber 77) "Bola" "" "" Samples.store))
  = (Js.Ok (Some {| Database.user_id := "u2"; Database.telegramId := "77" |}),
     snd (Database.createUser "u2" "w2" (Database.ArgNumber 77) "Bola" "" "" Samples.store)) /\
  exists w,
    Database.getUserWallet "u2"
      (snd (Database.createUser "u2" "w2" (Database.ArgNumber 77) "Bola" "" "" Samples.store))
    = (Js.Ok (Some w),
       snd (Database.createUser "u2" "w2" (Database.ArgNumber 77) "Bola" "" "" Samples.store)).
Proof.
  apply (createUser_registers "u2" "w2" (Database.ArgNumber 77) "Bola" "" "" Samples.store).
  reflexivity.
Defined.

(** X2.  Registering again changes nothing: once [createUser] has returned a
    user, every later call for the same Telegram id returns that user and
    leaves the store as it is, whatever the names and the fresh ids. *)
Theorem createUser_twice
    (fresh_user fresh_wallet fresh_user' fresh_wallet' : string) (tid : Database.telegram_arg)
    (firstName lastName username firstName' lastName' username' : string)
    (d d' : Database.t) (u : Database.user) :
  Database.createUser fresh_user fresh_wallet tid firstName lastName username d = (Js.Ok u, d') ->
  firstName' <> "" ->
  Database.createUser fresh_user' fresh_wallet' tid firstName' lastName' username' d'
  = (Js.Ok u, d').
Proof.
  intros Hrun Hname.
  apply createUser_found in Hrun as (Hmissing & _ & Huser & w & Hwallet).
  apply String.eqb_neq in Hname.
  unfold Database.createUser. rewrite Hmissing, Hname. cbn [orb].
  unfold Eff.bind at 1. rewrite Huser.
  unfold Eff.bind.
  assert (Hid : Database.user_id u <> "").
  { intros Hempty. unfold Database.getUserWallet in Hwallet. rewrite Hempty in Hwallet.
    discriminate Hwallet. }
  rewrite (ensureUserWallet_run _ _ _ Hid).
  unfold Database.getUserWallet in Hwallet. apply String.eqb_neq in Hid. rewrite Hid in Hwallet.
  unfold Eff.bind, Eff.get, Eff.ret in Hwallet. injection Hwallet as ->.
  reflexivity.
Qed.

Lemma createUser_twice_witness :
  Database.createUser "u3" "w3" (Database.ArgNumber 77) "B." "A." "bola"
    (snd (Database.createUser "u2" "w2" (Database.ArgNumber 77) "Bola" "" "" Samples.store))
  = (Js.Ok {| Database.user_id := "u2"; Database.telegramId := "77" |},
     snd (Database.createUser "u2" "w2" (Database.ArgNumber 77) "Bola" "" "" Samples.store)).
Proof.
  apply (createUser_twice "u2" "w2" "u3" "w3" (Database.ArgNumber 77) "Bola" "" "" "B." "A." "bola"
           Samples.store).
  - reflexivity.
  - discriminate.
Defined.

Section AccountsKept.
Import Js Eff Database.

Lemma ensureUserWallet_adds fresh userId d :
  let d' := snd (ensureUserWallet fresh userId d) in
  users d' = users d /\ transactions d' = transactions d /\
  exists ws, wallets d' = (wallets d ++ ws)%list /\ (length ws <= 1)%nat /\
             Forall (fun w => balance w = Num 0 /\ wallet_userId w = userId) ws.
Proof.
  cbn zeta.
  assert (Hsame : users d = users d /\ transactions d = transactions d /\
    exists ws, wallets d = (wallets d ++ ws)%list /\ (length ws <= 1)%nat /\
               Forall (fun w => balance w = Num 0 /\ wallet_userId w = userId) ws).
  { split; [reflexivity|]. split; [reflexivity|]. exists []. rewrite app_nil_r.
    split; [reflexivity|]. split; [cbn; lia | constructor]. }
  destruct (String.eqb_spec userId "") as [->|Hid]; [exact Hsame|].
  rewrite (ensureUserWallet_run _ _ _ Hid).
  destruct (first_match _ (wallets d)); [exact Hsame|].
  cbn. split; [reflexivity|]. split; [reflexivity|].
  eexists [_]. split; [reflexivity|]. split; [cbn; lia|].
  repeat constructor.
Qed.

Lemma createUser_adds fresh_user fresh_wallet tid firstName lastName username d o d' :
  createUser fresh_user fresh_wallet tid firstName lastName username d = (o, d') ->
  transactions d' = transactions d /\
  exists us ws,
    users d' = (users d ++ us)%list /\
    wallets d' = (wallets d ++ ws)%list /\
    (length us <= 1)%nat /\ (length ws <= 1)%nat /\
    Forall (fun u => telegramId u = arg_toString tid) us /\
    Forall (fun w => balance w = Num 0) ws.
Proof.
  assert (Hsame : transactions d = transactions d /\
    exists us ws,
      users d = (users d ++ us)%list /\
      wallets d = (wallets d ++ ws)%list /\
      (length us <= 1)%nat /\ (length ws <= 1)%nat /\
      Forall (fun u => telegramId u = arg_toString tid) us /\
      Forall (fun w => balance w = Num 0) ws).
  { split; [reflexivity|]. exists [], []. rewrite !app_nil_r.
    split; [reflexivity|]. split; [reflexivity|]. split; [cbn; lia|]. split; [cbn; lia|].
    split; constructor. }
  unfold createUser.
  destruct (arg_missing tid) eqn:Hmissing; [now intros [= <- <-]|].
  destruct (String.eqb firstName ""); [now intros [= <- <-]|]. cbn [orb].
  unfold getUserByTelegramId. rewrite Hmissing.
  unfold bind at 1. unfold bind at 1. unfold get, ret.
  destruct (first_match _ (users d)) as [existing|].
  - unfold bind.
    pose proof (ensureUserWallet_adds fresh_wallet (user_id existing) d) as Hadds.
    cbn zeta in Hadds.
    destruct (ensureUserWallet fresh_wallet (user_id existing) d) as [[w|err] d1];
      cbn [snd] in Hadds; intros [= <- <-];
      destruct Hadds as (Hu & Ht & ws & Hw & Hlen & Hbal);
      (split; [exact Ht|]); exists [], ws; rewrite app_nil_r;
      (split; [exact Hu|]); (split; [exact Hw|]); (split; [cbn; lia|]);
      (split; [exact Hlen|]); (split; [constructor|]);
      (eapply List.Forall_impl; [|exact Hbal]); now intros ? [? _].
  - unfold bind, modify.
    match goal with
    | |- context [ensureUserWallet ?f ?i ?s] =>
        pose proof (ensureUserWallet_adds f i s) as Hadds; cbn zeta in Hadds;
        destruct (ensureUserWallet f i s) as [[w|err] d1]
    end; cbn [snd] in Hadds; intros [= <- <-];
      destruct Hadds as (Hu & Ht & ws & Hw & Hlen & Hbal);
      cbn [users wallets transactions with_users] in *;
      (split; [exact Ht|]); eexists [_], ws;
      (split; [exact Hu|]); (split; [exact Hw|]); (split; [cbn; lia|]);
      (split; [exact Hlen|]); (split; [repeat constructor|]);
      (eapply List.Forall_impl; [|exact Hbal]); now intros ? [? _].
Qed.

End AccountsKept.

(** X3.  Whatever [createUser] is called with and whether it returns or throws,
    it keeps every user, every wallet with its balance and every
    transaction in place: it adds at most one user, with the Telegram id of
    the call, and at most one wallet, with balance 0. *)
Theorem createUser_keeps_accounts
    (fresh_user fresh_wallet : string) (tid : Database.telegram_arg)
    (firstName lastName username : string) (d : Database.t) :
  let d' :=
    snd (Database.createUser fresh_user fresh_wallet tid firstName lastName username d) in
  Database.transactions d' = Database.transactions d /\
  exists us ws,
    Database.users d' = (Database.users d ++ us)%list /\
    Database.wallets d' = (Database.wallets d ++ ws)%list /\
    (length us <= 1)%nat /\ (length ws <= 1)%nat /\
    Forall (fun u => Database.telegramId u = Database.arg_toString tid) us /\
    Forall (fun w => Database.balance w = Js.Num 0) ws.
Proof.
  cbn zeta.
  destruct (Database.createUser fresh_user fresh_wallet tid firstName lastName username d)
    as [o d'] eqn:Hrun.
  cbn [snd]. now apply createUser_adds in Hrun.
Qed.

(** ** The wallet ledger and the transaction records *)

Section Records.
Import Js Eff Database.

(** A transaction that [createTransaction] accepts is appended as written. *)
Lemma createTransaction_created env userId type amount details status d d' :
  createTransaction env userId type amount details status d = (Ok tt, d') ->
  truthy (prop details "reference") = true /\
  d' = with_transactions
         (transactions d ++
          [{| tx_id := unique env; tx_userId := userId; tx_type := type;
              tx_amount := toFixed2 amount; tx_reference := prop details "reference";
              tx_details := details; tx_status := status; tx_createdAt := now env |}]) d.
Proof.
  unfold createTransaction.
  destruct (String.eqb userId "" || falsy_number amount || String.eqb type ""); [discriminate|].
  destruct (truthy (prop details "reference")); [|discriminate].
  cbn. now intros [= <-].
Qed.

Lemma created_found_by_reference env userId type amount details status d d' reference :
  createTransaction env userId type amount details status d = (Ok tt, d') ->
  prop details "reference" = Str reference ->
  exists x,
    findTransactionByReference reference d' = (Ok (Some x), d') /\
    tx_reference x = Str reference /\
    (fst (findTransactionByReference reference d) = Ok None ->
     x = {| tx_id := unique env; tx_userId := userId; tx_type := type;
            tx_amount := toFixed2 amount; tx_reference := Str reference;
            tx_details := details; tx_status := status; tx_createdAt := now env |}).
Proof.
  intros Hrun Href. apply createTransaction_created in Hrun as [_ ->].
  rewrite Href.
  unfold findTransactionByReference, bind, get, ret, first_match.
  cbn [transactions with_transactions fst].
  destruct (List.find (fun x => is_str (tx_reference x) reference) (transactions d))
    as [x|] eqn:Hfind.
  - exists x. rewrite (find_app_some _ _ _ _ Hfind).
    split; [reflexivity|]. split; [|discriminate].
    apply find_some in Hfind as [_ Hp]. now apply is_str_eq in Hp.
  - eexists. rewrite (find_app_none _ _ _ Hfind). cbn [tx_reference is_str].
    rewrite String.eqb_refl. split; [reflexivity|]. split; reflexivity.
Qed.

Lemma set_balance_ids id b ws :
  map wallet_id (set_balance id b ws) = map wallet_id ws /\
  map wallet_userId (set_balance id b ws) = map wallet_userId ws.
Proof.
  unfold set_balance. rewrite !map_map. split; apply map_ext; intros w;
    now destruct (String.eqb (wallet_id w) id).
Qed.

Lemma set_balance_other id b ws i w :
  ws !! i = Some w -> wallet_id w <> id -> set_balance id b ws !! i = Some w.
Proof.
  intros Hi Hne. unfold set_balance. rewrite list_lookup_fmap, Hi. cbn.
  apply String.eqb_neq in Hne. now rewrite Hne.
Qed.

(** What [updateWalletBalance] can do to the store. *)
Lemma updateWalletBalance_cases userId amount type d :
  (exists e,
     updateWalletBalance userId amount type d = (Throw e, d) /\
     (e = Error "Invalid userId or amount" \/ e = Error "Wallet not found"
      \/ e = Error "Insufficient balance"))
  \/ exists wl b,
       fst (getUserWallet userId d) = Ok (Some wl) /\
       b = toFixed2 (if String.eqb type "credit" then add (balance wl) amount
                     else sub (balance wl) amount) /\
       lt (if String.eqb type "credit" then add (balance wl) amount
           else sub (balance wl) amount) (Num 0) = false /\
       isNaN amount = false /\ lt amount (Num 0) = false /\
       updateWalletBalance userId amount type d
       = (Ok tt, with_wallets (set_balance (wallet_id wl) b (wallets d)) d).
Proof.
  unfold updateWalletBalance.
  destruct (String.eqb userId "") eqn:Hid; cbn [orb].
  { left. eexists. split; [reflexivity|]. now left. }
  destruct (isNaN amount) eqn:Hnan; cbn [orb].
  { left. eexists. split; [reflexivity|]. now left. }
  destruct (lt amount (Num 0)) eqn:Hneg.
  { left. eexists. split; [reflexivity|]. now left. }
  assert (Hneg' := Hneg).
  unfold getUserWallet. rewrite Hid. unfold bind, get, ret.
  destruct (first_match _ (wallets d)) as [wl|] eqn:Hfind.
  - clear Hneg.
    destruct (lt (if String.eqb type "credit" then add (balance wl) amount
                  else sub (balance wl) amount) (Num 0)) eqn:Hlow.
    + left. eexists. split; [reflexivity|]. now right; right.
    + right. exists wl, (toFixed2 (if String.eqb type "credit" then add (balance wl) amount
                                   else sub (balance wl) amount)).
      cbn. repeat split; try assumption; reflexivity.
  - left. eexists. split; [reflexivity|]. now right; left.
Qed.

End Records.

Section Latest.
Import Js Eff Database.

Lemma newest_first_cons x r :
  newest_first (x :: r) <->
  (forall y, In y r -> (tx_createdAt y <= tx_createdAt x)%N) /\ newest_first r.
Proof.
  unfold newest_first. split.
  - intros H. split.
    + intros y Hy. apply list_elem_of_In, list_elem_of_lookup in Hy as [j Hj].
      apply (H 0%nat (S j) x y); [lia | reflexivity | exact Hj].
    + intros i j a b Hij Hi Hj. apply (H (S i) (S j) a b); [lia | exact Hi | exact Hj].
  - intros [Hhead Htail] i j a b Hij Hi Hj.
    destruct i as [|i], j as [|j]; cbn in Hi, Hj; try lia.
    + injection Hi as <-. injection Hj as <-. lia.
    + injection Hi as <-. apply Hhead, list_elem_of_In, list_elem_of_lookup. now exists j.
    + apply (Htail i j a b); [lia | exact Hi | exact Hj].
Qed.

Lemma newest_first_insert x l : newest_first l -> newest_first (insert_desc x l).
Proof.
  induction l as [|y r IH]; intros Hl; cbn [insert_desc].
  - apply newest_first_cons. split; [intros ? []|]. intros i j a b _ Hi. destruct i; discriminate.
  - apply newest_first_cons in Hl as [Hhead Htail].
    destruct (tx_createdAt y <? tx_createdAt x)%N eqn:Hlt.
    + apply N.ltb_lt in Hlt. apply newest_first_cons. split.
      * intros z [<-|Hz]; [lia|]. specialize (Hhead z Hz). lia.
      * apply newest_first_cons. now split.
    + apply N.ltb_ge in Hlt. apply newest_first_cons. split.
      * intros z Hz. apply In_insert_desc in Hz as [->|Hz]; [exact Hlt | now apply Hhead].
      * now apply IH.
Qed.

Lemma newest_first_orderDesc l : newest_first (orderDesc_createdAt l).
Proof.
  induction l as [|x l IH]; cbn.
  - intros i j a b _ Hi. destruct i; discriminate.
  - now apply newest_first_insert.
Qed.

Lemma newest_first_split l1 l2 x y :
  newest_first (l1 ++ l2) -> In x l1 -> In y l2 -> (tx_createdAt y <= tx_createdAt x)%N.
Proof.
  intros H Hx Hy.
  apply list_elem_of_In, list_elem_of_lookup in Hx as [i Hi].
  apply list_elem_of_In, list_elem_of_lookup in Hy as [j Hj].
  apply (H i (length l1 + j)%nat x y).
  - apply lookup_lt_Some in Hi. lia.
  - now apply lookup_app_l_Some.
  - rewrite lookup_app_r by lia. now replace (length l1 + j - length l1)%nat with j by lia.
Qed.

Lemma getUserTransactions_newest userId limit d txs :
  fst (getUserTransactions userId limit d) = Ok txs ->
  (length txs <= limit)%nat /\
  (forall x, In x txs -> tx_userId x = userId /\ In x (transactions d)) /\
  newest_first txs /\
  (forall y, In y (transactions d) -> tx_userId y = userId ->
     In y txs \/ forall x, In x txs -> (tx_createdAt y <= tx_createdAt x)%N).
Proof.
  unfold getUserTransactions.
  destruct (String.eqb userId ""); [discriminate|].
  cbn. intros [= <-].
  set (mine := List.filter (fun x => String.eqb (tx_userId x) userId) (transactions d)).
  set (sorted := orderDesc_createdAt mine).
  pose proof (newest_first_orderDesc mine) as Hsorted. fold sorted in Hsorted.
  split; [rewrite length_take; lia|].
  split.
  { intros x Hx. apply In_take, In_orderDesc, filter_In in Hx as [Hin Hp].
    split; [now apply String.eqb_eq | exact Hin]. }
  split.
  { intros i j a b Hij Hi Hj.
    apply lookup_take_Some in Hi as [Hi _]. apply lookup_take_Some in Hj as [Hj _].
    now apply (Hsorted i j). }
  intros y Hy Hmine.
  assert (Hin : In y sorted).
  { apply In_orderDesc, filter_In. split; [exact Hy | now apply String.eqb_eq]. }
  rewrite <- (take_drop limit sorted) in Hin, Hsorted.
  apply in_app_or in Hin as [Hin|Hin]; [now left | right].
  intros x Hx. now apply (newest_first_split _ _ x y Hsorted).
Qed.

End Latest.

(** X4.  A transaction that [createTransaction] accepts can be read back by its
    reference: [findTransactionByReference] answers a transaction of that
    reference, and when the store held none before it is the one just
    written, with the amount rounded to cents. *)
Theorem created_transaction_found_by_reference
    (env : Js.ambient) (userId type : string) (amount : Js.number) (details : Js.value)
    (status reference : string) (d d' : Database.t) :
  Database.createTransaction env userId type amount details status d = (Js.Ok tt, d') ->
  Js.prop details "reference" = Js.Str reference ->
  exists x,
    Database.findTransactionByReference reference d' = (Js.Ok (Some x), d') /\
    Database.tx_reference x = Js.Str reference /\
    (fst (Database.findTransactionByReference reference d) = Js.Ok None ->
     x = {| Database.tx_id := Js.unique env; Database.tx_userId := userId;
            Database.tx_type := type; Database.tx_amount := Js.toFixed2 amount;
            Database.tx_reference := Js.Str reference; Database.tx_details := details;
            Database.tx_status := status; Database.tx_createdAt := Js.now env |}).
Proof. apply created_found_by_reference. Qed.

Lemma created_transaction_found_by_reference_witness :
  exists x,
    Database.findTransactionByReference "FUND_42_1700000000000"
      (snd (Database.createTransaction (Samples.at_time 1700000000000 "t1") "u1" "credit"
              (Js.Num 500) (Database.tx_details Samples.pending_funding) "pending"
              Samples.store))
    = (Js.Ok (Some x),
       snd (Database.createTransaction (Samples.at_time 1700000000000 "t1") "u1" "credit"
              (Js.Num 500) (Database.tx_details Samples.pending_funding) "pending"
              Samples.store)) /\
    Database.tx_reference x = Js.Str "FUND_42_1700000000000" /\
    (fst (Database.findTransactionByReference "FUND_42_1700000000000" Samples.store) = Js.Ok None ->
     x = {| Database.tx_id := "t1"; Database.tx_userId := "u1";
            Database.tx_type := "credit"; Database.tx_amount := Js.toFixed2 (Js.Num 500);
            Database.tx_reference := Js.Str "FUND_42_1700000000000";
            Database.tx_details := Database.tx_details Samples.pending_funding;
            Database.tx_status := "pending"; Database.tx_createdAt := 1700000000000%N |}).
Proof.
  apply (created_transaction_found_by_reference (Samples.at_time 1700000000000 "t1") "u1" "credit"
           (Js.Num 500) (Database.tx_details Samples.pending_funding)
           "pending" "FUND_42_1700000000000" Samples.store).
  - reflexivity.
  - reflexivity.
Defined.

(** X5.  [getUserTransactions] answers at most [limit] transactions, all of the
    user and all in the store, newest first, and leaves out none that is
    newer than one it lists. *)
Theorem transactions_listed_newest_first
    (userId : string) (limit : nat) (d : Database.t) (txs : list Database.transaction) :
  fst (Database.getUserTransactions userId limit d) = Js.Ok txs ->
  (length txs <= limit)%nat /\
  (forall x, In x txs -> Database.tx_userId x = userId /\ In x (Database.transactions d)) /\
  Database.newest_first txs /\
  (forall y, In y (Database.transactions d) -> Database.tx_userId y = userId ->
     In y txs \/ forall x, In x txs -> (Database.tx_createdAt y <= Database.tx_createdAt x)%N).
Proof. apply getUserTransactions_newest. Qed.

Lemma transactions_listed_newest_first_witness :
  (length (map Samples.other_funding [3; 2]%N) <= 2)%nat /\
  (forall x, In x (map Samples.other_funding [3; 2]%N) ->
     Database.tx_userId x = "u1" /\
     In x (map Samples.other_funding [1; 2; 3]%N)) /\
  Database.newest_first (map Samples.other_funding [3; 2]%N) /\
  (forall y, In y (map Samples.other_funding [1; 2; 3]%N) -> Database.tx_userId y = "u1" ->
     In y (map Samples.other_funding [3; 2]%N)
     \/ forall x, In x (map Samples.other_funding [3; 2]%N) ->
          (Database.tx_createdAt y <= Database.tx_createdAt x)%N).
Proof.
  apply (transactions_listed_newest_first "u1" 2
           (Database.with_transactions (map Samples.other_funding [1; 2; 3]%N) Samples.store)).
  vm_compute. reflexivity.
Defined.

(** X6.  [updateWalletBalance] writes to one wallet at most: it never touches
    users or transactions, never adds, removes or reassigns a wallet, and
    leaves every wallet with another id than the user's as it is; when it
    throws, the store is as before. *)
Theorem wallet_update_touches_one_wallet
    (userId : string) (amount : Js.number) (type : string) (d : Database.t) :
  let run := Database.updateWalletBalance userId amount type d in
  Database.users (snd run) = Database.users d /\
  Database.transactions (snd run) = Database.transactions d /\
  map Database.wallet_id (Database.wallets (snd run)) = map Database.wallet_id (Database.wallets d) /\
  map Database.wallet_userId (Database.wallets (snd run))
  = map Database.wallet_userId (Database.wallets d) /\
  (forall e, fst run = Js.Throw e -> snd run = d) /\
  (forall wl i w,
     fst (Database.getUserWallet userId d) = Js.Ok (Some wl) ->
     Database.wallets d !! i = Some w -> Database.wallet_id w <> Database.wallet_id wl ->
     Database.wallets (snd run) !! i = Some w).
Proof.
  cbn zeta.
  destruct (updateWalletBalance_cases userId amount type d)
    as [(e & -> & _)|(wl & b & Hget & _ & _ & _ & _ & ->)]; cbn [fst snd].
  - repeat split; trivial.
  - cbn [Database.users Database.transactions Database.wallets Database.with_wallets].
    destruct (set_balance_ids (Database.wallet_id wl) b (Database.wallets d)) as [Hids Howners].
    split; [reflexivity|]. split; [reflexivity|]. split; [exact Hids|]. split; [exact Howners|].
    split; [discriminate|].
    intros wl' i w Hget' Hi Hne. rewrite Hget in Hget'. injection Hget' as <-.
    now apply set_balance_other.
Qed.

(** ** The provider adapter in test mode *)

Section Simulation.
Import Js VTPass.

Lemma simulateTestResponse_delivered o data serviceID :
  prop data "serviceID" = Str serviceID ->
  Tables.inherited serviceID = false ->
  exists r,
    simulateTestResponse o data = Some r /\
    Bot.transactionStatus r = Ok "success" /\
    prop r "response_description" = Str "SUCCESS".
Proof.
  intros Hid Hown. unfold simulateTestResponse. rewrite Hid.
  unfold getProductName, Tables.lookup. rewrite Hown.
  destruct (List.find _ products) as [[key name]|]; eexists; (split; [reflexivity|]);
    split; reflexivity.
Qed.

Lemma simulateTestError_one_of random :
  (0 <= random)%Q -> (random < 1)%Q ->
  In (simulateTestError random) simulated_errors /\
  Bot.transactionStatus (simulateTestError random) = Ok "failed".
Proof.
  intros H0 H1. unfold simulateTestError.
  change (inject_Z (Z.of_nat (length simulated_errors))) with 3%Q.
  pose proof (Qfloor_le (random * 3)) as Hle.
  pose proof (Qlt_floor (random * 3)) as Hlt.
  rewrite inject_Z_plus in Hlt. change (inject_Z 1) with 1%Q in Hlt.
  assert (Hlow : (-1 < Qfloor (random * 3))%Z).
  { apply Z.lt_nge. intros Hneg. rewrite Zle_Qle in Hneg.
    change (inject_Z (-1)) with (-1)%Q in Hneg. lra. }
  assert (Hhigh : (Qfloor (random * 3) < 3)%Z).
  { rewrite Zlt_Qlt. change (inject_Z 3) with 3%Q. lra. }
  assert (Hcase : Qfloor (random * 3) = 0%Z \/ Qfloor (random * 3) = 1%Z
                  \/ Qfloor (random * 3) = 2%Z) by lia.
  destruct Hcase as [Hz | [Hz | Hz]]; rewrite Hz; cbn; auto.
Qed.

End Simulation.

(** X8.  In test mode a purchase request never reaches the provider: whatever
    the network would answer, [makeRequest("pay", ..)] returns the
    simulated response, which the handlers judge a success. *)
Theorem test_mode_purchase_is_delivered
    (o : VTPass.simulation) (random : Q) (http : Paystack.http_result)
    (data : Js.value) (serviceID : string) :
  Js.prop data "serviceID" = Js.Str serviceID ->
  Tables.inherited serviceID = false ->
  exists r,
    VTPass.makeRequest true o random http "pay" data = Some (Js.Ok r) /\
    VTPass.simulateTestResponse o data = Some r /\
    Bot.transactionStatus r = Js.Ok "success" /\
    Js.prop r "response_description" = Js.Str "SUCCESS".
Proof.
  intros Hid Hown.
  destruct (simulateTestResponse_delivered o data serviceID Hid Hown) as (r & Hr & Hs & Hd).
  exists r. unfold VTPass.makeRequest. cbn. rewrite Hr. auto.
Qed.

Lemma test_mode_purchase_is_delivered_witness :
  exists r,
    VTPass.makeRequest true
      {| VTPass.sim_transactionId := "1700000000000_a"; VTPass.sim_requestId := "1700000000000_b";
         VTPass.sim_processed := "2023-11-14T22:13:20.000Z";
         VTPass.sim_date := "2023-11-14T22:13:20.000Z" |}
      (1 # 2) (Paystack.HttpError (Some 500%nat)) "pay"
      (VTPass.airtime_request "1700000000000_c" "mtn" (Js.Num 100) (Some "08012345678"))
    = Some (Js.Ok r) /\
    VTPass.simulateTestResponse
      {| VTPass.sim_transactionId := "1700000000000_a"; VTPass.sim_requestId := "1700000000000_b";
         VTPass.sim_processed := "2023-11-14T22:13:20.000Z";
         VTPass.sim_date := "2023-11-14T22:13:20.000Z" |}
      (VTPass.airtime_request "1700000000000_c" "mtn" (Js.Num 100) (Some "08012345678"))
    = Some r /\
    Bot.transactionStatus r = Js.Ok "success" /\
    Js.prop r "response_description" = Js.Str "SUCCESS".
Proof.
  apply (test_mode_purchase_is_delivered _ (1 # 2) (Paystack.HttpError (Some 500%nat))
           (VTPass.airtime_request "1700000000000_c" "mtn" (Js.Num 100) (Some "08012345678"))
           "mtn").
  - reflexivity.
  - reflexivity.
Defined.

(** X9.  A request that fails on the network: in test mode [makeRequest] does
    not throw but returns one of the three simulated errors, each of which
    the handlers judge a failure; in live mode it throws
    ["Service temporarily unavailable"]. *)
Theorem failed_request_by_mode
    (isTestMode : bool) (o : VTPass.simulation) (random : Q) (status : option nat)
    (endpoint : string) (data : Js.value) :
  (0 <= random)%Q -> (random < 1)%Q ->
  isTestMode && String.eqb endpoint "pay" = false ->
  if isTestMode
  then exists r,
         VTPass.makeRequest isTestMode o random (Paystack.HttpError status) endpoint data
         = Some (Js.Ok r) /\
         In r VTPass.simulated_errors /\
         Bot.transactionStatus r = Js.Ok "failed"
  else VTPass.makeRequest isTestMode o random (Paystack.HttpError status) endpoint data
       = Some (Js.Throw (Js.Error "Service temporarily unavailable")).
Proof.
  intros H0 H1 Hpay. unfold VTPass.makeRequest. rewrite Hpay.
  destruct isTestMode; [|reflexivity].
  exists (VTPass.simulateTestError random). split; [reflexivity|].
  now apply simulateTestError_one_of.
Qed.

Lemma failed_request_by_mode_witness :
  (exists r,
     VTPass.makeRequest true
       {| VTPass.sim_transactionId := ""; VTPass.sim_requestId := "";
          VTPass.sim_processed := ""; VTPass.sim_date := "" |}
       (2 # 3) (Paystack.HttpError None) "merchant-verify" (Js.Obj [])
     = Some (Js.Ok r) /\
     In r VTPass.simulated_errors /\
     Bot.transactionStatus r = Js.Ok "failed") /\
  VTPass.makeRequest false
    {| VTPass.sim_transactionId := ""; VTPass.sim_requestId := "";
       VTPass.sim_processed := ""; VTPass.sim_date := "" |}
    (2 # 3) (Paystack.HttpError None) "pay" (Js.Obj [])
  = Some (Js.Throw (Js.Error "Service temporarily unavailable")).
Proof.
  split.
  - apply (failed_request_by_mode true _ (2 # 3) None "merchant-verify" (Js.Obj []));
      [lra | lra | reflexivity].
  - apply (failed_request_by_mode false _ (2 # 3) None "pay" (Js.Obj []));
      [lra | lra | reflexivity].
Defined.

(** ** The buttons of the keyboards *)

Section Running.
Import Js Eff Database Bot Handlers.

(** How the steps of [Bot] run on the world of [Handlers]. *)
Lemma bot_on_db {A} (m : M Database.t A) w :
  bot (on_db m) w
  = (fst (m (store w)),
     {| store := snd (m (store w)); sessions := sessions w; log := log w |}).
Proof.
  unfold bot, on_db, zoom. cbn. destruct (m (store w)) as [o d']. cbn.
  now rewrite app_nil_r.
Qed.

Lemma bot_emit e w :
  bot (emit e) w
  = (Ok tt, {| store := store w; sessions := sessions w; log := log w ++ [Did e] |}).
Proof. reflexivity. Qed.

Lemma bot_delete_session chatId w :
  bot (delete_session chatId) w
  = (Ok tt, {| store := store w; sessions := delete chatId (sessions w); log := log w |}).
Proof. unfold bot, delete_session, zoom, modify. cbn. now rewrite app_nil_r. Qed.

Lemma bot_assign chatId s w :
  bot (assign chatId s) w
  = (Ok tt,
     {| store := store w;
        sessions := match sessions w !! chatId with
                    | Some _ => <[chatId := s]> (sessions w)
                    | None => sessions w
                    end;
        log := log w |}).
Proof.
  unfold bot, assign, zoom, modify. cbn.
  destruct (sessions w !! chatId); cbn; now rewrite app_nil_r.
Qed.

Lemma bot_assign_entry chatId s old w :
  bot (assign chatId s) (with_entry chatId old w) = (Ok tt, with_entry chatId s w).
Proof.
  rewrite bot_assign. unfold with_entry. cbn.
  now rewrite lookup_insert_eq, insert_insert_eq.
Qed.

(** A callback query that is no cancellation runs the branch its data
    selects. *)
Lemma on_callback_query_selected now q w data branch :
  query_data q = Some data -> data <> "cancel_operation" ->
  selected q (touch_session now (query_chat q) (sessions w)) data = Some branch ->
  on_callback_query now q w
  = Some (snd (try_catch (act (AnswerCallbackQuery (query_id q)) ;; branch)%eff
                 (fun err => reply (query_chat q) SelectionFailed NoKeyboard)
                 (with_entry (query_chat q)
                    (touch_session now (query_chat q) (sessions w)) w))).
Proof.
  intros Hdata Hne Hbranch. unfold on_callback_query. rewrite Hdata.
  rewrite bool_decide_eq_false_2 by congruence.
  now rewrite Hbranch.
Qed.

(** The branch of a selection the tables know: the session is assigned,
    the message edited. *)
Lemma selection_stored chatId a0 s1 a h s0 w :
  snd (try_catch (act a0 ;; (bot (assign chatId s1) ;; act a))%eff h (with_entry chatId s0 w))
  = {| store := store w; sessions := <[chatId := s1]> (sessions w); log := (log w ++ [a0; a])%list |}.
Proof.
  unfold try_catch, bind. cbn [act modify].
  change {| store := store (with_entry chatId s0 w); sessions := sessions (with_entry chatId s0 w);
            log := (log (with_entry chatId s0 w) ++ [a0])%list |}
    with (with_entry chatId s0 {| store := store w; sessions := sessions w;
                                  log := (log w ++ [a0])%list |}).
  rewrite bot_assign_entry. cbn. now rewrite <- app_assoc.
Qed.

End Running.

(** X10.  Every button of the two network keyboards selects the network it
    shows: pressed, it is accepted by the callback handler, which stores
    the network of that name in the session of the chat, moves the session
    to the next stage of the flow (the amount for airtime, the phone number
    for data) and edits the message. *)
Theorem network_button_selects_its_network
    (now : N) (q : Handlers.callback) (w : Handlers.world) (b : Handlers.button) :
  Handlers.query_data q = Some (Handlers.callback_data b) ->
  let chat := Handlers.query_chat q in
  let session := Bot.touch_session now chat (Handlers.sessions w) in
  let selected next notice :=
    Handlers.on_callback_query now q w
    = Some {| Handlers.store := Handlers.store w;
              Handlers.sessions := <[chat := next]> (Handlers.sessions w);
              Handlers.log :=
                (Handlers.log w
                 ++ [Handlers.AnswerCallbackQuery (Handlers.query_id q);
                     Handlers.EditMessageText chat (Handlers.query_message q) notice])%list |} in
  (In b (concat (Handlers.getNetworkKeyboard "airtime")) -> b <> Handlers.cancel_button ->
   exists n,
     In n (map snd Handlers.SUPPORTED_NETWORKS) /\ Bot.net_name n = Handlers.button_text b /\
     selected
       (Bot.set_stage (Some "awaiting_airtime_amount") (Handlers.set_airtimeNetwork n session))
       (Handlers.SelectedNetworkEnterAmount (Handlers.button_text b))) /\
  (In b (concat (Handlers.getNetworkKeyboard "data")) -> b <> Handlers.cancel_button ->
   exists n,
     In n (map snd Handlers.SUPPORTED_NETWORKS) /\ Bot.net_name n = Handlers.button_text b /\
     selected
       (Bot.set_stage (Some "awaiting_data_phone") (Handlers.set_dataNetwork n session))
       (Handlers.SelectedNetworkEnterPhone (Handlers.button_text b))).
Proof.
  intros Hdata. cbn zeta. split; intros Hin Hne; cbn in Hin;
    repeat (destruct Hin as [<-|Hin]; [|]); try contradiction; try congruence;
    cbn [Handlers.callback_data Handlers.button_text] in *;
    (eexists; split; [|split; [|
       erewrite on_callback_query_selected; [|exact Hdata|discriminate|reflexivity];
       unfold Handlers.select_airtime_network, Handlers.select_data_network;
       cbn [List.find map snd Handlers.SUPPORTED_NETWORKS Bot.airtime_code String.eqb Ascii.eqb
            Bool.eqb];
       rewrite selection_stored; reflexivity]]);
    cbn; auto 10.
Qed.

Lemma network_button_selects_its_network_witness :
  exists n,
    In n (map snd Handlers.SUPPORTED_NETWORKS) /\ Bot.net_name n = "MTN" /\
    Handlers.on_callback_query 1700000000000 (Samples.presses "data_network_mtn")
      Samples.registered
    = Some {| Handlers.store := Samples.store;
              Handlers.sessions :=
                {[ 7%Z := Bot.set_stage (Some "awaiting_data_phone")
                            (Handlers.set_dataNetwork n (Bot.new_session 1700000000000)) ]};
              Handlers.log :=
                [Handlers.AnswerCallbackQuery "q1";
                 Handlers.EditMessageText 7 11 (Handlers.SelectedNetworkEnterPhone "MTN")] |}.
Proof.
  destruct (network_button_selects_its_network 1700000000000
              (Samples.presses "data_network_mtn") Samples.registered
              {| Handlers.button_text := "MTN"; Handlers.callback_data := "data_network_mtn" |}
              eq_refl) as [_ Hdata].
  apply Hdata; [cbn; auto | discriminate].
Defined.

(** X11.  Every button of the two provider keyboards selects the provider it
    shows: pressed, it is accepted by the callback handler, which stores
    the provider of that name with its code in the session of the chat,
    moves the session to the stage that waits for the meter or the smart
    card number and edits the message. *)
Theorem provider_button_selects_its_provider
    (now : N) (q : Handlers.callback) (w : Handlers.world) (b : Handlers.button) :
  Handlers.query_data q = Some (Handlers.callback_data b) ->
  let chat := Handlers.query_chat q in
  let session := Bot.touch_session now chat (Handlers.sessions w) in
  let selected next notice :=
    Handlers.on_callback_query now q w
    = Some {| Handlers.store := Handlers.store w;
              Handlers.sessions := <[chat := next]> (Handlers.sessions w);
              Handlers.log :=
                (Handlers.log w
                 ++ [Handlers.AnswerCallbackQuery (Handlers.query_id q);
                     Handlers.EditMessageText chat (Handlers.query_message q) notice])%list |} in
  (In b (concat Handlers.getElectricityProviderKeyboard) -> b <> Handlers.cancel_button ->
   exists code,
     In (code, Handlers.button_text b) Handlers.SUPPORTED_ELECTRICITY_PROVIDERS /\
     selected
       (Bot.set_stage (Some "awaiting_meter_number")
          (Handlers.set_electricityProvider
             {| Bot.prov_code := code; Bot.prov_name := Handlers.button_text b |} session))
       (Handlers.SelectedProviderEnterMeter (Handlers.button_text b))) /\
  (In b (concat Handlers.getTvProviderKeyboard) -> b <> Handlers.cancel_button ->
   exists p,
     In p (map snd Handlers.SUPPORTED_TV_PROVIDERS) /\ Bot.prov_name p = Handlers.button_text b /\
     selected
       (Bot.set_stage (Some "awaiting_card_number") (Handlers.set_tvProvider p session))
       (Handlers.SelectedProviderEnterCard (Handlers.button_text b))).
Proof.
  intros Hdata. cbn zeta. split; intros Hin Hne; cbn in Hin;
    repeat (destruct Hin as [<-|Hin]; [|]); try contradiction; try congruence;
    cbn [Handlers.callback_data Handlers.button_text] in *.
  1-3: eexists; split; [|
       erewrite on_callback_query_selected; [|exact Hdata|discriminate|reflexivity];
       rewrite selection_stored; reflexivity]; cbn; auto 10.
  all: eexists; split; [|split; [|
       erewrite on_callback_query_selected; [|exact Hdata|discriminate|reflexivity];
       rewrite selection_stored; reflexivity]]; cbn; auto 10.
Qed.

Lemma provider_button_selects_its_provider_witness :
  exists p,
    In p (map snd Handlers.SUPPORTED_TV_PROVIDERS) /\ Bot.prov_name p = "GOTV" /\
    Handlers.on_callback_query 1700000000000 (Samples.presses "tv_provider_gotv")
      Samples.registered
    = Some {| Handlers.store := Samples.store;
              Handlers.sessions :=
                {[ 7%Z := Bot.set_stage (Some "awaiting_card_number")
                            (Handlers.set_tvProvider p (Bot.new_session 1700000000000)) ]};
              Handlers.log :=
                [Handlers.AnswerCallbackQuery "q1";
                 Handlers.EditMessageText 7 11 (Handlers.SelectedProviderEnterCard "GOTV")] |}.
Proof.
  destruct (provider_button_selects_its_provider 1700000000000
              (Samples.presses "tv_provider_gotv") Samples.registered
              {| Handlers.button_text := "GOTV"; Handlers.callback_data := "tv_provider_gotv" |}
              eq_refl) as [_ Htv].
  apply Htv; [cbn; auto 10 | discriminate].
Defined.

(** ** The [/fund] command *)

Section FundCommand.
Import Js Eff Database Bot Handlers.

(** A text that reads as a [/fund] command once sanitized is not skipped
    by the handler. *)
Lemma fund_not_skipped text : fund_command (sanitize text) = true -> skipped text = false.
Proof.
  unfold skipped. destruct text as [|c1 text]; [discriminate|].
  cbn [String.eqb orb String.prefix].
  destruct (ascii_dec "/" c1) as [<-|Hc1]; [|reflexivity].
  destruct text as [|c2 text]; [reflexivity|].
  cbn [String.prefix].
  destruct (ascii_dec "s" c2) as [<-|Hs].
  { intros Hfund. vm_compute in Hfund. discriminate. }
  destruct (ascii_dec "c" c2) as [<-|Hc].
  { intros Hfund. vm_compute in Hfund. discriminate. }
  reflexivity.
Qed.

End FundCommand.

Section MessageRuns.
Import Js Eff Database Bot Handlers.

Lemma on_message_runs e msg w raw :
  text msg = Some raw -> skipped (trim raw) = false ->
  on_message e msg w
  = snd (try_catch
           (body e (chat_id msg) (from_id msg)
              (touch_session (now (clock (outside e))) (chat_id msg) (sessions w))
              (sanitize (trim raw)))
           (fun err => bot (reset (chat_id msg) err))
           (with_entry (chat_id msg)
              (touch_session (now (clock (outside e))) (chat_id msg) (sessions w)) w)).
Proof. intros Htext Hskip. unfold on_message. now rewrite Htext, Hskip. Qed.

(** At a stage that reads no input the handler goes on to the [/fund]
    command and the menu. *)
Lemma body_at_menu e chatId userId session sanitizedText :
  at_menu session = true ->
  body e chatId userId session sanitizedText
  = (let* returned :=
       if fund_command sanitizedText then fund e chatId userId sanitizedText else ret false in
     if returned then ret tt else menu chatId userId session sanitizedText)%eff.
Proof.
  unfold at_menu, input_stages. cbn [forallb]. rewrite !andb_true_iff, !negb_true_iff.
  intros (H1 & H2 & H3 & H4 & H5 & H6 & H7 & H8 & H9 & H10 & H11 & H12 & _).
  unfold body. now rewrite H1, H2, H3, H4, H5, H6, H7, H8, H9, H10, H11, H12.
Qed.

Lemma bot_on_db_run {A} (m : M Database.t A) d ss l o d' :
  m d = (o, d') ->
  bot (on_db m) {| store := d; sessions := ss; log := l |}
  = (o, {| store := d'; sessions := ss; log := l |}).
Proof. intros Hrun. rewrite bot_on_db. cbn. now rewrite Hrun. Qed.

(** A text that starts a [/fund] command is no button of the menu. *)
Lemma fund_command_menu chatId userId session sanitizedText :
  fund_command sanitizedText = true ->
  menu chatId userId session sanitizedText
  = if negb (truthy (value_of (stage session))) then reply chatId UnknownCommand NoKeyboard
    else ret tt.
Proof.
  intros Hfund. unfold menu.
  destruct sanitizedText as [|c text]; [discriminate|].
  unfold fund_command in Hfund. cbn [drop_prefix] in Hfund.
  destruct (Ascii.eqb_spec "/" c) as [<-|Hc]; [|discriminate].
  reflexivity.
Qed.

End MessageRuns.

(** X12.  [/fund <amount>] with an amount of 100 or more (of at most two
    decimals and at most a million millions, so that the binary number of
    the code rounds to the same cents), sent by a registered user whose
    chat waits at no input stage, when the gateway returns a payment link:
    the handler records one pending credit of the amount under the
    reference [FUND_<telegramId>_<time>], with the time at which the
    reference is made, and stamps the record when it is written; it sends
    the link, starts the poll of the payment in test mode only, and then,
    because the block does not return, falls through to the end of the
    menu, where a chat without a stage is also told that the command is
    unknown. *)
Theorem fund_command_records_a_pending_funding
    (e : Handlers.env) (msg : Bot.incoming) (w : Handlers.world) (raw : string)
    (a : Q) (u : Database.user) (response : Js.value) :
  let chat := Bot.chat_id msg in
  let now := Js.now (Bot.clock (Handlers.outside e)) in
  let session := Bot.touch_session now chat (Handlers.sessions w) in
  let reference :=
    Reference.make Reference.FUND (Database.telegramId u) (Handlers.reference_now e) in
  let email := (Database.telegramId u +:+ "@example.com")%string in
  let authUrl := Js.prop (Js.prop response "data") "authorization_url" in
  Bot.text msg = Some raw ->
  Handlers.fund_command (Js.sanitize (Js.trim raw)) = true ->
  Handlers.fund_amount (Js.sanitize (Js.trim raw)) = Js.Num a ->
  (100 <= a)%Q -> (a <= 1000000000000)%Q -> (Js.toFixed2_Q a == a)%Q ->
  Handlers.at_menu session = true ->
  fst (Database.getUserByTelegramId (Database.ArgNumber (Bot.from_id msg)) (Handlers.store w))
  = Js.Ok (Some u) ->
  Database.user_id u <> "" ->
  Paystack.result
    (Paystack.initializePayment email (Js.Num a) reference (Handlers.initialize_answers e))
  = Js.Ok response ->
  Js.truthy authUrl = true ->
  Handlers.on_message e msg w
  = {| Handlers.store :=
         Database.with_transactions
           (Database.transactions (Handlers.store w)
            ++ [{| Database.tx_id := Js.unique (Handlers.record_clock e);
                   Database.tx_userId := Database.user_id u;
                   Database.tx_type := "credit";
                   Database.tx_amount := Js.Num (Js.toFixed2_Q a);
                   Database.tx_reference := Js.Str reference;
                   Database.tx_details :=
                     Js.Obj [("reference", Js.Str reference); ("method", Js.Str "paystack")];
                   Database.tx_status := "pending";
                   Database.tx_createdAt := Js.now (Handlers.record_clock e) |}])%list
           (Handlers.store w);
       Handlers.sessions := <[chat := session]> (Handlers.sessions w);
       Handlers.log :=
         (Handlers.log w
          ++ [Handlers.InitializePayment email (Js.Num a) reference;
              Handlers.Reply chat (Handlers.FundLink (Js.Num a) authUrl) Handlers.NoKeyboard]
          ++ (if Handlers.isTestMode e
              then [Handlers.PollPaymentStatus reference (Bot.from_id msg) (Js.Num a) chat]
              else [])
          ++ (if Js.truthy (Bot.value_of (Bot.stage session)) then []
              else [Handlers.Reply chat Handlers.UnknownCommand Handlers.NoKeyboard]))%list |}.
Proof.
  cbn zeta. intros Htext Hfund Hamount Ha _ _ Hidle Huser Hid Hinit Hurl.
  rewrite (on_message_runs e msg w raw Htext (fund_not_skipped _ Hfund)).
  rewrite (body_at_menu _ _ _ _ _ Hidle), Hfund.
  pose proof (run_eq _ _ _ Huser (getUserByTelegramId_reads _ _)) as Huser'.
  assert (Hfalsy : Js.falsy_number (Js.Num a) = false).
  { cbn. apply not_true_iff_false. intros Heq. apply Qeq_bool_iff in Heq. lra. }
  destruct w as [d ss l]; cbn [Handlers.store Handlers.sessions Handlers.log] in *.
  unfold Handlers.with_entry; cbn [Handlers.store Handlers.sessions Handlers.log].
  set (session := Bot.touch_session _ _ ss) in *.
  set (reference := Reference.make _ _ _) in *.
  assert (Hblock :
    Handlers.fund e (Bot.chat_id msg) (Bot.from_id msg) (Js.sanitize (Js.trim raw))
      {| Handlers.store := d; Handlers.sessions := <[Bot.chat_id msg := session]> ss;
         Handlers.log := l |}
    = (Js.Ok false,
       {| Handlers.store :=
            Database.with_transactions
              (Database.transactions d
               ++ [{| Database.tx_id := Js.unique (Handlers.record_clock e);
                      Database.tx_userId := Database.user_id u;
                      Database.tx_type := "credit";
                      Database.tx_amount := Js.toFixed2 (Js.Num a);
                      Database.tx_reference :=
                        Js.prop (Js.Obj [("reference", Js.Str reference);
                                         ("method", Js.Str "paystack")]) "reference";
                      Database.tx_details :=
                        Js.Obj [("reference", Js.Str reference); ("method", Js.Str "paystack")];
                      Database.tx_status := "pending";
                      Database.tx_createdAt := Js.now (Handlers.record_clock e) |}])%list
              d;
          Handlers.sessions := <[Bot.chat_id msg := session]> ss;
          Handlers.log :=
            ((l ++ [Handlers.InitializePayment (Database.telegramId u +:+ "@example.com")
                      (Js.Num a) reference])
             ++ [Handlers.Reply (Bot.chat_id msg)
                   (Handlers.FundLink (Js.Num a)
                      (Js.prop (Js.prop response "data") "authorization_url"))
                   Handlers.NoKeyboard])
            ++ (if Handlers.isTestMode e
                then [Handlers.PollPaymentStatus reference (Bot.from_id msg) (Js.Num a)
                        (Bot.chat_id msg)]
                else [])%list |})).
  { unfold Handlers.fund. rewrite Hamount. cbn [Js.isNaN orb Js.lt].
    replace (Js.Qltb a 100) with false by (symmetry; now apply Qltb_false_iff).
    eapply try_catch_ok.
    step_by ltac:(apply bot_on_db_run; exact Huser').
    step. step.
    step_by ltac:(unfold Eff.lift; fold reference; rewrite Hinit; reflexivity).
    fold reference. rewrite Hurl. cbn [negb].
    step_by ltac:(apply bot_on_db_run, createTransaction_written;
                  [exact Hid | discriminate | exact Hfalsy | reflexivity]).
    step.
    destruct (Handlers.isTestMode e); cbn; [reflexivity|].
    now rewrite app_nil_r. }
  unfold Eff.try_catch at 1. unfold Eff.bind at 1. rewrite Hblock. cbv beta iota.
  rewrite (fund_command_menu _ _ _ _ Hfund).
  cbn [Js.prop Js.assoc String.eqb Ascii.eqb Bool.eqb Js.toFixed2].
  destruct (Js.truthy (Bot.value_of (Bot.stage session)));
    cbn; rewrite <- ?app_assoc; cbn; rewrite ?app_nil_r; reflexivity.
Qed.

Lemma fund_command_records_a_pending_funding_witness :
  exists w',
    Handlers.on_message (Samples.surroundings false) (Samples.says "/fund 500")
      Samples.registered = w' /\
    map Database.tx_status (Database.transactions (Handlers.store w')) = ["pending"] /\
    map Database.tx_reference (Database.transactions (Handlers.store w'))
    = [Js.Str "FUND_42_1700000100002"] /\
    map Database.tx_createdAt (Database.transactions (Handlers.store w'))
    = [1700000100350%N] /\
    last (Handlers.log w')
    = Some (Handlers.Reply 7 Handlers.UnknownCommand Handlers.NoKeyboard).
Proof.
  eexists. split.
  - eapply (fund_command_records_a_pending_funding (Samples.surroundings false)
              (Samples.says "/fund 500") Samples.registered "/fund 500" 500 Samples.alice).
    + reflexivity.
    + reflexivity.
    + reflexivity.
    + unfold Qle. cbn. lia.
    + unfold Qle. cbn. lia.
    + reflexivity.
    + reflexivity.
    + reflexivity.
    + discriminate.
    + vm_compute. reflexivity.
    + reflexivity.
  - split; [reflexivity|]. split; [reflexivity|]. split; reflexivity.
Defined.

(** ** The reference of a funding *)

Section Decimal.
Import Js.

(** What holds of a string and is kept when a digit is put in front of it
    holds of the decimal print of a number. *)
Lemma pretty_N_go_digits (P : string -> Prop) :
  (forall c s, is_digit c = true -> P s -> P (String c s)) ->
  forall x s, P s -> P (pretty_N_go x s).
Proof.
  intros Hdigit x. induction (N.lt_wf_0 x) as [x _ IH]. intros s Hs.
  destruct (N.eq_dec x 0%N) as [->|Hx]; [exact Hs|].
  rewrite pretty_N_go_step by lia.
  apply IH; [apply N.div_lt; lia|].
  apply Hdigit; [|exact Hs].
  unfold pretty_N_char. now repeat case_match.
Qed.

Lemma all_chars_impl (p q : ascii -> bool) s :
  (forall c, p c = true -> q c = true) -> all_chars p s = true -> all_chars q s = true.
Proof.
  intros Hpq. induction s as [|c s IH]; cbn; [reflexivity|].
  rewrite !andb_true_iff. intros [Hc Hs]. auto.
Qed.

Lemma digit_no_underscore c : is_digit c = true -> negb (Ascii.eqb c "_") = true.
Proof.
  destruct (Ascii.eqb_spec c "_") as [->|]; [discriminate | reflexivity].
Qed.

Lemma pretty_N_free (x : N) : has_char "_" (pretty x) = false /\ pretty x <> "".
Proof.
  unfold pretty, pretty_N. destruct (decide (x = 0%N)) as [->|Hx]; [now split|].
  rewrite pretty_N_go_step by lia. split.
  - unfold has_char. apply negb_false_iff.
    apply (pretty_N_go_digits (fun s => all_chars (fun d => negb (Ascii.eqb d "_")) s = true)).
    + intros c s Hc Hs. cbn. now rewrite (digit_no_underscore c Hc).
    + cbn. rewrite andb_true_r. apply digit_no_underscore.
      unfold pretty_N_char. now repeat case_match.
  - apply (pretty_N_go_digits (fun s => s <> "")); discriminate.
Qed.

(** The decimal print of an integer holds no underscore and is not empty. *)
Lemma pretty_Z_free (z : Z) : has_char "_" (pretty z) = false /\ pretty z <> "".
Proof.
  destruct z as [|p|p]; [now split | apply pretty_N_free|].
  unfold pretty, pretty_Z.
  destruct (pretty_N_free (Npos p)) as [Hfree _]. split; [|discriminate].
  unfold has_char in *. cbn. exact Hfree.
Qed.

End Decimal.

(** X13.  The reference of a funding leads back to the user who asked for it:
    for the user the [/fund] command finds by the number [msg.from.id], the
    part of the reference [FUND_<telegramId>_<now>] that the webhook cuts
    out with [split("_")[1]] is the Telegram id of that user, and looking
    it up finds the same user. *)
Theorem funding_reference_names_its_user
    (userId : Z) (now : N) (d : Database.t) (u : Database.user) :
  fst (Database.getUserByTelegramId (Database.ArgNumber userId) d) = Js.Ok (Some u) ->
  let reference := Reference.make Reference.FUND (Database.telegramId u) now in
  Reference.user_part reference = Some (Database.telegramId u) /\
  Reconcile.user_of_reference (Js.Str reference)
  = Js.Ok (reference, Database.ArgString (Database.telegramId u)) /\
  Database.getUserByTelegramId (Database.ArgString (Database.telegramId u)) d
  = (Js.Ok (Some u), d).
Proof.
  intros Huser. cbn zeta.
  unfold Database.getUserByTelegramId in Huser.
  destruct (Database.arg_missing (Database.ArgNumber userId)) eqn:Hmissing; [discriminate|].
  cbn in Huser. injection Huser as Hfind.
  pose proof Hfind as Hu. apply first_match_In in Hu as [_ Hu]. apply String.eqb_eq in Hu.
  destruct (pretty_Z_free userId) as [Hfree Hnonempty].
  assert (Hpart : Reference.user_part
                    (Reference.make Reference.FUND (Database.telegramId u) now)
                  = Some (Database.telegramId u)).
  { unfold Reference.user_part.
    change (Reference.make Reference.FUND (Database.telegramId u) now)
      with ("FUND" +:+ String "_" (Database.telegramId u +:+ String "_" (pretty now))).
    rewrite (split_piece "_" "FUND" _ eq_refl).
    rewrite Hu. now rewrite (split_piece "_" (pretty userId) (pretty now) Hfree). }
  split; [exact Hpart|]. split.
  - unfold Reconcile.user_of_reference. now rewrite Hpart.
  - unfold Database.getUserByTelegramId. cbn [Database.arg_missing Database.arg_toString] in *.
    rewrite Hu. apply String.eqb_neq in Hnonempty. rewrite Hnonempty.
    unfold Eff.bind, Eff.get, Eff.ret. now rewrite Hfind.
Qed.

Lemma funding_reference_names_its_user_witness :
  Reference.user_part (Reference.make Reference.FUND "42" 1700000000000) = Some "42" /\
  Reconcile.user_of_reference (Js.Str (Reference.make Reference.FUND "42" 1700000000000))
  = Js.Ok (Reference.make Reference.FUND "42" 1700000000000, Database.ArgString "42") /\
  Database.getUserByTelegramId (Database.ArgString "42") Samples.store
  = (Js.Ok (Some Samples.alice), Samples.store).
Proof.
  apply (funding_reference_names_its_user 42 1700000000000 Samples.store Samples.alice).
  reflexivity.
Defined.

(** ** The poll of a funding *)

Section Newest.
Import Js Eff Database Bot Reconcile.

(** A document appended to the collection that is at least as new as the
    others is listed first. *)
Lemma orderDesc_newest r l :
  (forall y, In y l -> (tx_createdAt y <= tx_createdAt r)%N) ->
  orderDesc_createdAt (l ++ [r]) = r :: orderDesc_createdAt l.
Proof.
  unfold orderDesc_createdAt. induction l as [|y l IH]; intros Hnew; [reflexivity|].
  cbn [app foldr]. rewrite IH by (intros z Hz; apply Hnew; now right).
  cbn [insert_desc].
  replace (tx_createdAt r <? tx_createdAt y)%N with false; [reflexivity|].
  symmetry. apply N.ltb_ge. apply Hnew. now left.
Qed.

Lemma getUserTransactions_newest_first userId limit d r :
  userId <> "" -> tx_userId r = userId ->
  (forall y, In y (transactions d) -> tx_userId y = userId ->
     (tx_createdAt y <= tx_createdAt r)%N) ->
  fst (getUserTransactions userId (S limit)
         (with_transactions (transactions d ++ [r]) d))
  = Ok (r :: take limit
               (orderDesc_createdAt
                  (List.filter (fun x => String.eqb (tx_userId x) userId) (transactions d)))).
Proof.
  intros Hid Hr Hnew. apply String.eqb_neq in Hid.
  unfold getUserTransactions. rewrite Hid. cbn [bind get ret fst transactions with_transactions].
  unfold bind, get, ret. cbn [fst transactions with_transactions].
  rewrite List.filter_app. cbn [List.filter]. rewrite Hr, String.eqb_refl.
  rewrite orderDesc_newest; [reflexivity|].
  intros y Hy. apply filter_In in Hy as [Hin Hp]. apply String.eqb_eq in Hp. auto.
Qed.

(** The lookups of users and wallets do not depend on the transactions. *)
Lemma getUserByTelegramId_transactions a txs d :
  fst (getUserByTelegramId a (with_transactions txs d)) = fst (getUserByTelegramId a d).
Proof. unfold getUserByTelegramId. now destruct (arg_missing a). Qed.

Lemma getUserWallet_transactions userId txs d :
  fst (getUserWallet userId (with_transactions txs d)) = fst (getUserWallet userId d).
Proof. unfold getUserWallet. now destruct (String.eqb userId ""). Qed.

End Newest.

(** X14.  The funding a [/fund] command has recorded is settled by the poll.
    The record carries the reference [FUND_<telegramId>_<now>] and was
    stamped at [created], whenever that was; on the tick at which the
    gateway reports the payment as successful, when every other
    transaction of the user is older than the record, the poll finds the
    record among the latest ten, credits the wallet with the amount,
    rounded to cents, sets the record to ["success"], tells the user,
    deletes the session and stops. *)
Theorem pending_funding_settled_by_poll
    (maxAttempts : nat) (userId chatId : Z) (now created : N) (id : string)
    (verify : nat -> Paystack.http_result) (e : Js.ambient) (p : Reconcile.polling)
    (d : Database.t) (u : Database.user) (wl : Database.wallet) (q a : Q) :
  let reference := Reference.make Reference.FUND (Database.telegramId u) now in
  let record :=
    {| Database.tx_id := id; Database.tx_userId := Database.user_id u;
       Database.tx_type := "credit"; Database.tx_amount := Js.Num (Js.toFixed2_Q a);
       Database.tx_reference := Js.Str reference;
       Database.tx_details :=
         Js.Obj [("reference", Js.Str reference); ("method", Js.Str "paystack")];
       Database.tx_status := "pending"; Database.tx_createdAt := created |} in
  Bot.db (Reconcile.pworld p)
  = Database.with_transactions (Database.transactions d ++ [record])%list d ->
  fst (Database.getUserByTelegramId (Database.ArgNumber userId) d) = Js.Ok (Some u) ->
  fst (Database.getUserWallet (Database.user_id u) d) = Js.Ok (Some wl) ->
  Database.balance wl = Js.Num q -> (0 <= q)%Q -> (0 < a)%Q ->
  id <> "" -> Forall (fun x => Database.tx_id x <> "") (Database.transactions d) ->
  (forall y, In y (Database.transactions d) ->
     Database.tx_userId y = Database.user_id u -> (Database.tx_createdAt y < created)%N) ->
  Reconcile.confirms reference verify ->
  Reconcile.tick maxAttempts reference userId (Js.Num a) chatId verify e p
  = {| Reconcile.pworld :=
         {| Bot.db :=
              {| Database.users := Database.users d;
                 Database.wallets :=
                   Database.set_balance (Database.wallet_id wl) (Js.Num (Js.toFixed2_Q (q + a)))
                     (Database.wallets d);
                 Database.transactions :=
                   Database.set_status id "success" (Database.transactions d ++ [record])%list |};
            Bot.userSessions := delete chatId (Bot.userSessions (Reconcile.pworld p));
            Bot.effects :=
              (Bot.effects (Reconcile.pworld p)
               ++ [Bot.PaystackVerify reference;
                   Bot.Sent (Bot.Chat chatId) (Bot.WalletFunded (Js.Num a))]
               ++ (if (maxAttempts <=? S (Reconcile.attempts p))%nat
                   then [Bot.Sent (Bot.Chat chatId) Bot.VerificationTimedOut] else []))%list |};
       Reconcile.attempts := S (Reconcile.attempts p);
       Reconcile.running := false |}.
Proof.
  cbn zeta. intros Hdb Huser Hwallet Hbal Hq Ha Hid Hids Hnewest (vstatus & Hver & Hsuccess).
  set (reference := Reference.make Reference.FUND (Database.telegramId u) now) in *.
  set (record := {| Database.tx_id := id |}) in *.
  pose proof (run_eq _ _ _ Hwallet (getUserWallet_reads _ _)) as Hfound.
  apply getUserWallet_found in Hfound as (_ & Huid & _ & _).
  assert (Hlatest := getUserTransactions_newest_first (Database.user_id u) 9 d record
                       Huid eq_refl
                       (fun y Hy Hu => N.lt_le_incl _ _ (Hnewest y Hy Hu))).
  destruct (tick_success maxAttempts reference userId chatId verify e p vstatus u wl q a)
    as (d' & Hwallets & Husers & Hrecord & ->); try assumption.
  - now rewrite Hdb, getUserByTelegramId_transactions.
  - now rewrite Hdb, getUserWallet_transactions.
  - rewrite Hdb. cbn [Database.transactions Database.with_transactions].
    apply Forall_app. split; [exact Hids|]. now constructor.
  - intros txs x Htxs Hfind. rewrite Hdb, Hlatest in Htxs. injection Htxs as <-.
    unfold Reconcile.find_by_details in Hfind. cbn in Hfind.
    rewrite String.eqb_refl in Hfind. injection Hfind as <-. discriminate.
  - f_equal. f_equal.
    rewrite Hdb in *. cbn [Database.wallets Database.users Database.with_transactions] in *.
    specialize (Hrecord _ record Hlatest).
    destruct d' as [us ws ts]; cbn in *. rewrite Hwallets, Husers, Hrecord; [reflexivity|].
    unfold Reconcile.find_by_details. cbn. now rewrite String.eqb_refl.
Qed.

Lemma pending_funding_settled_by_poll_witness :
  let after_fund :=
    Handlers.on_message (Samples.surroundings false) (Samples.says "/fund 500")
      Samples.registered in
  let polling :=
    {| Reconcile.pworld :=
         {| Bot.db := Handlers.store after_fund;
            Bot.userSessions := Handlers.sessions after_fund;
            Bot.effects := [] |};
       Reconcile.attempts := 0;
       Reconcile.running := true |} in
  exists p',
    Reconcile.tick 30 "FUND_42_1700000100002" 42 (Js.Num 500) 7 Samples.payment_succeeded
      (Samples.at_time 1700000105000 "t11") polling = p' /\
    map Database.balance (Database.wallets (Bot.db (Reconcile.pworld p')))
    = [Js.Num (Js.toFixed2_Q (100 + 500))] /\
    map Database.tx_status (Database.transactions (Bot.db (Reconcile.pworld p'))) = ["success"] /\
    Reconcile.running p' = false.
Proof.
  cbv zeta. eexists. split.
  - eapply (pending_funding_settled_by_poll 30 42 7 1700000100002 1700000100350 "t10"
              Samples.payment_succeeded (Samples.at_time 1700000105000 "t11")
              {| Reconcile.pworld :=
                   {| Bot.db :=
                        Handlers.store
                          (Handlers.on_message (Samples.surroundings false)
                             (Samples.says "/fund 500") Samples.registered);
                      Bot.userSessions :=
                        Handlers.sessions
                          (Handlers.on_message (Samples.surroundings false)
                             (Samples.says "/fund 500") Samples.registered);
                      Bot.effects := [] |};
                 Reconcile.attempts := 0;
                 Reconcile.running := true |}
              Samples.store Samples.alice
              {| Database.wallet_id := "w1"; Database.wallet_userId := "u1";
                 Database.balance := Js.Num 100 |} 100 500).
    + vm_compute. reflexivity.
    + reflexivity.
    + reflexivity.
    + reflexivity.
    + unfold Qle. cbn. lia.
    + unfold Qlt. cbn. lia.
    + discriminate.
    + constructor.
    + intros y [].
    + eexists. split; [vm_compute; reflexivity | reflexivity].
  - split; [reflexivity|]. split; reflexivity.
Defined.

(** ** A purchase the provider does not answer *)

(** X15.  A purchase that fails after the debit is not refunded.  In each
    purchase flow, when the user confirms, the balance covers the cost and
    the call of the billing adapter throws (the provider cannot be reached,
    or the adapter refuses its arguments), the handler has already debited
    the wallet: it records no transaction, deletes the session and tells
    the user that the process has been reset, and the balance stays reduced
    by the cost. *)
Theorem provider_error_keeps_the_debit
    (f : Bot.flow) (e : Bot.env) (msg : Bot.incoming) (w : Bot.world)
    (session : Bot.session) (raw : string) (user : Database.user)
    (wl : Database.wallet) (q c : Q) (call : Bot.vtpass_call) (err : Js.error) :
  Bot.userSessions w !! Bot.chat_id msg = Some session ->
  Bot.stage session = Some (Bot.confirm_stage f) ->
  Bot.text msg = Some raw ->
  Js.toLowerCase (Js.sanitize (Js.trim raw)) = "yes" ->
  fst (Database.getUserByTelegramId (Database.ArgNumber (Bot.from_id msg)) (Bot.db w))
  = Js.Ok (Some user) ->
  fst (Database.getUserWallet (Database.user_id user) (Bot.db w)) = Js.Ok (Some wl) ->
  Database.balance wl = Js.Num q ->
  Bot.cost_of f session = Js.Ok (Js.Num c) ->
  (0 <= c)%Q -> (c <= q)%Q ->
  Bot.purchase f session (Js.Num c) (Bot.pay_answer e) = Js.Ok (call, Js.Throw err) ->
  Bot.on_message e msg w
  = Some {| Bot.db :=
              {| Database.users := Database.users (Bot.db w);
                 Database.wallets :=
                   Database.set_balance (Database.wallet_id wl) (Js.Num (Js.toFixed2_Q (q - c)))
                     (Database.wallets (Bot.db w));
                 Database.transactions := Database.transactions (Bot.db w) |};
            Bot.userSessions := delete (Bot.chat_id msg) (Bot.userSessions w);
            Bot.effects :=
              (Bot.effects w
               ++ [Bot.Vtpass call; Bot.Sent (Bot.Chat (Bot.chat_id msg)) Bot.ProcessReset])%list |}.
Proof.
  intros Hsession Hstage Htext Hyes Huser Hwallet Hbal Hcost Hc Hq Hcall.
  rewrite (on_message_confirm f e msg w session raw Hsession Hstage Htext
             (yes_not_skipped _ Hyes)).
  pose proof (run_eq _ _ _ Huser (getUserByTelegramId_reads _ _)) as Huser'.
  pose proof (run_eq _ _ _ Hwallet (getUserWallet_reads _ _)) as Hwallet'.
  assert (Hdebit := debit_written (Database.user_id user) "debit" (Bot.db w) wl q c
                      ltac:(discriminate) Hwallet Hbal Hc Hq).
  assert (Hsufficient : Bot.insufficient (Some wl) (Js.Num c) = false).
  { cbn. rewrite Hbal. cbn. apply Qltb_false_iff. exact Hq. }
  destruct w as [d sessions es]; cbn [Bot.db Bot.userSessions Bot.effects] in *.
  erewrite try_catch_throw; cycle 1.
  { unfold Bot.confirm. rewrite Hyes. cbn [String.eqb Ascii.eqb Bool.eqb].
    step_by ltac:(eapply assign_present; cbn; apply lookup_insert_eq).
    step_by ltac:(apply on_db_run; exact Huser').
    step.
    step_by ltac:(apply on_db_run; exact Hwallet').
    step_by ltac:(unfold Eff.lift; rewrite cost_of_touched, Hcost; reflexivity).
    rewrite Hsufficient.
    step_by ltac:(apply on_db_run; exact Hdebit).
    step_by ltac:(unfold Eff.lift; rewrite purchase_touched, Hcall; reflexivity).
    step.
    apply bind_throw. reflexivity. }
  cbn. unfold Bot.with_sessions. cbn.
  rewrite !delete_insert_eq. now rewrite <- app_assoc.
Qed.

Lemma provider_error_keeps_the_debit_witness :
  exists w',
    Bot.on_message Samples.unreachable (Samples.says "yes")
      (Samples.chatting (Samples.airtime_session 50) Samples.store) = Some w' /\
    map Database.balance (Database.wallets (Bot.db w')) = [Js.Num (Js.toFixed2_Q (100 - 50))] /\
    Database.transactions (Bot.db w') = [] /\
    Bot.userSessions w' !! 7%Z = None.
Proof.
  eexists. split.
  - eapply (provider_error_keeps_the_debit Bot.Airtime Samples.unreachable (Samples.says "yes")
              (Samples.chatting (Samples.airtime_session 50) Samples.store)
              (Samples.airtime_session 50) "yes" Samples.alice
              {| Database.wallet_id := "w1"; Database.wallet_userId := "u1";
                 Database.balance := Js.Num 100 |} 100 50).
    + reflexivity.
    + reflexivity.
    + reflexivity.
    + reflexivity.
    + reflexivity.
    + reflexivity.
    + reflexivity.
    + reflexivity.
    + unfold Qle. cbn. lia.
    + unfold Qle. cbn. lia.
    + reflexivity.
  - split; [reflexivity|]. split; [reflexivity|]. vm_compute. reflexivity.
Defined.

(** ** What the handlers do to the session map *)

Section Untouched.
Import Js Eff Handlers.
Local Open Scope eff_scope.

Context {S V : Type} (view : S -> V).

Lemma quiet_ret {A} (a : A) : quiet view (ret a).
Proof. now intros s. Qed.

Lemma quiet_throw {A} (err : error) : quiet view (@throw S A err).
Proof. now intros s. Qed.

Lemma quiet_lift {A} (o : outcome A) : quiet view (lift o).
Proof. now intros s. Qed.

Lemma quiet_bind {A B} (m : M S A) (k : A -> M S B) :
  quiet view m -> (forall a, quiet view (k a)) -> quiet view (bind m k).
Proof.
  intros Hm Hk s. unfold bind. specialize (Hm s).
  destruct (m s) as [[a|err] s']; cbn in *; [|exact Hm].
  now rewrite Hk.
Qed.

Lemma quiet_try_catch {A} (m : M S A) (h : error -> M S A) :
  quiet view m -> (forall err, quiet view (h err)) -> quiet view (try_catch m h).
Proof.
  intros Hm Hh s. unfold try_catch. specialize (Hm s).
  destruct (m s) as [[a|err] s']; cbn in *; [exact Hm|].
  now rewrite Hh.
Qed.

End Untouched.

Section Footprint.
Import Js Eff Handlers.
Local Open Scope eff_scope.

Context {S : Type} (view : S -> gmap Z Bot.session).

Lemma quiet_confined {A} chatId (m : M S A) : quiet view m -> confined view chatId m.
Proof. intros Hm s c _. now rewrite Hm. Qed.

Lemma confined_bind {A B} chatId (m : M S A) (k : A -> M S B) :
  confined view chatId m -> (forall a, confined view chatId (k a)) ->
  confined view chatId (bind m k).
Proof.
  intros Hm Hk s c Hc. unfold bind. specialize (Hm s c Hc).
  destruct (m s) as [[a|err] s']; cbn in *; [|exact Hm].
  now rewrite Hk.
Qed.

Lemma confined_try_catch {A} chatId (m : M S A) (h : error -> M S A) :
  confined view chatId m -> (forall err, confined view chatId (h err)) ->
  confined view chatId (try_catch m h).
Proof.
  intros Hm Hh s c Hc. unfold try_catch. specialize (Hm s c Hc).
  destruct (m s) as [[a|err] s']; cbn in *; [exact Hm|].
  now rewrite Hh.
Qed.

Lemma entry_quiet {A} chatId before (m : M S A) after :
  quiet view m -> (forall a x, before x -> after a x) -> entry view chatId before m after.
Proof.
  intros Hm Hafter s a s' Hbefore Hrun x Hx.
  specialize (Hm s). rewrite Hrun in Hm. cbn in Hm. rewrite Hm in Hx. auto.
Qed.

Lemma entry_bind {A B} chatId before (m : M S A) mid (k : A -> M S B) after :
  entry view chatId before m mid -> (forall a, entry view chatId (mid a) (k a) after) ->
  entry view chatId before (bind m k) after.
Proof.
  intros Hm Hk s b s'' Hbefore Hrun. unfold bind in Hrun.
  destruct (m s) as [[a|err] s'] eqn:Hms; [|discriminate].
  eapply Hk; [|exact Hrun]. eapply Hm; [exact Hbefore | exact Hms].
Qed.

Lemma entry_bind_quiet {A B} chatId before (m : M S A) (k : A -> M S B) after :
  quiet view m -> (forall a, entry view chatId before (k a) after) ->
  entry view chatId before (bind m k) after.
Proof.
  intros Hm Hk. eapply entry_bind; [|exact Hk].
  apply entry_quiet; [exact Hm | auto].
Qed.

Lemma entry_bind_lift {A B} chatId before (o : outcome A) (k : A -> M S B) after :
  (forall a, o = Ok a -> entry view chatId before (k a) after) ->
  entry view chatId before (bind (lift o) k) after.
Proof.
  intros Hk s b s' Hbefore Hrun. unfold bind, lift in Hrun.
  destruct o as [a|err]; [|discriminate].
  eapply Hk; [reflexivity | exact Hbefore | exact Hrun].
Qed.

Lemma entry_weaken {A} chatId (before before' : Bot.session -> Prop) (m : M S A) after :
  (forall x, before' x -> before x) ->
  entry view chatId before m after -> entry view chatId before' m after.
Proof. intros Himp Hm s a s' Hbefore. apply Hm. auto. Qed.

End Footprint.

Section BotFootprint.
Import Js Eff Database Bot Handlers.
Local Open Scope eff_scope.

Lemma quiet_on_db {A} (m : M Database.t A) : quiet userSessions (on_db m).
Proof. intros w. unfold on_db, zoom. now destruct (m (db w)). Qed.

Lemma quiet_emit e : quiet userSessions (emit e).
Proof. now intros w. Qed.

Lemma quiet_sendMessage to m : quiet userSessions (sendMessage to m).
Proof. now intros w. Qed.

Lemma confined_delete_session chatId : confined userSessions chatId (delete_session chatId).
Proof. intros w c Hc. cbn. now apply lookup_delete_ne. Qed.

Lemma confined_assign chatId s : confined userSessions chatId (assign chatId s).
Proof.
  intros w c Hc. unfold assign, modify. cbn.
  destruct (userSessions w !! chatId); cbn; [now apply lookup_insert_ne | reflexivity].
Qed.

Lemma entry_assign chatId before s :
  entry userSessions chatId before (assign chatId s) (fun _ x => x = s).
Proof.
  intros w a w' _ Hrun x Hx. unfold assign, modify in Hrun. injection Hrun as _ <-.
  destruct (userSessions w !! chatId) eqn:Hold; cbn in Hx.
  - rewrite lookup_insert_eq in Hx. now injection Hx.
  - congruence.
Qed.

Lemma entry_delete_session chatId before :
  entry userSessions chatId before (delete_session chatId) (fun _ _ => False).
Proof.
  intros w a w' _ Hrun x Hx. injection Hrun as _ <-. cbn in Hx.
  now rewrite lookup_delete_eq in Hx.
Qed.

(** A step of [Bot] does to the sessions of the world what it does to
    those of its own. *)
Lemma quiet_bot {A} (m : M Bot.world A) : quiet userSessions m -> quiet sessions (bot m).
Proof.
  intros Hm w. unfold bot, zoom.
  specialize (Hm {| db := store w; userSessions := sessions w; effects := [] |}).
  now destruct (m _).
Qed.

Lemma confined_bot {A} chatId (m : M Bot.world A) :
  confined userSessions chatId m -> confined sessions chatId (bot m).
Proof.
  intros Hm w c Hc. unfold bot, zoom.
  specialize (Hm {| db := store w; userSessions := sessions w; effects := [] |} c Hc).
  now destruct (m _).
Qed.

Lemma entry_bot {A} chatId before (m : M Bot.world A) after :
  entry userSessions chatId before m after -> entry sessions chatId before (bot m) after.
Proof.
  intros Hm w a w' Hbefore Hrun x Hx. unfold bot, zoom in Hrun.
  destruct (m {| db := store w; userSessions := sessions w; effects := [] |})
    as [o b'] eqn:Hmb.
  injection Hrun as -> <-. cbn in Hx.
  eapply Hm; [|exact Hmb|exact Hx]. exact Hbefore.
Qed.

Lemma quiet_act a : quiet sessions (act a).
Proof. now intros w. Qed.

Lemma quiet_reply chatId n k : quiet sessions (reply chatId n k).
Proof. now intros w. Qed.

(** The same for the store. *)
Lemma store_on_db {A} (m : M Database.t A) : (forall d, snd (m d) = d) -> quiet db (on_db m).
Proof. intros Hm w. unfold on_db, zoom. specialize (Hm (db w)). now destruct (m (db w)). Qed.

Lemma store_emit e : quiet db (emit e).
Proof. now intros w. Qed.

Lemma store_sendMessage to m : quiet db (sendMessage to m).
Proof. now intros w. Qed.

Lemma store_delete_session chatId : quiet db (delete_session chatId).
Proof. now intros w. Qed.

Lemma store_assign chatId s : quiet db (assign chatId s).
Proof. intros w. unfold assign, modify. cbn. now destruct (userSessions w !! chatId). Qed.

Lemma store_bot {A} (m : M Bot.world A) : quiet db m -> quiet store (bot m).
Proof.
  intros Hm w. unfold bot, zoom.
  specialize (Hm {| db := store w; userSessions := sessions w; effects := [] |}).
  now destruct (m _).
Qed.

Lemma store_act a : quiet store (act a).
Proof. now intros w. Qed.

Lemma store_reply chatId n k : quiet store (reply chatId n k).
Proof. now intros w. Qed.

End BotFootprint.

(** Steps that leave the sessions as they are, and steps that touch the
    session of one chat only. *)
Ltac quiet_step :=
  first
    [ apply quiet_ret | apply quiet_throw | apply quiet_lift
    | apply quiet_act | apply quiet_reply
    | apply quiet_on_db | apply quiet_emit | apply quiet_sendMessage
    | apply quiet_bot
    | apply store_act | apply store_reply | apply store_emit | apply store_sendMessage
    | apply store_delete_session | apply store_assign | apply store_bot
    | apply store_on_db;
      first [ apply getUserByTelegramId_reads | apply getUserWallet_reads
            | apply getUserTransactions_reads ]
    | apply quiet_bind; [|intros ?]
    | apply quiet_try_catch; [|intros ?]
    | match goal with
      | |- Handlers.quiet _ (if ?b then _ else _) => destruct b
      | |- Handlers.quiet _ (match ?x with _ => _ end) => destruct x
      end ].

Ltac quiet := repeat quiet_step.

Ltac confined_step :=
  first
    [ apply confined_delete_session | apply confined_assign
    | apply confined_bot
    | apply confined_bind; [|intros ?]
    | apply confined_try_catch; [|intros ?]
    | match goal with
      | |- Handlers.confined _ _ (if ?b then _ else _) => destruct b
      | |- Handlers.confined _ _ (match ?x with _ => _ end) => destruct x
      end
    | apply quiet_confined; quiet; fail ].

Ltac confined := repeat confined_step.

Section Isolation.
Import Js Eff Database Bot Handlers.
Local Open Scope eff_scope.

Lemma confined_confirm f e chatId userId session sanitizedText :
  confined userSessions chatId (confirm f e chatId userId session sanitizedText).
Proof. unfold confirm. confined. Qed.

Lemma confined_awaiting_data_phone e chatId session sanitizedText :
  confined userSessions chatId (awaiting_data_phone e chatId session sanitizedText).
Proof. unfold awaiting_data_phone. confined. Qed.

Lemma confined_awaiting_card_number e chatId session sanitizedText :
  confined userSessions chatId (awaiting_card_number e chatId session sanitizedText).
Proof. unfold awaiting_card_number. confined. Qed.

Lemma quiet_fund e chatId userId sanitizedText :
  quiet sessions (fund e chatId userId sanitizedText).
Proof. unfold fund. quiet. Qed.

Lemma confined_menu chatId userId session sanitizedText :
  confined sessions chatId (menu chatId userId session sanitizedText).
Proof. unfold menu. confined. Qed.

Lemma confined_body e chatId userId session sanitizedText :
  confined sessions chatId (body e chatId userId session sanitizedText).
Proof.
  unfold body, awaiting_airtime_amount, awaiting_airtime_phone, awaiting_data_variation,
    awaiting_meter_number, awaiting_meter_amount, awaiting_tv_variation.
  repeat match goal with
         | |- confined _ _ (if stage_is ?s ?st then _ else _) => destruct (stage_is s st)
         end.
  all: try (apply confined_bot;
            first [apply confined_confirm | apply confined_awaiting_data_phone
                  | apply confined_awaiting_card_number]).
  all: try (confined; fail).
  apply confined_bind.
  - destruct (fund_command sanitizedText); apply quiet_confined; [apply quiet_fund | quiet].
  - intros [|]; [apply quiet_confined; quiet | apply confined_menu].
Qed.

End Isolation.

Section StoreKept.
Import Js Eff Database Bot Handlers.
Local Open Scope eff_scope.

Lemma store_confirm_other f e chatId userId session sanitizedText :
  String.eqb (toLowerCase sanitizedText) "yes" = false ->
  quiet db (confirm f e chatId userId session sanitizedText).
Proof. intros Hyes. unfold confirm. rewrite Hyes. quiet. Qed.

Lemma store_awaiting_data_phone e chatId session sanitizedText :
  quiet db (awaiting_data_phone e chatId session sanitizedText).
Proof. unfold awaiting_data_phone. quiet. Qed.

Lemma store_awaiting_card_number e chatId session sanitizedText :
  quiet db (awaiting_card_number e chatId session sanitizedText).
Proof. unfold awaiting_card_number. quiet. Qed.

Lemma store_menu chatId userId session sanitizedText :
  quiet store (menu chatId userId session sanitizedText).
Proof. unfold menu. quiet. Qed.

Lemma store_body e chatId userId session sanitizedText :
  may_write session sanitizedText = false ->
  quiet store (body e chatId userId session sanitizedText).
Proof.
  unfold may_write. cbn [existsb confirm_stage].
  rewrite orb_false_r, orb_false_iff, !andb_false_iff.
  intros [Hconfirm Hfund].
  destruct (at_menu session) eqn:Hmenu.
  - rewrite (body_at_menu _ _ _ _ _ Hmenu).
    destruct Hfund as [Hfund | Hfund]; [discriminate|]. rewrite Hfund.
    apply quiet_bind; [quiet | intros [|]; [quiet | apply store_menu]].
  - clear Hfund.
    unfold body, awaiting_airtime_amount, awaiting_airtime_phone, awaiting_data_variation,
      awaiting_meter_number, awaiting_meter_amount, awaiting_tv_variation.
    unfold at_menu, input_stages in Hmenu. cbn [forallb] in Hmenu.
    repeat match goal with
           | |- quiet _ (if stage_is ?s ?st then _ else _) =>
               destruct (stage_is s st) eqn:?
           end.
    all: try discriminate Hmenu.
    all: try (apply store_bot;
              first [apply store_awaiting_data_phone | apply store_awaiting_card_number]).
    all: try (quiet; fail).
    all: apply store_bot, store_confirm_other;
      destruct Hconfirm as [Hyes|Hstages]; [exact Hyes|];
      cbn in Hstages; repeat (apply orb_false_iff in Hstages as [? Hstages]); congruence.
Qed.

End StoreKept.

Section Events.
Import Js Eff Database Bot Handlers.
Local Open Scope eff_scope.

Lemma confined_reset chatId err : confined userSessions chatId (reset chatId err).
Proof. unfold reset. confined. Qed.

Lemma store_reset chatId err : quiet db (reset chatId err).
Proof. unfold reset. quiet. Qed.

Lemma bot_delete_session_reset chatId err w :
  sessions (snd (bot (reset chatId err) w)) = delete chatId (sessions w).
Proof. unfold reset, bot, zoom. cbn. reflexivity. Qed.

Lemma confined_selected q session data branch :
  selected q session data = Some branch -> confined sessions (query_chat q) branch.
Proof.
  unfold selected, select_airtime_network, select_data_network, select_electricity_provider,
    select_tv_provider.
  repeat match goal with
         | |- context [match ?x with _ => _ end] => destruct x
         end; intros [= <-]; confined.
Qed.

Lemma store_selected q session data branch :
  selected q session data = Some branch -> quiet store branch.
Proof.
  unfold selected, select_airtime_network, select_data_network, select_electricity_provider,
    select_tv_provider.
  repeat match goal with
         | |- context [match ?x with _ => _ end] => destruct x
         end; intros [= <-]; quiet.
Qed.

Lemma on_message_confined e msg w c :
  c <> chat_id msg -> sessions (on_message e msg w) !! c = sessions w !! c.
Proof.
  intros Hc. unfold on_message.
  destruct (text msg) as [raw|]; [|reflexivity].
  destruct (skipped (trim raw)); [reflexivity|].
  rewrite (confined_try_catch sessions (chat_id msg)); [|apply confined_body| |exact Hc].
  - cbn. now apply lookup_insert_ne.
  - intros err. apply confined_bot, confined_reset.
Qed.

Lemma on_callback_query_confined now q w w' c :
  on_callback_query now q w = Some w' ->
  c <> query_chat q -> sessions w' !! c = sessions w !! c.
Proof.
  unfold on_callback_query. intros Hrun Hc.
  destruct (bool_decide (query_data q = Some "cancel_operation")).
  - injection Hrun as <-. cbn. rewrite ?app_nil_r. cbn. now apply lookup_delete_ne.
  - destruct (match query_data q with
              | Some data => selected q (touch_session now (query_chat q) (sessions w)) data
              | None => Some (throw TypeError)
              end) as [branch|] eqn:Hbranch; [|discriminate].
    injection Hrun as <-.
    rewrite (confined_try_catch sessions (query_chat q)); [| | |exact Hc].
    + cbn. now apply lookup_insert_ne.
    + apply confined_bind; [apply quiet_confined, quiet_act|]. intros _.
      destruct (query_data q) as [data|].
      * eapply confined_selected. exact Hbranch.
      * injection Hbranch as <-. apply quiet_confined, quiet_throw.
    + intros err. apply quiet_confined, quiet_reply.
Qed.

Lemma on_start_quiet testMode fresh_user fresh_wallet c w :
  sessions (on_start testMode fresh_user fresh_wallet c w) = sessions w.
Proof.
  unfold on_start.
  apply (quiet_try_catch sessions); [|intros err; apply quiet_reply].
  quiet.
Qed.

End Events.

(** X16.  The handlers keep to their chat: an event of one chat (a message, a
    pressed button, a command) leaves the session of every other chat as it
    is. *)
Theorem handlers_keep_to_their_chat
    (ev : Handlers.event) (w w' : Handlers.world) (chat c : Z) :
  Handlers.handle ev w = Some w' ->
  Handlers.chat_of ev = Some chat ->
  c <> chat ->
  Handlers.sessions w' !! c = Handlers.sessions w !! c.
Proof.
  intros Hrun Hchat Hc.
  destruct ev as [e msg|now q|testMode fu fw cmd|testMode cmd|cmd|now];
    cbn [Handlers.handle Handlers.chat_of] in Hrun, Hchat; try discriminate;
    injection Hchat as <-.
  - injection Hrun as <-. now apply on_message_confined.
  - now apply (on_callback_query_confined now q w w').
  - injection Hrun as <-. now rewrite on_start_quiet.
  - injection Hrun as <-. reflexivity.
  - injection Hrun as <-. cbn. rewrite ?app_nil_r. cbn. now apply lookup_delete_ne.
Qed.

Lemma handlers_keep_to_their_chat_witness :
  let w := Handlers.of_bot (Samples.chatting (Samples.airtime_session 50) Samples.store) in
  let press :=
    Handlers.CallbackQuery 1700000100000
      {| Handlers.query_id := "q2"; Handlers.query_chat := 8; Handlers.query_message := 3;
         Handlers.query_data := Some "cancel_operation" |} in
  exists w',
    Handlers.handle press w = Some w' /\
    Handlers.sessions w' !! 7%Z = Handlers.sessions w !! 7%Z.
Proof.
  cbv zeta. eexists. split; [vm_compute; reflexivity|].
  apply (handlers_keep_to_their_chat
           (Handlers.CallbackQuery 1700000100000
              {| Handlers.query_id := "q2"; Handlers.query_chat := 8;
                 Handlers.query_message := 3;
                 Handlers.query_data := Some "cancel_operation" |})
           (Handlers.of_bot (Samples.chatting (Samples.airtime_session 50) Samples.store))
           _ 8 7).
  - vm_compute. reflexivity.
  - reflexivity.
  - discriminate.
Defined.

(** X17.  Only a confirmation, a funding and a registration write to the store:
    every other run of a handler (the message handler on a text that is no
    [yes] at a confirm stage and no [/fund] command outside the input
    stages, the callback handler on a pressed button that the model
    follows, [/test], [/cancel], the cleanup) leaves every user, balance
    and transaction as it is.  The text is the one the handler compares:
    trimmed of white space of any kind, without [<>{}], in lower case. *)
Theorem only_confirmations_and_fundings_write
    (ev : Handlers.event) (w w' : Handlers.world) :
  Handlers.handle ev w = Some w' ->
  Handlers.writes ev w = false ->
  Handlers.store w' = Handlers.store w.
Proof.
  intros Hrun Hwrites.
  destruct ev as [e msg|now q|testMode fu fw cmd|testMode cmd|cmd|now];
    cbn [Handlers.handle Handlers.writes] in Hrun, Hwrites; try discriminate;
    try (injection Hrun as <-; reflexivity).
  - injection Hrun as <-. unfold Handlers.on_message.
    destruct (Bot.text msg) as [raw|]; [|reflexivity].
    destruct (Bot.skipped (Js.trim raw)); [reflexivity|]. cbv zeta.
    rewrite (quiet_try_catch Handlers.store); [reflexivity| |].
    + now apply store_body.
    + intros err. apply store_bot, store_reset.
  - unfold Handlers.on_callback_query in Hrun.
    destruct (bool_decide (Handlers.query_data q = Some "cancel_operation")).
    + injection Hrun as <-. reflexivity.
    + destruct (match Handlers.query_data q with
                | Some data =>
                    Handlers.selected q
                      (Bot.touch_session now (Handlers.query_chat q) (Handlers.sessions w)) data
                | None => Some (Eff.throw Js.TypeError)
                end) as [branch|] eqn:Hbranch; [|discriminate].
      injection Hrun as <-.
      rewrite (quiet_try_catch Handlers.store); [reflexivity| |].
      * apply quiet_bind; [apply store_act|]. intros _.
        destruct (Handlers.query_data q) as [data|].
        -- eapply store_selected. exact Hbranch.
        -- injection Hbranch as <-. apply quiet_throw.
      * intros err. apply store_reply.
Qed.

Lemma only_confirmations_and_fundings_write_witness :
  let w := Handlers.of_bot (Samples.chatting (Samples.airtime_session 50) Samples.store) in
  exists w',
    Handlers.handle (Handlers.Message (Samples.surroundings false) (Samples.says "no")) w
    = Some w' /\
    Handlers.store w' = Handlers.store w.
Proof.
  cbv zeta. eexists. split; [vm_compute; reflexivity|].
  apply (only_confirmations_and_fundings_write
           (Handlers.Message (Samples.surroundings false) (Samples.says "no"))
           (Handlers.of_bot (Samples.chatting (Samples.airtime_session 50) Samples.store))).
  - vm_compute. reflexivity.
  - vm_compute. reflexivity.
Defined.

(** ** The sessions hold what their stage needs *)

Ltac entry_step :=
  first
    [ eapply entry_bind_lift; intros ? ?
    | eapply entry_bind; [apply entry_bot, entry_assign | intros ?; cbv beta]
    | eapply entry_bind; [apply entry_assign | intros ?; cbv beta]
    | eapply entry_bind; [apply entry_bot, entry_delete_session | intros ?; cbv beta]
    | eapply entry_bind; [apply entry_delete_session | intros ?; cbv beta]
    | apply entry_bind_quiet; [quiet; fail | intros ?] ].

Ltac entry_end := apply entry_quiet; [quiet; fail | intros ? ? Hentry; try rewrite Hentry].

Ltac session_fields :=
  cbn [Bot.stage Bot.lastActivity Bot.airtimeNetwork Bot.airtimeAmount Bot.phone
       Bot.dataNetwork Bot.dataPhone Bot.variations Bot.variation Bot.electricityProvider
       Bot.meter Bot.amount Bot.tvProvider Bot.card
       Bot.set_stage Bot.set_lastActivity Bot.set_dataPhone Bot.set_card Bot.set_variations
       Bot.new_session
       Handlers.set_airtimeNetwork Handlers.set_airtimeAmount Handlers.set_phone
       Handlers.set_dataNetwork Handlers.set_variation Handlers.set_electricityProvider
       Handlers.set_meter Handlers.set_amount Handlers.set_tvProvider] in *.

(** The conjunct of [complete] that speaks of the stage the session is
    assigned; the others hold of no stage but their own. *)
Ltac complete_at_stage :=
  unfold Handlers.complete, Handlers.stage_is; session_fields;
  cbn [String.eqb Ascii.eqb Bool.eqb];
  repeat split; try (intros; discriminate).

Section Complete.
Import Js Eff Database Bot Handlers.
Local Open Scope eff_scope.

Lemma complete_touched now s : complete s -> complete (set_lastActivity now s).
Proof. unfold complete, stage_is. now session_fields. Qed.

Lemma complete_new now : complete (new_session now).
Proof. unfold complete, stage_is. session_fields. repeat split; discriminate. Qed.

Lemma complete_touch_session now chatId ss :
  (forall s, ss !! chatId = Some s -> complete s) ->
  complete (touch_session now chatId ss) /\ lastActivity (touch_session now chatId ss) = now.
Proof.
  intros Hss. unfold touch_session. destruct (ss !! chatId) as [s|].
  - split; [apply complete_touched; now apply Hss | reflexivity].
  - split; [apply complete_new | reflexivity].
Qed.

(** A stage that is no input stage asks for nothing. *)
Lemma complete_elsewhere s st :
  stage s = Some st -> existsb (String.eqb st) input_stages = false -> complete s.
Proof.
  intros Hstage Helse. unfold complete, stage_is. rewrite Hstage.
  cbn [existsb input_stages] in Helse.
  repeat (apply orb_false_iff in Helse as [? Helse]).
  repeat split; intros; congruence.
Qed.

Lemma complete_idle s : stage s = None -> complete s.
Proof. intros Hstage. unfold complete, stage_is. rewrite Hstage. repeat split; discriminate. Qed.

(** The facts [complete] gives at the stage the session is in. *)
Lemma valid_amount min sanitizedText :
  isNaN (parseFloat_string sanitizedText) || lt (parseFloat_string sanitizedText) (Num min)
  = false ->
  at_least min (Some (parseFloat_string sanitizedText)).
Proof.
  destruct (parseFloat_string sanitizedText) as [|q]; [discriminate|].
  cbn. intros Hlt. exists q. split; [reflexivity|]. now apply Qltb_false_iff.
Qed.

Lemma find_variation_chosen vcode items v :
  find_variation vcode items = Ok (Some v) -> plan_chosen v.
Proof.
  induction items as [|x items IH]; cbn; [discriminate|].
  destruct (member x "variation_code") as [[| | | |code| |]|err] eqn:Hcode; try discriminate.
  destruct (String.eqb (toLowerCase code) (toLowerCase vcode)); [|exact IH].
  intros [= <-]. now exists code.
Qed.

Lemma choose_variation_chosen variations vcode v :
  choose_variation variations vcode = Ok (Some v) -> plan_chosen v.
Proof.
  destruct variations; try discriminate. apply find_variation_chosen.
Qed.

Lemma lookup_own {A} (table : list (string * A)) key a :
  Tables.lookup table key = Tables.Own a -> In (key, a) table.
Proof.
  unfold Tables.lookup.
  destruct (List.find _ table) as [[k b]|] eqn:Hfind.
  - intros [= <-]. apply find_some in Hfind as [Hin Hk].
    apply String.eqb_eq in Hk. cbn in Hk. now subst.
  - destruct (Tables.inherited key); discriminate.
Qed.

Variables (chatId : Z) (now : N) (session : session).
Hypothesis Hcomplete : complete session.
Hypothesis Hnow : lastActivity session = now.

Lemma entry_awaiting_airtime_amount sanitizedText :
  stage_is session "awaiting_airtime_amount" = true ->
  entry sessions chatId (fun x => x = session)
    (awaiting_airtime_amount chatId session sanitizedText) (kept now).
Proof.
  intros Hstage. unfold awaiting_airtime_amount.
  destruct (isNaN _ || lt _ (Num 50)) eqn:Hvalid.
  - entry_end. now split.
  - entry_step. entry_end. split; [|exact Hnow].
    destruct Hcomplete as (Hhere & _). specialize (Hhere Hstage).
    complete_at_stage; [exact Hhere | now apply valid_amount].
Qed.

Lemma entry_awaiting_airtime_phone sanitizedText :
  stage_is session "awaiting_airtime_phone" = true ->
  entry sessions chatId (fun x => x = session)
    (awaiting_airtime_phone chatId session sanitizedText) (kept now).
Proof.
  intros Hstage. unfold awaiting_airtime_phone.
  destruct (phone_ok (strip_non_digits sanitizedText)) eqn:Hvalid; cbn [negb].
  - entry_step. entry_step. entry_end. split; [|exact Hnow].
    destruct Hcomplete as (_ & Hhere & _). destruct (Hhere Hstage) as [Hnetwork Hamount].
    complete_at_stage; try assumption. now eexists.
  - entry_end. now split.
Qed.

Lemma entry_confirm f e userId sanitizedText :
  entry userSessions chatId (fun x => x = session)
    (confirm f e chatId userId session sanitizedText) (kept now).
Proof.
  unfold confirm.
  destruct (String.eqb (toLowerCase sanitizedText) "yes").
  - entry_step. do 4 entry_step.
    destruct (insufficient _ _).
    + entry_step. entry_end. contradiction.
    + do 7 entry_step. entry_end. contradiction.
  - destruct (String.eqb (toLowerCase sanitizedText) "cancel").
    + entry_step. entry_end. contradiction.
    + entry_end. now split.
Qed.

Lemma entry_awaiting_data_phone e sanitizedText :
  stage_is session "awaiting_data_phone" = true ->
  entry userSessions chatId (fun x => x = session)
    (awaiting_data_phone e chatId session sanitizedText) (kept now).
Proof.
  intros Hstage. unfold awaiting_data_phone.
  destruct (phone_ok (strip_non_digits sanitizedText)) eqn:Hvalid; cbn [negb].
  - do 6 entry_step.
    destruct (no_plans _).
    + entry_step. entry_end. contradiction.
    + do 2 entry_step. entry_end. split; [|exact Hnow].
      destruct Hcomplete as (_ & _ & _ & Hhere & _). specialize (Hhere Hstage).
      complete_at_stage; [exact Hhere | now eexists].
  - entry_end. now split.
Qed.

Lemma entry_awaiting_data_variation sanitizedText :
  stage_is session "awaiting_data_variation" = true ->
  entry sessions chatId (fun x => x = session)
    (awaiting_data_variation chatId session sanitizedText) (kept now).
Proof.
  intros Hstage. unfold awaiting_data_variation.
  eapply entry_bind_lift. intros [v|] Hchosen.
  - do 2 entry_step. entry_end. split; [|exact Hnow].
    destruct Hcomplete as (_ & _ & _ & _ & Hhere & _). destruct (Hhere Hstage) as [Hnetwork Hphone].
    complete_at_stage; try assumption.
    eapply choose_variation_chosen. exact Hchosen.
  - entry_end. now split.
Qed.

Lemma entry_awaiting_meter_number e sanitizedText :
  stage_is session "awaiting_meter_number" = true ->
  entry sessions chatId (fun x => x = session)
    (awaiting_meter_number e chatId session sanitizedText) (kept now).
Proof.
  intros Hstage. unfold awaiting_meter_number.
  destruct (long_digits_ok (trim sanitizedText)) eqn:Hvalid; cbn [negb].
  - do 5 entry_step.
    destruct (is_str _ "000"); cbn [negb].
    + do 2 entry_step. entry_end. split; [|exact Hnow].
      destruct Hcomplete as (_ & _ & _ & _ & _ & _ & Hhere & _). specialize (Hhere Hstage).
      complete_at_stage; [exact Hhere | now eexists].
    + entry_step. entry_end. contradiction.
  - entry_end. now split.
Qed.

Lemma entry_awaiting_meter_amount sanitizedText :
  stage_is session "awaiting_meter_amount" = true ->
  entry sessions chatId (fun x => x = session)
    (awaiting_meter_amount chatId session sanitizedText) (kept now).
Proof.
  intros Hstage. unfold awaiting_meter_amount.
  destruct (isNaN _ || lt _ (Num 100)) eqn:Hvalid.
  - entry_end. now split.
  - do 2 entry_step. entry_end. split; [|exact Hnow].
    destruct Hcomplete as (_ & _ & _ & _ & _ & _ & _ & Hhere & _).
    destruct (Hhere Hstage) as [Hprovider Hmeter].
    complete_at_stage; try assumption. now apply valid_amount.
Qed.

Lemma entry_awaiting_card_number e sanitizedText :
  stage_is session "awaiting_card_number" = true ->
  entry userSessions chatId (fun x => x = session)
    (awaiting_card_number e chatId session sanitizedText) (kept now).
Proof.
  intros Hstage. unfold awaiting_card_number.
  destruct (long_digits_ok (trim sanitizedText)) eqn:Hvalid; cbn [negb].
  - do 6 entry_step.
    destruct (no_plans _).
    + entry_step. entry_end. contradiction.
    + entry_step. entry_end. split; [|exact Hnow].
      destruct Hcomplete as (_ & _ & _ & _ & _ & _ & _ & _ & _ & Hhere & _).
      specialize (Hhere Hstage).
      complete_at_stage; [exact Hhere | now eexists].
  - entry_end. now split.
Qed.

Lemma entry_awaiting_tv_variation sanitizedText :
  stage_is session "awaiting_tv_variation" = true ->
  entry sessions chatId (fun x => x = session)
    (awaiting_tv_variation chatId session sanitizedText) (kept now).
Proof.
  intros Hstage. unfold awaiting_tv_variation.
  eapply entry_bind_lift. intros [v|] Hchosen.
  - do 2 entry_step. entry_end. split; [|exact Hnow].
    destruct Hcomplete as (_ & _ & _ & _ & _ & _ & _ & _ & _ & _ & Hhere & _).
    destruct (Hhere Hstage) as [Hprovider Hcard].
    complete_at_stage; try assumption.
    eapply choose_variation_chosen. exact Hchosen.
  - entry_end. now split.
Qed.

Lemma entry_menu userId sanitizedText :
  entry sessions chatId (fun x => x = session) (menu chatId userId session sanitizedText) (kept now).
Proof.
  unfold menu.
  repeat match goal with
         | |- entry _ _ _ (if String.eqb ?a ?b then _ else _) _ => destruct (String.eqb a b)
         end.
  1-4: entry_step; entry_end; (split; [|exact Hnow]);
       eapply complete_elsewhere; [reflexivity | reflexivity].
  all: entry_end; now split.
Qed.

Lemma entry_body e userId sanitizedText :
  entry sessions chatId (fun x => x = session)
    (body e chatId userId session sanitizedText) (kept now).
Proof.
  unfold body.
  repeat match goal with
         | |- entry _ _ _ (if stage_is ?s ?st then _ else _) _ =>
             destruct (stage_is s st) eqn:?
         end.
  - now apply entry_awaiting_airtime_amount.
  - now apply entry_awaiting_airtime_phone.
  - apply entry_bot, entry_confirm.
  - now apply entry_bot, entry_awaiting_data_phone.
  - now apply entry_awaiting_data_variation.
  - apply entry_bot, entry_confirm.
  - now apply entry_awaiting_meter_number.
  - now apply entry_awaiting_meter_amount.
  - apply entry_bot, entry_confirm.
  - now apply entry_bot, entry_awaiting_card_number.
  - now apply entry_awaiting_tv_variation.
  - apply entry_bot, entry_confirm.
  - apply entry_bind_quiet.
    + destruct (fund_command sanitizedText); [apply quiet_fund | apply quiet_ret].
    + intros [|]; [|apply entry_menu]. apply entry_quiet; [apply quiet_ret|].
      intros ? x Hentry. rewrite Hentry. now split.
Qed.

End Complete.

Section Reachable.
Import Js Eff Database Bot Handlers.
Local Open Scope eff_scope.

Lemma entry_selected q session data branch :
  complete session ->
  selected q session data = Some branch ->
  entry sessions (query_chat q) (fun x => x = session) branch
    (kept (lastActivity session)).
Proof.
  intros Hcomplete.
  unfold selected, select_airtime_network, select_data_network, select_electricity_provider,
    select_tv_provider.
  destruct (drop_prefix "airtime_network_" data) as [code|].
  { destruct (List.find _ _) as [n|] eqn:Hfind; intros [= <-].
    - entry_step. entry_end. split; [|reflexivity].
      complete_at_stage. exists n. split; [reflexivity|]. now apply find_some in Hfind as [? _].
    - entry_end. now split. }
  destruct (drop_prefix "data_network_" data) as [code|].
  { destruct (List.find _ _) as [n|] eqn:Hfind; intros [= <-].
    - entry_step. entry_end. split; [|reflexivity].
      complete_at_stage. exists n. split; [reflexivity|]. now apply find_some in Hfind as [? _].
    - entry_end. now split. }
  destruct (drop_prefix "electricity_provider_" data) as [code|].
  { destruct (Tables.lookup _ code) as [name| |] eqn:Hlookup; intros [= <-].
    - entry_step. entry_end. split; [|reflexivity].
      complete_at_stage. eexists. split; [reflexivity|]. now apply lookup_own.
    - entry_end. now split. }
  destruct (drop_prefix "tv_provider_" data) as [code|].
  { destruct (Tables.lookup _ code) as [p| |] eqn:Hlookup; intros [= <-].
    - entry_step. entry_end. split; [|reflexivity].
      complete_at_stage. eexists. split; [reflexivity|].
      apply lookup_own in Hlookup. apply (in_map snd) in Hlookup. now destruct p.
    - entry_end. now split. }
  intros [= <-]. entry_end. now split.
Qed.

(** What a handled message leaves in the session of its chat. *)
Lemma on_message_entry e msg w raw s :
  (forall x, sessions w !! chat_id msg = Some x -> complete x) ->
  text msg = Some raw -> skipped (trim raw) = false ->
  sessions (on_message e msg w) !! chat_id msg = Some s ->
  complete s /\ lastActivity s = now (clock (outside e)).
Proof.
  intros Hold Htext Hskip. rewrite (on_message_runs e msg w raw Htext Hskip).
  destruct (complete_touch_session (now (clock (outside e))) (chat_id msg) (sessions w) Hold)
    as [Hcomplete Hnow].
  set (session := touch_session _ _ _) in *.
  unfold try_catch.
  destruct (body e (chat_id msg) (from_id msg) session (sanitize (trim raw))
              (with_entry (chat_id msg) session w)) as [[a|err] w1] eqn:Hrun.
  - cbn [snd]. intros Hs.
    eapply (entry_body (chat_id msg) _ session Hcomplete Hnow e (from_id msg)
              (sanitize (trim raw))); [|exact Hrun|exact Hs].
    intros x Hx. cbn in Hx. rewrite lookup_insert_eq in Hx. now injection Hx.
  - rewrite bot_delete_session_reset. cbn. now rewrite lookup_delete_eq.
Qed.

End Reachable.

Section Invariant.
Import Js Eff Database Bot Handlers.
Local Open Scope eff_scope.

Lemma on_message_complete e msg w : all_complete w -> all_complete (on_message e msg w).
Proof.
  intros Hinv c s Hs.
  destruct (text msg) as [raw|] eqn:Htext; cycle 1.
  { unfold on_message in Hs. rewrite Htext in Hs. eapply Hinv, Hs. }
  destruct (skipped (trim raw)) eqn:Hskip.
  { unfold on_message in Hs. rewrite Htext, Hskip in Hs. eapply Hinv, Hs. }
  destruct (decide (c = chat_id msg)) as [->|Hc].
  - eapply on_message_entry; [|exact Htext|exact Hskip|exact Hs]. apply Hinv.
  - rewrite on_message_confined in Hs by exact Hc. eapply Hinv, Hs.
Qed.

(** A selection never throws. *)
Lemma selected_returns q session data branch w :
  selected q session data = Some branch -> exists w', branch w = (Ok tt, w').
Proof.
  unfold selected, select_airtime_network, select_data_network,
    select_electricity_provider, select_tv_provider.
  intros Hbranch.
  repeat match type of Hbranch with
         | context [match ?y with _ => _ end] => destruct y
         end; try discriminate; injection Hbranch as <-;
    unfold bind, reply, act, modify, ret; rewrite ?bot_assign; eauto.
Qed.

Lemma on_callback_query_complete now q w w' :
  all_complete w -> on_callback_query now q w = Some w' -> all_complete w'.
Proof.
  intros Hinv Hrun c s Hs.
  destruct (decide (c = query_chat q)) as [->|Hc]; cycle 1.
  { rewrite (on_callback_query_confined now q w w' c Hrun Hc) in Hs. eapply Hinv, Hs. }
  unfold on_callback_query in Hrun.
  destruct (bool_decide (query_data q = Some "cancel_operation")).
  { injection Hrun as <-. cbn in Hs. rewrite ?app_nil_r in Hs. cbn in Hs.
    now rewrite lookup_delete_eq in Hs. }
  destruct (complete_touch_session now (query_chat q) (sessions w) (Hinv (query_chat q)))
    as [Hcomplete Hnow].
  cbv zeta in Hrun.
  set (session := touch_session _ _ _) in *.
  destruct (query_data q) as [data|]; cycle 1.
  { injection Hrun as <-. cbn in Hs. rewrite lookup_insert_eq in Hs. now injection Hs as <-. }
  destruct (selected q session data) as [branch|] eqn:Hbranch; [|discriminate].
  injection Hrun as <-.
  pose proof (entry_selected q session data branch Hcomplete Hbranch) as Hentry.
  unfold try_catch, bind in Hs. cbn [act modify] in Hs.
  match type of Hs with
  | context [branch ?w0] =>
      destruct (selected_returns q session data branch w0 Hbranch) as [w1 Hrun];
      rewrite Hrun in Hs; cbn [snd] in Hs;
      eapply Hentry; [|exact Hrun|exact Hs]
  end.
  intros x Hx. cbn in Hx. rewrite lookup_insert_eq in Hx. now injection Hx.
Qed.

Lemma cleanup_complete now w : all_complete w -> all_complete (cleanup now w).
Proof.
  intros Hinv c s Hs. cbn in Hs. apply map_lookup_filter_Some in Hs as [Hs _].
  eapply Hinv, Hs.
Qed.

Lemma handle_complete ev w w' : all_complete w -> handle ev w = Some w' -> all_complete w'.
Proof.
  intros Hinv Hrun.
  destruct ev as [e msg|now q|testMode fu fw cmd|testMode cmd|cmd|now];
    cbn [handle] in Hrun.
  - injection Hrun as <-. now apply on_message_complete.
  - now apply (on_callback_query_complete now q w).
  - injection Hrun as <-. intros c s Hs. rewrite on_start_quiet in Hs. eapply Hinv, Hs.
  - injection Hrun as <-. exact Hinv.
  - injection Hrun as <-. intros c s Hs. cbn in Hs. rewrite ?app_nil_r in Hs. cbn in Hs.
    apply lookup_delete_Some in Hs as [_ Hs]. eapply Hinv, Hs.
  - injection Hrun as <-. now apply cleanup_complete.
Qed.

Lemma run_complete evs w w' : all_complete w -> run evs w = Some w' -> all_complete w'.
Proof.
  revert w. induction evs as [|ev evs IH]; intros w Hinv Hrun; cbn in Hrun.
  - now injection Hrun as <-.
  - destruct (handle ev w) as [w1|] eqn:Hstep; [|discriminate].
    eapply IH; [|exact Hrun]. eapply handle_complete; [exact Hinv | exact Hstep].
Qed.

End Invariant.

Section Confirmable.
Import Js Eff Database Bot Handlers.

Lemma stage_is_stage s st : stage s = Some st -> stage_is s st = true.
Proof. unfold stage_is. intros ->. apply String.eqb_refl. Qed.

Lemma digits_nonempty t : (10 <=? String.length t)%nat = true -> String.eqb t "" = false.
Proof. now destruct t. Qed.

(** A session that is complete at a confirm stage holds what the purchase
    reads. *)
Lemma complete_confirm f s answer :
  complete s -> stage s = Some (confirm_stage f) ->
  exists cost call result,
    cost_of f s = Ok cost /\
    purchase f s cost answer = Ok (call, result) /\
    (f = Airtime \/ f = Electricity -> result = answer /\ exists q, cost = Num q /\ (50 <= q)%Q).
Proof.
  intros Hcomplete Hstage. apply stage_is_stage in Hstage.
  destruct Hcomplete as (_ & _ & Hairtime & _ & _ & Hdata & _ & _ & Helectricity & _ & _ & Htv).
  destruct f; cbn [confirm_stage] in Hstage.
  - destruct (Hairtime Hstage) as ((n & Hn & Hin) & (q & Hq & Hmin) & (t & Ht & Hphone)).
    unfold cost_of, purchase, VTPass.buyAirtime. rewrite Hn, Hq, Ht. cbn [defined number_of].
    eexists _, _, _. split; [reflexivity|]. split; [reflexivity|]. intros _.
    split; [|now exists q].
    unfold phone_ok in Hphone. apply andb_prop in Hphone as [Hphone _].
    apply andb_prop in Hphone as [_ Hlen].
    cbn [VTPass.missing falsy_number]. rewrite (digits_nonempty t Hlen).
    assert (Hzero : Qeq_bool q 0 = false).
    { destruct (Qeq_bool q 0) eqn:Hz; [|reflexivity]. apply Qeq_bool_eq in Hz. lra. }
    rewrite Hzero.
    cbn in Hin. repeat (destruct Hin as [<-|Hin]; [reflexivity|]). contradiction.
  - destruct (Hdata Hstage) as ((n & Hn & _) & _ & (code & Hcode)).
    unfold cost_of, purchase. rewrite Hn, Hcode. cbn [defined].
    destruct (variation s); try discriminate; cbn [member];
      (eexists _, _, _; split; [reflexivity|]; split; [reflexivity|]);
      intros [Hf|Hf]; discriminate.
  - destruct (Helectricity Hstage) as ((p & Hp & Hin) & (t & Ht & Hmeter) & (q & Hq & Hmin)).
    unfold cost_of, purchase, VTPass.payElectricityBill. rewrite Hp, Hq, Ht.
    cbn [defined number_of].
    eexists _, _, _. split; [reflexivity|]. split; [reflexivity|]. intros _.
    split; [|exists q; split; [reflexivity|lra]].
    unfold long_digits_ok in Hmeter. apply andb_prop in Hmeter as [_ Hlen].
    cbn [VTPass.missing falsy_number]. rewrite (digits_nonempty t Hlen).
    assert (Hzero : Qeq_bool q 0 = false).
    { destruct (Qeq_bool q 0) eqn:Hz; [|reflexivity]. apply Qeq_bool_eq in Hz. lra. }
    rewrite Hzero.
    assert (Hdefault : String.eqb (phone_or_default (phone s)) "" = false).
    { unfold phone_or_default. destruct (phone s) as [ph|]; [|reflexivity].
      destruct (String.eqb ph "") eqn:Hph; [reflexivity|exact Hph]. }
    rewrite Hdefault.
    cbn in Hin.
    repeat (destruct Hin as [Hin|Hin]; [injection Hin as <- _; reflexivity|]). contradiction.
  - destruct (Htv Hstage) as ((p & Hp & _) & _ & (code & Hcode)).
    unfold cost_of, purchase. rewrite Hp, Hcode. cbn [defined].
    destruct (variation s); try discriminate; cbn [member];
      (eexists _, _, _; split; [reflexivity|]; split; [reflexivity|]);
      intros [Hf|Hf]; discriminate.
Qed.

End Confirmable.

(** X18.  The sessions hold what their stage needs.  Starting with no
    session, after any sequence of messages, pressed buttons, commands and
    cleanups, in whatever order and from whatever chats, that the model
    follows ([followed]: no pressed provider button names a member that the
    table inherits; an amount is typed with at most 15 digits, without
    exponent and not as [Infinity]; a plan code is typed in ASCII and
    compared with ASCII codes): a session that waits at a stage holds what
    the stages before it collect, a network or provider of the tables, an
    amount of at least 50 (airtime) or 100 (electricity), a phone number of
    10 to 14 digits, a meter or card number of 10 digits or more, a plan
    with its code. *)
Theorem sessions_hold_what_their_stage_needs
    (evs : list Handlers.event) (w w' : Handlers.world) (chatId : Z) (s : Bot.session) :
  Handlers.sessions w = ∅ ->
  Handlers.followed evs w = true ->
  Handlers.run evs w = Some w' ->
  Handlers.sessions w' !! chatId = Some s ->
  Handlers.complete s.
Proof.
  intros Hempty _ Hrun Hs.
  eapply (run_complete evs w w'); [|exact Hrun|exact Hs].
  intros c x Hx. rewrite Hempty, lookup_empty in Hx. discriminate.
Qed.

Lemma sessions_hold_what_their_stage_needs_witness :
  exists s,
    Handlers.sessions
      (default Samples.registered (Handlers.run Samples.airtime_order Samples.registered))
    !! 7%Z = Some s /\
    Bot.stage s = Some "confirm_airtime" /\ Handlers.complete s.
Proof.
  eexists. split; [vm_compute; reflexivity|]. split; [reflexivity|].
  eapply (sessions_hold_what_their_stage_needs Samples.airtime_order Samples.registered _ 7).
  - reflexivity.
  - vm_compute. reflexivity.
  - vm_compute. reflexivity.
  - vm_compute. reflexivity.
Defined.

(** X19.  A confirmation finds its data.  In every session that the handlers
    leave at a confirm stage, after a sequence of events that the model
    follows ([followed], as for X18) from a world whose sessions hold what
    their stages need, the purchase reads its arguments without an
    exception; for airtime and electricity the billing adapter accepts
    them too, so what the purchase comes to is what the provider answers,
    and the cost is a number of at least 50. *)
Theorem confirmation_finds_its_data
    (evs : list Handlers.event) (w w' : Handlers.world) (chatId : Z) (s : Bot.session)
    (f : Bot.flow) (answer : Js.outcome Js.value) :
  Handlers.all_complete w ->
  Handlers.followed evs w = true ->
  Handlers.run evs w = Some w' ->
  Handlers.sessions w' !! chatId = Some s ->
  Bot.stage s = Some (Bot.confirm_stage f) ->
  exists cost call result,
    Bot.cost_of f s = Js.Ok cost /\
    Bot.purchase f s cost answer = Js.Ok (call, result) /\
    (f = Bot.Airtime \/ f = Bot.Electricity ->
     result = answer /\ exists q, cost = Js.Num q /\ (50 <= q)%Q).
Proof.
  intros Hinv _ Hrun Hs Hstage.
  apply complete_confirm; [|exact Hstage].
  eapply (run_complete evs w w'); [exact Hinv|exact Hrun|exact Hs].
Qed.

Lemma confirmation_finds_its_data_witness :
  exists s,
    Handlers.sessions
      (default Samples.registered (Handlers.run Samples.airtime_order Samples.registered))
    !! 7%Z = Some s /\
    exists cost call result,
      Bot.cost_of Bot.Airtime s = Js.Ok cost /\
      Bot.purchase Bot.Airtime s cost (Js.Ok Samples.delivered) = Js.Ok (call, result) /\
      (Bot.Airtime = Bot.Airtime \/ Bot.Airtime = Bot.Electricity ->
       result = Js.Ok Samples.delivered /\ exists q, cost = Js.Num q /\ (50 <= q)%Q).
Proof.
  eexists. split; [vm_compute; reflexivity|].
  eapply (confirmation_finds_its_data Samples.airtime_order Samples.registered _ 7 _
            Bot.Airtime).
  - intros c x Hx. cbn in Hx. rewrite lookup_empty in Hx. discriminate.
  - vm_compute. reflexivity.
  - vm_compute. reflexivity.
  - vm_compute. reflexivity.
  - reflexivity.
Defined.

(** Where the model stops following: an amount typed as [Infinity], which
    the code accepts and stores, and a pressed button that names a member
    the provider table inherits, which the code takes for a provider. *)
Example typed_infinity_is_not_followed :
  Handlers.followed
    [Handlers.CallbackQuery 1700000000000 (Samples.presses "airtime_network_mtn");
     Handlers.Message (Samples.surroundings false) (Samples.says "Infinity")]
    Samples.registered
  = false.
Proof. vm_compute. reflexivity. Qed.

Example inherited_member_is_not_followed :
  Handlers.run
    [Handlers.CallbackQuery 1700000000000 (Samples.presses "electricity_provider_constructor")]
    Samples.registered
  = None.
Proof. vm_compute. reflexivity. Qed.

(** X20.  A session lives for thirty minutes after its last message.  After
    a message that the handler has processed at the time [now] and that
    leaves the chat a session, the cleanup at a later time keeps that
    session while no more than [SESSION_TIMEOUT] (1 800 000 ms) have
    passed since [now], and deletes it afterwards. *)
Theorem session_expires_after_timeout
    (e : Handlers.env) (msg : Bot.incoming) (w : Handlers.world) (raw : string)
    (s : Bot.session) (later : N) :
  Handlers.all_complete w ->
  Bot.text msg = Some raw -> Bot.skipped (Js.trim raw) = false ->
  Handlers.sessions (Handlers.on_message e msg w) !! Bot.chat_id msg = Some s ->
  Handlers.sessions (Handlers.cleanup later (Handlers.on_message e msg w)) !! Bot.chat_id msg
  = if (Z.of_N later - Z.of_N (Js.now (Bot.clock (Handlers.outside e))) <=? 30 * 60 * 1000)%Z
    then Some s else None.
Proof.
  intros Hinv Htext Hskip Hs.
  destruct (on_message_entry e msg w raw s (Hinv (Bot.chat_id msg)) Htext Hskip Hs)
    as [_ Hnow].
  cbn [Handlers.cleanup Handlers.sessions].
  rewrite map_lookup_filter, Hs. cbn.
  unfold Handlers.expired, Handlers.SESSION_TIMEOUT. rewrite Hnow.
  destruct (Z.leb_spec (Z.of_N later - Z.of_N (Js.now (Bot.clock (Handlers.outside e))))
              (30 * 60 * 1000)) as [Hle|Hgt].
  - rewrite option_guard_True; [reflexivity|]. cbn. apply Z.ltb_ge. exact Hle.
  - rewrite option_guard_False; [reflexivity|]. cbn. intros Hf. apply Z.ltb_ge in Hf. lia.
Qed.

Lemma session_expires_after_timeout_witness :
  let after_message :=
    Handlers.on_message (Samples.surroundings false) (Samples.says "Buy Airtime")
      Samples.registered in
  exists s,
    Handlers.sessions after_message !! 7%Z = Some s /\
    Handlers.sessions (Handlers.cleanup 1700001900000 after_message) !! 7%Z = Some s /\
    Handlers.sessions (Handlers.cleanup 1700001900001 after_message) !! 7%Z = None.
Proof.
  cbv zeta. eexists. split; [vm_compute; reflexivity|].
  assert (Hinv : Handlers.all_complete Samples.registered).
  { intros c x Hx. cbn in Hx. rewrite lookup_empty in Hx. discriminate. }
  split.
  - refine (eq_trans
              (session_expires_after_timeout (Samples.surroundings false)
                 (Samples.says "Buy Airtime") Samples.registered "Buy Airtime" _ 1700001900000
                 Hinv eq_refl eq_refl _) _); [vm_compute; reflexivity | reflexivity].
  - refine (eq_trans
              (session_expires_after_timeout (Samples.surroundings false)
                 (Samples.says "Buy Airtime") Samples.registered "Buy Airtime" _ 1700001900001
                 Hinv eq_refl eq_refl _) _); [vm_compute; reflexivity | reflexivity].
Defined.
